(** * Quality validation, read-through cache and batch persistence

    A shallow embedding of [app/validation.py] (class [DataValidator]) and of
    the caching and storage parts of [app/services/data_manager.py] (class
    [DataManager]), together with the properties the specification states
    about them.

    Conventions of the embedding.
    - A pandas [Timestamp] is its integer value, nanoseconds since the epoch
      ([Z]); [NaT] is [None].  A [Timedelta] is a number of nanoseconds.
    - A [datetime.time] is a number of microseconds since midnight, so that
      the order on [Z] is the order Python uses on [time] objects.
    - Prices and scores are Python floats in the source.  They are embedded
      as the rationals they denote ([Q]); comparisons are exact, arithmetic
      is carried out without rounding.
    - A [DataFrame] is its list of column names and its rows, each row with
      its index label; a Python [dict] is an association list in insertion
      order.
    - Code that can raise returns [outcome]; code with side effects returns
      the list of effects ([Event]) it performed, in order. *)

From Stdlib Require Import ZArith QArith List String Ascii Bool Lia Lqa DecimalString.
From Stdlib Require Import Permutation Sorted.
Import ListNotations.
Open Scope string_scope.
Open Scope list_scope.
Open Scope Z_scope.

(* ------------------------------------------------------------------ *)
(** ** Python values shared by both modules *)

Inductive Exn : Type :=
| KeyError (key : string)
| IndexError
| ValueError (msg : string).

Inductive outcome (A : Type) : Type :=
| Returned (a : A)
| Raised (e : Exn).
Arguments Returned {A} a.
Arguments Raised {A} e.

Definition bind {A B : Type} (m : outcome A) (k : A -> outcome B) : outcome B :=
  match m with
  | Returned a => k a
  | Raised e => Raised e
  end.

Notation "x <- m ;; k" := (bind m (fun x => k))
  (at level 61, m at next level, right associativity).
Notation "' p <- m ;; k" := (bind m (fun x => let p := x in k))
  (at level 61, p pattern, m at next level, right associativity).

(** [x in xs] for strings. *)
Definition mem_string (x : string) (xs : list string) : bool :=
  existsb (String.eqb x) xs.

(** [len(xs)] as a Python integer. *)
Definition len {A : Type} (xs : list A) : Z := Z.of_nat (List.length xs).

(** [(mask).sum()]: the number of rows on which [p] holds. *)
Definition count {A : Type} (p : A -> bool) (xs : list A) : Z :=
  len (filter p xs).

(** [seq.iloc[i]]: positional access, negative positions count from the end,
    anything else is an [IndexError]. *)
Definition iloc {A : Type} (xs : list A) (i : Z) : outcome A :=
  let pos := if 0 <=? i then i else len xs + i in
  if (0 <=? pos) && (pos <? len xs)
  then match nth_error xs (Z.to_nat pos) with
       | Some a => Returned a
       | None => Raised IndexError
       end
  else Raised IndexError.

(* ------------------------------------------------------------------ *)
(** ** Instants, dates and times of day *)

Definition Timestamp : Type := Z.      (* nanoseconds since 1970-01-01 *)
Definition Timedelta : Type := Z.      (* nanoseconds *)
Definition Date : Type := Z.           (* days since 1970-01-01 *)
Definition Time : Type := Z.           (* microseconds since midnight *)

Definition NS_PER_SECOND : Z := 1000000000.
Definition NS_PER_MINUTE : Z := 60 * NS_PER_SECOND.
Definition NS_PER_DAY : Z := 86400 * NS_PER_SECOND.

(** [timedelta(minutes=m)] *)
Definition timedelta_minutes (m : Z) : Timedelta := m * NS_PER_MINUTE.

(** [timestamp.date()] *)
Definition date_of (ts : Timestamp) : Date := ts / NS_PER_DAY.

(** [timestamp.time()]: the time of day, nanoseconds dropped. *)
Definition time_of (ts : Timestamp) : Time := (ts mod NS_PER_DAY) / 1000.

(** [timestamp.weekday()]: Monday is 0, Sunday is 6; day 0 was a Thursday. *)
Definition weekday (ts : Timestamp) : Z := (date_of ts + 3) mod 7.

(** [timestamp.year], by the usual days-to-civil conversion of the proleptic
    Gregorian calendar. *)
Definition year_of_date (d : Date) : Z :=
  let z := d + 719468 in
  let era := z / 146097 in
  let doe := z - era * 146097 in
  let yoe := (doe - doe / 1460 + doe / 36524 - doe / 146096) / 365 in
  let doy := doe - (365 * yoe + yoe / 4 - yoe / 100) in
  let mp := (5 * doy + 2) / 153 in
  let m := if mp <? 10 then mp + 3 else mp - 9 in
  yoe + era * 400 + (if m <=? 2 then 1 else 0).

Definition year_of (ts : Timestamp) : Z := year_of_date (date_of ts).

(** [timestamp.replace(second=0, microsecond=0)] *)
Definition truncate_to_minute (ts : Timestamp) : Timestamp :=
  ts - ts mod NS_PER_MINUTE.

(** [time(h, m, s)] *)
Definition mk_time (h m s : Z) : Time := ((h * 60 + m) * 60 + s) * 1000000.

(** A timestamp from a day number and a time of day. *)
Definition mk_timestamp (d : Date) (t : Time) : Timestamp :=
  d * NS_PER_DAY + t * 1000.

(** The holiday calendar, [holidays.India(years=...)]: an object that maps a
    date to the name of its holiday; [date in calendar] tests whether the
    date has one.  [set()] is the calendar without holidays. *)
Definition HolidayCalendar : Type := Date -> option string.

Definition no_holidays : HolidayCalendar := fun _ => None.

Definition is_holiday (cal : HolidayCalendar) (d : Date) : bool :=
  match cal d with Some _ => true | None => false end.

(* ------------------------------------------------------------------ *)
(** ** Configuration ([DataManager.__init__]) *)

Record TradingHours : Type := {
  th_start : option Time;
  th_end : option Time
}.

Record ValidationRules : Type := {
  price_range_min : Q;
  price_range_max : Q;
  volume_min : Z;
  ohlc_logic : bool;
  time_sequence : bool;
  duplicate_check : bool;
  quality_threshold : Q;
  trading_hours : option TradingHours;
  check_holidays : option bool
}.

Record Config : Type := {
  data_validation_enabled : option bool;
  batch_size : option Z
}.

(** [self._validation_rules] as [DataManager.__init__] builds it. *)
Definition default_validation_rules : ValidationRules := {|
  price_range_min := 1 # 10;
  price_range_max := 200000;
  volume_min := 0;
  ohlc_logic := true;
  time_sequence := true;
  duplicate_check := true;
  quality_threshold := 95 # 100;
  trading_hours := Some {| th_start := Some (mk_time 9 15 0);
                           th_end := Some (mk_time 15 30 0) |};
  check_holidays := Some true
|}.

(** [self.config] as [DataManager.__init__] builds it from no overrides. *)
Definition default_config : Config := {|
  data_validation_enabled := Some true;
  batch_size := Some 5000
|}.

(** [self.config.get('data_validation_enabled', True)] *)
Definition config_validation_enabled (cfg : Config) : bool :=
  match data_validation_enabled cfg with Some b => b | None => true end.

(** [self.config.get('batch_size', 10000)] *)
Definition config_batch_size (cfg : Config) : Z :=
  match batch_size cfg with Some n => n | None => 10000 end.

(** [pd.Timestamp(rules.get('trading_hours', {}).get('start', '09:15:00')).time()] *)
Definition rules_trading_start (rules : ValidationRules) : Time :=
  match trading_hours rules with
  | Some th => match th_start th with Some t => t | None => mk_time 9 15 0 end
  | None => mk_time 9 15 0
  end.

(** [pd.Timestamp(rules.get('trading_hours', {}).get('end', '15:29:00')).time()] *)
Definition rules_trading_end (rules : ValidationRules) : Time :=
  match trading_hours rules with
  | Some th => match th_end th with Some t => t | None => mk_time 15 29 0 end
  | None => mk_time 15 29 0
  end.

(** [rules.get('check_holidays', True)] *)
Definition rules_check_holidays (rules : ValidationRules) : bool :=
  match check_holidays rules with Some b => b | None => true end.

(* ------------------------------------------------------------------ *)
(** ** Data frames *)

Record Row : Type := {
  r_timestamp : option Timestamp;
  r_open : Q;
  r_high : Q;
  r_low : Q;
  r_close : Q;
  r_volume : Z
}.

(** A frame: the column names it has and its rows, each under its index
    label.  The fields of a [Row] whose column is absent are never read:
    reading an absent column raises [KeyError]. *)
Record DataFrame : Type := {
  df_columns : list string;
  df_rows : list (Z * Row)
}.

(** [len(data)] *)
Definition df_len (data : DataFrame) : Z := len (df_rows data).

(** [data.empty]: true when either axis has length zero. *)
Definition df_empty (data : DataFrame) : bool :=
  match df_rows data, df_columns data with
  | [], _ => true
  | _, [] => true
  | _, _ => false
  end.

(** [col in data.columns] *)
Definition has_column (data : DataFrame) (col : string) : bool :=
  mem_string col (df_columns data).

(** [data[col]] for the columns in [cols], read in that order: the first
    absent one raises. *)
Fixpoint read_columns (data : DataFrame) (cols : list string) : outcome unit :=
  match cols with
  | [] => Returned tt
  | c :: cs => if has_column data c then read_columns data cs
               else Raised (KeyError c)
  end.

(** [data['timestamp']] with its index labels. *)
Definition timestamps (rows : list (Z * Row)) : list (Z * option Timestamp) :=
  map (fun lr => (fst lr, r_timestamp (snd lr))) rows.

(* ------------------------------------------------------------------ *)
(** ** [DataValidator]: the trading calendar *)

(** [DataValidator._is_trading_time] *)
Definition _is_trading_time (timestamp : option Timestamp)
    (trading_start trading_end : Time) (ind_holidays : HolidayCalendar) : bool :=
  match timestamp with
  | None => false
  | Some ts =>
      if 5 <=? weekday ts then false
      else if is_holiday ind_holidays (date_of ts) then false
      else (trading_start <=? time_of ts) && (time_of ts <=? trading_end)
  end.

(** [DataValidator._get_trading_data_only] *)
Definition _get_trading_data_only (data : DataFrame)
    (trading_start trading_end : Time) (ind_holidays : HolidayCalendar) : DataFrame :=
  if negb (has_column data "timestamp") then data
  else {| df_columns := df_columns data;
          df_rows := filter (fun lr => _is_trading_time (r_timestamp (snd lr))
                                         trading_start trading_end ind_holidays)
                            (df_rows data) |}.

(* ------------------------------------------------------------------ *)
(** ** Series operations used by the validator *)

(** [a <= b] on timestamps the way [sort_values] orders them: [NaT] last. *)
Definition ts_le (a b : option Timestamp) : bool :=
  match a, b with
  | Some x, Some y => x <=? y
  | Some _, None => true
  | None, Some _ => false
  | None, None => true
  end.

Fixpoint insert_by_timestamp (x : Z * Row) (rows : list (Z * Row)) : list (Z * Row) :=
  match rows with
  | [] => [x]
  | y :: rest =>
      if ts_le (r_timestamp (snd x)) (r_timestamp (snd y)) then x :: y :: rest
      else y :: insert_by_timestamp x rest
  end.

(** [data.sort_values('timestamp')]: rows keep their labels; rows with equal
    timestamps keep their relative order. *)
Definition sort_values_timestamp (data : DataFrame) : DataFrame :=
  {| df_columns := df_columns data;
     df_rows := fold_right insert_by_timestamp [] (df_rows data) |}.

Fixpoint diff_from (prev : option Timestamp) (s : list (Z * option Timestamp))
  : list (Z * option Timedelta) :=
  match s with
  | [] => []
  | (lbl, t) :: rest =>
      (lbl, match t, prev with
            | Some a, Some b => Some (a - b)
            | _, _ => None
            end) :: diff_from t rest
  end.

(** [series.diff()]: the first entry is [NaT], every entry stays under the
    label of its row. *)
Definition diff (s : list (Z * option Timestamp)) : list (Z * option Timedelta) :=
  match s with
  | [] => []
  | (lbl, t) :: rest => (lbl, None) :: diff_from t rest
  end.

(** [series.dropna()] *)
Fixpoint dropna {A : Type} (s : list (Z * option A)) : list (Z * A) :=
  match s with
  | [] => []
  | (lbl, Some a) :: rest => (lbl, a) :: dropna rest
  | (_, None) :: rest => dropna rest
  end.

Fixpoint insert_distinct (x : Z) (xs : list Z) : list Z :=
  match xs with
  | [] => [x]
  | y :: rest =>
      if x <? y then x :: y :: rest
      else if x =? y then y :: rest
      else y :: insert_distinct x rest
  end.

(** The distinct values of [xs] in ascending order. *)
Definition sorted_distinct (xs : list Z) : list Z :=
  fold_right insert_distinct [] xs.

(** [series.mode()]: the values that occur most often, ascending. *)
Definition mode (xs : list Z) : list Z :=
  let occurrences := fun x => count (Z.eqb x) xs in
  let best := fold_right Z.max 0 (map occurrences xs) in
  sorted_distinct (filter (fun x => occurrences x =? best) xs).

(** [series.min()] of a non-empty series. *)
Definition series_min (x : Z) (xs : list Z) : Z := fold_right Z.min x xs.

(** [data.duplicated(subset=['timestamp']).sum()]: rows whose timestamp
    already occurred in an earlier row ([NaT] equals [NaT] here). *)
Definition opt_ts_eqb (a b : option Timestamp) : bool :=
  match a, b with
  | Some x, Some y => x =? y
  | None, None => true
  | _, _ => false
  end.

Fixpoint duplicated_count (seen : list (option Timestamp))
    (s : list (Z * option Timestamp)) : Z :=
  match s with
  | [] => 0
  | (_, t) :: rest =>
      (if existsb (opt_ts_eqb t) seen then 1 else 0) + duplicated_count (t :: seen) rest
  end.

(** The years of the timestamps that are not [NaT]. *)
Definition years_of (s : list (Z * option Timestamp)) : list Z :=
  sorted_distinct (map (fun lt => year_of (snd lt)) (dropna s)).

(* ------------------------------------------------------------------ *)
(** ** Scores *)

Definition Qlt_bool (x y : Q) : bool := negb (Qle_bool y x).

(** [max(0, x)] *)
Definition max0 (x : Q) : Q := if Qlt_bool 0 x then x else 0%Q.

(** [max(0, 1 - (c / n))] *)
Definition ratio_score (c n : Z) : Q := max0 (1 - inject_Z c / inject_Z n)%Q.

Definition Qsum (xs : list Q) : Q := fold_right Qplus 0%Q xs.

(** [np.mean(xs)] *)
Definition mean (xs : list Q) : Q := (Qsum xs / inject_Z (len xs))%Q.

(* ------------------------------------------------------------------ *)
(** ** The quality report *)

(** The issue strings of the validator, one constructor per message. *)
Inductive Issue : Type :=
| MissingColumns (missing_columns : list string)
| EmptyDataset
| OhlcLogicViolations (n : Z)
| OutOfRange (col : string) (n : Z)
| InvalidVolume (n : Z)
| OutsideTradingHours (trading_start trading_end : Time) (n : Z)
| NonTradingDays (n : Z)
| MissingTimestamps (n : Z)
| TimeSequenceErrors (n : Z)
| MissingTimeIntervals (gaps : Z) (missing_data_points : option Z)
| MissingConsecutiveMinutes (n : Z)
| DuplicateTimestamps (n : Z)
| ValidationFailed (cause : Exn).

Inductive NonTradingReason : Type :=
| Weekend
| Holiday (holiday_name : string).

Record NonTradingTimestamp : Type := {
  nt_timestamp : Timestamp;
  nt_reason : NonTradingReason
}.

Record NonTradingOhlcv : Type := {
  nto_timestamp : Timestamp;
  nto_reason : NonTradingReason;
  nto_open : Q;
  nto_high : Q;
  nto_low : Q;
  nto_close : Q;
  nto_volume : Z
}.

Record GapDetail : Type := {
  gap_start : option Timestamp;
  gap_end : option Timestamp;
  gap_duration_minutes : Z;
  missing_intervals : Z;
  expected_interval_minutes : Z
}.

Record MissingMinute : Type := {
  missing_timestamp : Timestamp;
  prev_timestamp : Timestamp;
  next_timestamp : Timestamp;
  mm_gap_duration_minutes : Z
}.

Record TimestampDetails : Type := {
  non_trading_timestamps : list NonTradingTimestamp;
  non_trading_ohlcv_data : list NonTradingOhlcv;
  missing_interval_timestamps : list Timestamp;
  gap_details : list GapDetail;
  missing_consecutive_minutes : list MissingMinute
}.

Definition empty_timestamp_details : TimestampDetails := {|
  non_trading_timestamps := [];
  non_trading_ohlcv_data := [];
  missing_interval_timestamps := [];
  gap_details := [];
  missing_consecutive_minutes := []
|}.

(** The fourth component of the validator's result: [{}] or the dictionary of
    the five lists. *)
Inductive Details : Type :=
| EmptyDict
| DetailsDict (d : TimestampDetails).

(** What [validate_data_quality] returns: a tuple of three or of four
    components. *)
Inductive Report : Type :=
| Tuple3 (is_valid : bool) (issues : list Issue) (score : Q)
| Tuple4 (is_valid : bool) (issues : list Issue) (score : Q) (details : Details).

Definition report_is_valid (r : Report) : bool :=
  match r with Tuple3 v _ _ => v | Tuple4 v _ _ _ => v end.

Definition report_issues (r : Report) : list Issue :=
  match r with Tuple3 _ i _ => i | Tuple4 _ i _ _ => i end.

Definition report_score (r : Report) : Q :=
  match r with Tuple3 _ _ s => s | Tuple4 _ _ s _ => s end.

Definition report_arity (r : Report) : nat :=
  match r with Tuple3 _ _ _ => 3%nat | Tuple4 _ _ _ _ => 4%nat end.

(** [a, b, c, d = report] *)
Definition unpack4 (r : Report) : outcome (bool * list Issue * Q * Details) :=
  match r with
  | Tuple4 v i s d => Returned (v, i, s, d)
  | Tuple3 _ _ _ => Raised (ValueError "not enough values to unpack (expected 4, got 3)")
  end.

(** [a, b, c = report] *)
Definition unpack3 (r : Report) : outcome (bool * list Issue * Q) :=
  match r with
  | Tuple3 v i s => Returned (v, i, s)
  | Tuple4 _ _ _ _ => Raised (ValueError "too many values to unpack (expected 3)")
  end.

(** Effects, in the order they happen. *)
Inductive Event : Type :=
| EvValidatorLog (symbol : string) (issues : list Issue) (quality_score : Q)
| EvLoggerError (cause : Exn)
| EvQualityLog (symbol : string) (quality_score : Q) (issues : list Issue) (severity : Z)
| EvExecute (nrows : Z) (committed : bool)
| EvSleep (seconds : Z)
| EvBatchStored (start_idx end_idx : Z)
| EvBatchRetry (start_idx end_idx : Z) (attempt : Z)
| EvBatchFailed (start_idx end_idx : Z)
| EvInvalidateCache (symbol : string)
| EvPartialSuccess (successful_batches failed_batches : Z)
| EvAllBatchesFailed
| EvValidationFailedWarning (symbol : string) (issues : list Issue).

(** The local variables [issues], [quality_scores] and [timestamp_details]
    of [validate_data_quality]. *)
Record VState : Type := {
  issues : list Issue;
  quality_scores : list Q;
  timestamp_details : TimestampDetails
}.

Definition initial_vstate : VState := {|
  issues := [];
  quality_scores := [];
  timestamp_details := empty_timestamp_details
|}.

Definition add_issue (i : Issue) (st : VState) : VState :=
  {| issues := issues st ++ [i];
     quality_scores := quality_scores st;
     timestamp_details := timestamp_details st |}.

Definition add_score (s : Q) (st : VState) : VState :=
  {| issues := issues st;
     quality_scores := quality_scores st ++ [s];
     timestamp_details := timestamp_details st |}.

Definition set_details (d : TimestampDetails) (st : VState) : VState :=
  {| issues := issues st;
     quality_scores := quality_scores st;
     timestamp_details := d |}.

(** [issues.append(i); quality_scores.append(ratio)] when [c > 0], else
    [quality_scores.append(1.0)]. *)
Definition report_count (c n : Z) (i : Issue) (st : VState) : VState :=
  if 0 <? c then add_score (ratio_score c n) (add_issue i st)
  else add_score 1%Q st.

(* ------------------------------------------------------------------ *)
(** ** [DataValidator] *)

Module DataValidator.

Section Validator.

(** [holidays.India]: the holiday calendar of the given years. *)
Variable India : list Z -> HolidayCalendar.

Variable rules : ValidationRules.

Definition required_columns : list string :=
  ["timestamp"; "open"; "high"; "low"; "close"; "volume"].

(** [holidays.India(years=list(years)) if years else set()] *)
Definition holidays_for (years : list Z) : HolidayCalendar :=
  match years with
  | [] => no_holidays
  | _ => India years
  end.

(** [DataValidator._calculate_expected_trading_intervals] *)
Definition _calculate_expected_trading_intervals (data_sorted : DataFrame)
    (trading_start trading_end : Time) (ind_holidays : HolidayCalendar)
  : option Timedelta * Z :=
  if df_len data_sorted <? 2 then (None, 0)
  else
    let trading_data :=
      _get_trading_data_only data_sorted trading_start trading_end ind_holidays in
    if df_len trading_data <? 2 then (None, 0)
    else
      let time_diffs := dropna (diff (timestamps (df_rows trading_data))) in
      if len time_diffs =? 0 then (None, 0)
      else
        match mode (map snd time_diffs) with
        | expected_interval :: _ => (Some expected_interval, df_len trading_data)
        | [] => (None, 0)
        end.

(** Basic structure validation. *)
Definition structure_check (data : DataFrame) (st : VState) : VState :=
  match filter (fun col => negb (has_column data col)) required_columns with
  | [] => add_score 1%Q st
  | missing_columns => add_score 0%Q (add_issue (MissingColumns missing_columns) st)
  end.

(** OHLC logic validation. *)
Definition ohlc_check (data : DataFrame) (st : VState) : outcome VState :=
  if ohlc_logic rules then
    _ <- read_columns data ["high"; "open"; "high"; "close"; "high"; "low";
                            "low"; "open"; "low"; "close"; "low"; "high"] ;;
    let high_violations :=
      count (fun lr => let r := snd lr in
               Qlt_bool (r_high r) (r_open r) || Qlt_bool (r_high r) (r_close r)
               || Qlt_bool (r_high r) (r_low r)) (df_rows data) in
    let low_violations :=
      count (fun lr => let r := snd lr in
               Qlt_bool (r_open r) (r_low r) || Qlt_bool (r_close r) (r_low r)
               || Qlt_bool (r_high r) (r_low r)) (df_rows data) in
    let ohlc_violations := 0 + high_violations + low_violations in
    Returned (report_count ohlc_violations (df_len data)
                (OhlcLogicViolations ohlc_violations) st)
  else Returned st.

Definition price_cols : list (string * (Row -> Q)) :=
  [("open", r_open); ("high", r_high); ("low", r_low); ("close", r_close)].

(** One turn of the loop over [price_cols]; [acc] is [price_quality]. *)
Definition price_col_check (data : DataFrame) (col : string * (Row -> Q))
    (acc : VState * Q) : outcome (VState * Q) :=
  _ <- read_columns data [fst col; fst col] ;;
  let out_of_range :=
    count (fun lr => Qlt_bool (snd col (snd lr)) (price_range_min rules)
                     || Qlt_bool (price_range_max rules) (snd col (snd lr)))
          (df_rows data) in
  if 0 <? out_of_range
  then Returned (add_issue (OutOfRange (fst col) out_of_range) (fst acc),
                 (snd acc * ratio_score out_of_range (df_len data))%Q)
  else Returned acc.

Fixpoint price_loop (data : DataFrame) (cols : list (string * (Row -> Q)))
    (acc : VState * Q) : outcome (VState * Q) :=
  match cols with
  | [] => Returned acc
  | col :: rest => acc' <- price_col_check data col acc ;; price_loop data rest acc'
  end.

(** Price range validation. *)
Definition price_check (data : DataFrame) (st : VState) : outcome VState :=
  acc <- price_loop data price_cols (st, 1%Q) ;;
  Returned (add_score (snd acc) (fst acc)).

(** Volume validation. *)
Definition volume_check (data : DataFrame) (st : VState) : outcome VState :=
  _ <- read_columns data ["volume"] ;;
  let negative_volume :=
    count (fun lr => r_volume (snd lr) <? volume_min rules) (df_rows data) in
  Returned (report_count negative_volume (df_len data)
              (InvalidVolume negative_volume) st).

(** Trading hours validation. *)
Definition trading_hours_check (data : DataFrame) (st : VState) : VState :=
  let trading_start := rules_trading_start rules in
  let trading_end := rules_trading_end rules in
  let invalid_hours :=
    count (fun lt =>
             match snd lt with
             | Some ts => (time_of ts <? trading_start) || (trading_end <? time_of ts)
             | None => false
             end) (timestamps (df_rows data)) in
  report_count invalid_hours (df_len data)
    (OutsideTradingHours trading_start trading_end invalid_hours) st.

(** The loop over [data.iterrows()] of the holiday and weekend validation:
    the count and the two lists it appends to. *)
Fixpoint non_trading_loop (ind_holidays : HolidayCalendar) (rows : list (Z * Row))
    (acc : Z * list NonTradingTimestamp * list NonTradingOhlcv)
  : Z * list NonTradingTimestamp * list NonTradingOhlcv :=
  match rows with
  | [] => acc
  | (_, row) :: rest =>
      let '(non_trading_days, stamps, ohlcv) := acc in
      let record := fun ts reason =>
        (non_trading_days + 1,
         stamps ++ [{| nt_timestamp := ts; nt_reason := reason |}],
         ohlcv ++ [{| nto_timestamp := ts; nto_reason := reason;
                      nto_open := r_open row; nto_high := r_high row;
                      nto_low := r_low row; nto_close := r_close row;
                      nto_volume := r_volume row |}]) in
      non_trading_loop ind_holidays rest
        match r_timestamp row with
        | None => acc
        | Some ts =>
            if 5 <=? weekday ts then record ts Weekend
            else match ind_holidays (date_of ts) with
                 | Some name => record ts (Holiday name)
                 | None => acc
                 end
        end
  end.

(** Holiday and weekend validation. *)
Definition holiday_check (data : DataFrame) (st : VState) : VState :=
  if rules_check_holidays rules then
    match years_of (timestamps (df_rows data)) with
    | [] => st
    | years =>
        let ind_holidays := India years in
        let d := timestamp_details st in
        let '(non_trading_days, stamps, ohlcv) :=
          non_trading_loop ind_holidays (df_rows data)
            (0, non_trading_timestamps d, non_trading_ohlcv_data d) in
        let st' := set_details
          {| non_trading_timestamps := stamps;
             non_trading_ohlcv_data := ohlcv;
             missing_interval_timestamps := missing_interval_timestamps d;
             gap_details := gap_details d;
             missing_consecutive_minutes := missing_consecutive_minutes d |} st in
        report_count non_trading_days (df_len data)
          (NonTradingDays non_trading_days) st'
    end
  else st.

(** [1.1 if expected_interval <= timedelta(minutes=1) else 1.5] *)
Definition gap_tolerance (expected_interval : Timedelta) : Q :=
  if expected_interval <=? timedelta_minutes 1 then 11 # 10 else 3 # 2.

(** [time_diffs > (expected_interval * tolerance)], entry by entry. *)
Definition is_large_gap (expected_interval : Timedelta) (gap : Timedelta) : bool :=
  Qlt_bool (inject_Z expected_interval * gap_tolerance expected_interval)
           (inject_Z gap).

(** [int((gap.total_seconds() / expected_interval.total_seconds()) - 1)] *)
Definition gap_missing_intervals (expected_interval gap : Timedelta) : Z :=
  Z.quot (gap - expected_interval) expected_interval.

(** The loop over [zip(gap_indices, gap_values)]; [acc] holds
    [missing_intervals], [actual_gap_count] and [gap_details]. *)
Fixpoint gap_loop (expected_interval : Timedelta) (trading_rows : list (Z * Row))
    (gaps : list (Z * Timedelta)) (acc : Z * Z * list GapDetail)
  : outcome (Z * Z * list GapDetail) :=
  match gaps with
  | [] => Returned acc
  | (gap_idx, gap) :: rest =>
      let '(missing, actual_gap_count, details) := acc in
      if 0 <? expected_interval then
        let gap_missing := gap_missing_intervals expected_interval gap in
        if (0 <? gap_missing) && (gap_missing <=? 1000) then
          start_row <- iloc trading_rows gap_idx ;;
          end_row <- iloc trading_rows (gap_idx + 1) ;;
          gap_loop expected_interval trading_rows rest
            (missing + gap_missing, actual_gap_count + 1,
             details ++ [{| gap_start := r_timestamp (snd start_row);
                            gap_end := r_timestamp (snd end_row);
                            gap_duration_minutes := Z.quot gap NS_PER_MINUTE;
                            missing_intervals := gap_missing;
                            expected_interval_minutes :=
                              Z.quot expected_interval NS_PER_MINUTE |}])
        else gap_loop expected_interval trading_rows rest acc
      else gap_loop expected_interval trading_rows rest acc
  end.

Definition with_gap_details (details : list GapDetail) (st : VState) : VState :=
  let d := timestamp_details st in
  set_details {| non_trading_timestamps := non_trading_timestamps d;
                 non_trading_ohlcv_data := non_trading_ohlcv_data d;
                 missing_interval_timestamps := missing_interval_timestamps d;
                 gap_details := details;
                 missing_consecutive_minutes := missing_consecutive_minutes d |} st.

Definition with_missing_minutes (minutes : list MissingMinute) (st : VState) : VState :=
  let d := timestamp_details st in
  set_details {| non_trading_timestamps := non_trading_timestamps d;
                 non_trading_ohlcv_data := non_trading_ohlcv_data d;
                 missing_interval_timestamps := missing_interval_timestamps d;
                 gap_details := gap_details d;
                 missing_consecutive_minutes := minutes |} st.

(** The expected interval the gap check works with, and the number of
    trading bars: what the call of [_calculate_expected_trading_intervals]
    in [validate_data_quality] returns. *)
Definition expected_interval_of (data_sorted : DataFrame) : option Timedelta * Z :=
  _calculate_expected_trading_intervals data_sorted
    (rules_trading_start rules) (rules_trading_end rules)
    (holidays_for (years_of (timestamps (df_rows data_sorted)))).

(** [trading_data = self._get_trading_data_only(data_sorted, ...)] followed by
    [trading_data.sort_values('timestamp')]. *)
Definition trading_data_of (data_sorted : DataFrame) : DataFrame :=
  sort_values_timestamp
    (_get_trading_data_only data_sorted
       (rules_trading_start rules) (rules_trading_end rules)
       (holidays_for (years_of (timestamps (df_rows data_sorted))))).

(** A [Timedelta] in a condition: zero is false. *)
Definition timedelta_truthy (t : option Timedelta) : bool :=
  match t with
  | Some d => negb (d =? 0)
  | None => false
  end.

(** Check for missing time intervals (gaps in sequence). *)
Definition gap_detection (data_sorted : DataFrame) (st : VState) : outcome VState :=
  let '(expected_interval, trading_data_count) := expected_interval_of data_sorted in
  if timedelta_truthy expected_interval && (1 <? trading_data_count) then
    let expected := match expected_interval with Some d => d | None => 0 end in
    let trading_data := trading_data_of data_sorted in
    let time_diffs := dropna (diff (timestamps (df_rows trading_data))) in
    if 0 <? len time_diffs then
      let large_gaps := filter (fun ld => is_large_gap expected (snd ld)) time_diffs in
      let gap_count := len large_gaps in
      if 0 <? gap_count then
        '(missing, actual_gap_count, details) <-
          gap_loop expected (df_rows trading_data) large_gaps
            (0, 0, gap_details (timestamp_details st)) ;;
        let max_reasonable_missing := Z.min (trading_data_count / 2) 10000 in
        let missing := Z.min missing max_reasonable_missing in
        let st' := with_gap_details details st in
        if 0 <? missing then
          Returned (add_score (ratio_score actual_gap_count trading_data_count)
                      (add_issue (MissingTimeIntervals actual_gap_count (Some missing)) st'))
        else
          Returned (add_score (ratio_score actual_gap_count trading_data_count)
                      (add_issue (MissingTimeIntervals actual_gap_count None) st'))
      else Returned (add_score 1%Q st)
    else Returned (add_score 1%Q st)
  else Returned (add_score 1%Q st).

(** The loop [for i in range(1, len(trading_data))] of the consecutive-minute
    check; [acc] holds [consecutive_minutes] and the list it appends to.
    The rows are trading rows, so their timestamps are never [NaT]. *)
Fixpoint consecutive_loop (prev : option Timestamp) (rest : list (option Timestamp))
    (acc : Z * list MissingMinute) : Z * list MissingMinute :=
  match rest with
  | [] => acc
  | curr :: rest' =>
      consecutive_loop curr rest'
        match prev, curr with
        | Some prev_time, Some curr_time =>
            if date_of prev_time =? date_of curr_time then
              let prev_minute := truncate_to_minute prev_time in
              let curr_minute := truncate_to_minute curr_time in
              let expected_next_minute := prev_minute + timedelta_minutes 1 in
              if expected_next_minute <? curr_minute then
                let missing_minutes :=
                  Z.quot (curr_minute - expected_next_minute) NS_PER_MINUTE in
                (fst acc + missing_minutes,
                 snd acc ++
                 map (fun j =>
                        {| missing_timestamp :=
                             expected_next_minute + timedelta_minutes (Z.of_nat j - 1);
                           prev_timestamp := prev_time;
                           next_timestamp := curr_time;
                           mm_gap_duration_minutes := missing_minutes |})
                     (seq 1 (Z.to_nat missing_minutes)))
              else acc
            else acc
        | _, _ => acc
        end
  end.

(** Consecutive minutes within trading hours, for minute-level data. *)
Definition consecutive_minutes_check (data_sorted : DataFrame) (st : VState) : VState :=
  let sample_diffs :=
    firstn 10 (map snd (dropna (diff (timestamps (df_rows data_sorted))))) in
  match sample_diffs with
  | [] => st
  | d :: ds =>
      if series_min d ds <=? timedelta_minutes 2 then
        let trading_data := trading_data_of data_sorted in
        if 1 <? df_len trading_data then
          match map snd (timestamps (df_rows trading_data)) with
          | [] => st
          | first :: others =>
              let '(consecutive_minutes, minutes) :=
                consecutive_loop first others
                  (0, missing_consecutive_minutes (timestamp_details st)) in
              report_count consecutive_minutes (df_len trading_data)
                (MissingConsecutiveMinutes consecutive_minutes)
                (with_missing_minutes minutes st)
          end
        else add_score 1%Q st
      else st
  end.

(** Time sequence validation and missing timestamp check. *)
Definition time_sequence_checks (data : DataFrame) (st : VState) : outcome VState :=
  if time_sequence rules && (1 <? df_len data) then
    if has_column data "timestamp" then
      let total_missing :=
        count (fun lt => match snd lt with None => true | Some _ => false end)
              (timestamps (df_rows data)) in
      let st1 := report_count total_missing (df_len data)
                   (MissingTimestamps total_missing) st in
      let data_sorted := sort_values_timestamp data in
      let time_errors :=
        count (fun ld => match snd ld with Some d => d <=? 0 | None => false end)
              (diff (timestamps (df_rows data_sorted))) in
      let st2 := report_count time_errors (df_len data)
                   (TimeSequenceErrors time_errors) st1 in
      st3 <- (if 1 <? df_len data_sorted then gap_detection data_sorted st2
              else Returned st2) ;;
      Returned (if 1 <? df_len data_sorted
                then consecutive_minutes_check data_sorted st3 else st3)
    else Returned st
  else Returned st.

(** Duplicate check. *)
Definition duplicates_check (data : DataFrame) (st : VState) : VState :=
  if duplicate_check rules then
    if has_column data "timestamp" then
      let duplicates := duplicated_count [] (timestamps (df_rows data)) in
      report_count duplicates (df_len data) (DuplicateTimestamps duplicates) st
    else st
  else st.

(** The checks that follow the test for an empty dataset. *)
Definition run_checks (data : DataFrame) (st : VState) : outcome VState :=
  st1 <- ohlc_check data st ;;
  st2 <- price_check data st1 ;;
  st3 <- volume_check data st2 ;;
  let st4 := if has_column data "timestamp"
             then holiday_check data (trading_hours_check data st3) else st3 in
  st5 <- time_sequence_checks data st4 ;;
  Returned (duplicates_check data st5).

(** [np.mean(quality_scores) if quality_scores else 0.0] *)
Definition overall_quality_of (quality_scores : list Q) : Q :=
  match quality_scores with
  | [] => 0%Q
  | _ => mean quality_scores
  end.

(** A symbol in a condition: [None] and the empty string are false. *)
Definition symbol_truthy (symbol : option string) : option string :=
  match symbol with
  | Some "" => None
  | other => other
  end.

Variable config : Config.

(** [DataValidator.validate_data_quality]: the tuple it returns and the log
    records it emits. *)
Definition validate_data_quality (data : DataFrame) (symbol : option string)
    (skip_logging : bool) : Report * list Event :=
  if negb (config_validation_enabled config) then (Tuple4 true [] 1%Q EmptyDict, [])
  else
    let st := structure_check data initial_vstate in
    if df_empty data then (Tuple3 false (issues (add_issue EmptyDataset st)) 0%Q, [])
    else
      match run_checks data st with
      | Returned st' =>
          let overall_quality := overall_quality_of (quality_scores st') in
          let log :=
            match issues st', symbol_truthy symbol, skip_logging with
            | _ :: _, Some s, false => [EvValidatorLog s (issues st') overall_quality]
            | _, _, _ => []
            end in
          let is_valid := Qle_bool (quality_threshold rules) overall_quality in
          (Tuple4 is_valid (issues st') overall_quality
                  (DetailsDict (timestamp_details st')), log)
      | Raised e =>
          (Tuple4 false [ValidationFailed e] 0%Q EmptyDict, [EvLoggerError e])
      end.

End Validator.

End DataValidator.

(* ------------------------------------------------------------------ *)
(** ** Python dictionaries with string keys *)

Section Dict.

Variable V : Type.

(** The items of the dictionary in insertion order; keys are unique. *)
Definition dict : Type := list (string * V).

Fixpoint dict_get (k : string) (d : dict) : option V :=
  match d with
  | [] => None
  | (k', v) :: rest => if String.eqb k k' then Some v else dict_get k rest
  end.

(** [d[k] = v]: an existing key keeps its place, a new one goes last. *)
Fixpoint dict_set (k : string) (v : V) (d : dict) : dict :=
  match d with
  | [] => [(k, v)]
  | (k', v') :: rest =>
      if String.eqb k k' then (k, v) :: rest else (k', v') :: dict_set k v rest
  end.

(** [d.pop(k, None)] and [del d[k]] for a key that is present. *)
Definition dict_pop (k : string) (d : dict) : dict :=
  filter (fun kv => negb (String.eqb k (fst kv))) d.

Definition dict_keys (d : dict) : list string := map fst d.

End Dict.

Arguments dict_get {V} k d.
Arguments dict_set {V} k v d.
Arguments dict_pop {V} k d.
Arguments dict_keys {V} d.

(** [needle in hay] for strings: [needle] occurs in [hay]. *)
Fixpoint contains (needle hay : string) : bool :=
  if String.prefix needle hay then true
  else match hay with
       | EmptyString => false
       | String _ rest => contains needle rest
       end.

(** [range(0, stop, step)] *)
Fixpoint range_from (fuel : nat) (start stop step : Z) : list Z :=
  match fuel with
  | O => []
  | S fuel' =>
      if start <? stop then start :: range_from fuel' (start + step) stop step
      else []
  end.

Definition range0 (stop step : Z) : outcome (list Z) :=
  if step =? 0 then Raised (ValueError "range() arg 3 must not be zero")
  else if step <? 0 then Returned []
  else Returned (range_from (Z.to_nat stop) 0 stop step).

(** [xs[start:stop]] for [0 <= start <= stop] *)
Definition slice {A : Type} (xs : list A) (start stop : Z) : list A :=
  firstn (Z.to_nat (stop - start)) (skipn (Z.to_nat start) xs).

(* ------------------------------------------------------------------ *)
(** ** [DataManager] *)

Module DataManager.

(** A reading of [datetime.now()], in microseconds. *)
Definition Datetime : Type := Z.

(** The cache fields of a [DataManager]. *)
Record Manager : Type := {
  _cache : dict (Datetime * DataFrame);
  _cache_timestamps : dict Datetime;
  hits : Z;
  misses : Z
}.

(** The cache as [__init__] leaves it. *)
Definition initial_manager : Manager := {|
  _cache := [];
  _cache_timestamps := [];
  hits := 0;
  misses := 0
|}.

(** [self._max_cache_age = timedelta(minutes=5)] *)
Definition _max_cache_age : Z := 5 * 60 * 1000000.

(** [DataManager._get_from_cache]: what it returns and the manager it
    leaves. *)
Definition _get_from_cache (m : Manager) (key : string) (now : Datetime)
  : option DataFrame * Manager :=
  match dict_get key (_cache m) with
  | Some (cache_time, data) =>
      if now - cache_time <? _max_cache_age then
        (Some data,
         {| _cache := _cache m; _cache_timestamps := _cache_timestamps m;
            hits := hits m + 1; misses := misses m |})
      else
        (None,
         {| _cache := dict_pop key (_cache m);
            _cache_timestamps := dict_pop key (_cache_timestamps m);
            hits := hits m; misses := misses m + 1 |})
  | None =>
      (None,
       {| _cache := _cache m; _cache_timestamps := _cache_timestamps m;
          hits := hits m; misses := misses m + 1 |})
  end.

(** The first key with the smallest value, as [min(keys, key=...)] finds
    it. *)
Fixpoint min_key_from (best : string * Datetime) (rest : list (string * Datetime))
  : string * Datetime :=
  match rest with
  | [] => best
  | kv :: rest' =>
      if snd kv <? snd best then min_key_from kv rest' else min_key_from best rest'
  end.

(** [DataManager._store_in_cache]; [now1] and [now2] are its two readings of
    the clock. *)
Definition _store_in_cache (m : Manager) (key : string) (data : DataFrame)
    (now1 now2 : Datetime) : outcome Manager :=
  let cache := dict_set key (now1, data) (_cache m) in
  let stamps := dict_set key now2 (_cache_timestamps m) in
  if 500 <? len cache then
    match stamps with
    | [] => Raised (ValueError "min() arg is an empty sequence")
    | kv :: rest =>
        let oldest_key := fst (min_key_from kv rest) in
        Returned {| _cache := dict_pop oldest_key cache;
                    _cache_timestamps := dict_pop oldest_key stamps;
                    hits := hits m; misses := misses m |}
    end
  else Returned {| _cache := cache; _cache_timestamps := stamps;
                   hits := hits m; misses := misses m |}.

(** The loop [for k in keys: cache.pop(k); stamps.pop(k)]. *)
Definition pop_all (keys : list string) (m : Manager) : Manager :=
  fold_left (fun acc k =>
               {| _cache := dict_pop k (_cache acc);
                  _cache_timestamps := dict_pop k (_cache_timestamps acc);
                  hits := hits acc; misses := misses acc |}) keys m.

(** [DataManager._invalidate_cache] *)
Definition _invalidate_cache (m : Manager) (symbol : string) : Manager :=
  let keys_to_remove := filter (contains symbol) (dict_keys (_cache m)) in
  pop_all keys_to_remove m.

(** One pass of the clean-up thread of [_start_cache_cleanup]. *)
Definition cleanup_cache (m : Manager) (now : Datetime) : Manager :=
  let expired :=
    map fst (filter (fun kv => _max_cache_age <? now - fst (snd kv)) (_cache m)) in
  pop_all expired m.

(** [DataManager.close] *)
Definition close (m : Manager) : Manager :=
  {| _cache := []; _cache_timestamps := []; hits := hits m; misses := misses m |}.

(** The operations that touch the cache, each run under [_cache_lock]. *)
Inductive CacheOp : Type :=
| OpGet (key : string) (now : Datetime)
| OpStore (key : string) (data : DataFrame) (now1 now2 : Datetime)
| OpInvalidate (symbol : string)
| OpCleanup (now : Datetime)
| OpClose.

Definition apply_op (m : Manager) (op : CacheOp) : outcome Manager :=
  match op with
  | OpGet key now => Returned (snd (_get_from_cache m key now))
  | OpStore key data now1 now2 => _store_in_cache m key data now1 now2
  | OpInvalidate symbol => Returned (_invalidate_cache m symbol)
  | OpCleanup now => Returned (cleanup_cache m now)
  | OpClose => Returned (close m)
  end.

Fixpoint run_ops (m : Manager) (ops : list CacheOp) : outcome Manager :=
  match ops with
  | [] => Returned m
  | op :: rest => m' <- apply_op m op ;; run_ops m' rest
  end.

(** A row as [store_ohlcv_data] hands it to the insert statement. *)
Record StoredRow : Type := {
  sr_timestamp : option Timestamp;
  sr_symbol : string;
  sr_open : Q;
  sr_high : Q;
  sr_low : Q;
  sr_close : Q;
  sr_volume : Z;
  sr_data_source : string;
  sr_quality_score : Q;
  sr_sector : option string
}.

Section Storage.

Variable India : list Z -> HolidayCalendar.
Variable rules : ValidationRules.
Variable config : Config.

(** The sector of a symbol in [self.constituents], if it is listed. *)
Variable constituents : string -> option string.

(** The storage backend: [session.execute(ondup); session.commit()] on the
    rows of one batch.  [false] stands for either of them raising. *)
Variable Database : Type.
Variable execute : Database -> list StoredRow -> Database * bool.

(** [1 if quality_score > 0.8 else 2 if quality_score > 0.5 else 3] *)
Definition severity_of (quality_score : Q) : Z :=
  if Qlt_bool (8 # 10) quality_score then 1
  else if Qlt_bool (5 # 10) quality_score then 2 else 3.

(** [DataManager.validate_data_quality] *)
Definition validate_data_quality (data : DataFrame) (symbol : option string)
    (skip_logging : bool) : outcome Report * list Event :=
  let '(report, events) :=
    DataValidator.validate_data_quality India rules config data symbol skip_logging in
  match unpack4 report with
  | Raised e => (Raised e, events)
  | Returned (is_valid, issues, score, timestamp_details) =>
      let log :=
        match issues, DataValidator.symbol_truthy symbol, skip_logging with
        | _ :: _, Some s, false => [EvQualityLog s score issues (severity_of score)]
        | _, _, _ => []
        end in
      (Returned (Tuple4 is_valid issues score timestamp_details), events ++ log)
  end.

(** The columns [store_ohlcv_data] adds to its copy of the batch. *)
Definition data_copy_of (data : DataFrame) (symbol : string) : DataFrame :=
  {| df_columns :=
       df_columns data ++ ["symbol"; "data_source"] ++
       match constituents symbol with Some _ => ["sector"] | None => [] end;
     df_rows := df_rows data |}.

(** What the row loop of one batch reads from each row. *)
Definition row_columns : list string :=
  ["timestamp"; "symbol"; "open"; "high"; "low"; "close"; "volume"].

(** The dictionary built from one row of a batch. *)
Definition stored_row (symbol data_source : string) (quality_score : Q) (r : Row)
  : StoredRow :=
  {| sr_timestamp := r_timestamp r;
     sr_symbol := symbol;
     sr_open := r_open r;
     sr_high := r_high r;
     sr_low := r_low r;
     sr_close := r_close r;
     sr_volume := r_volume r;
     sr_data_source := data_source;
     sr_quality_score := quality_score;
     sr_sector := constituents symbol |}.

(** The retry loop [for retry_attempt in range(max_retries)] of one batch:
    the increments of [successful_batches] and [failed_batches], the
    backend afterwards and the effects. *)
Fixpoint retry_loop (max_retries : Z) (attempts : list Z) (db : Database)
    (rows : list StoredRow) (start_idx end_idx : Z) : Z * Z * Database * list Event :=
  match attempts with
  | [] => (0, 0, db, [])
  | retry_attempt :: rest =>
      let '(db', committed) := execute db rows in
      if committed then
        (1, 0, db', [EvExecute (len rows) true; EvBatchStored start_idx (end_idx - 1)])
      else if retry_attempt <? max_retries - 1 then
        let '(ok, failed, db'', events) :=
          retry_loop max_retries rest db' rows start_idx end_idx in
        (ok, failed, db'',
         [EvExecute (len rows) false;
          EvBatchRetry start_idx (end_idx - 1) (retry_attempt + 1);
          EvSleep (2 ^ retry_attempt)] ++ events)
      else
        let '(ok, failed, db'', events) :=
          retry_loop max_retries rest db' rows start_idx end_idx in
        (ok, failed + 1, db'',
         [EvExecute (len rows) false; EvBatchFailed start_idx (end_idx - 1)] ++ events)
  end.

(** One batch: the conversion of its rows, then the retry loop with
    [max_retries = 3]. *)
Definition store_batch (data_copy : DataFrame) (symbol data_source : string)
    (quality_score : Q) (db : Database) (start_idx : Z) (batch_size : Z)
  : outcome (Z * Z * Database * list Event) :=
  let total_rows := df_len data_copy in
  let end_idx := Z.min (start_idx + batch_size) total_rows in
  let batch_data := slice (df_rows data_copy) start_idx end_idx in
  _ <- match batch_data with
       | [] => Returned tt
       | _ => read_columns data_copy row_columns
       end ;;
  let rows := map (fun lr => stored_row symbol data_source quality_score (snd lr))
                  batch_data in
  Returned (retry_loop 3 [0; 1; 2] db rows start_idx end_idx).

(** The loop over the batches; [acc] holds [successful_batches],
    [failed_batches], the backend and the effects so far. *)
Fixpoint batch_loop (data_copy : DataFrame) (symbol data_source : string)
    (quality_score : Q) (batch_size : Z) (starts : list Z)
    (acc : Z * Z * Database * list Event) : outcome (Z * Z * Database * list Event) :=
  match starts with
  | [] => Returned acc
  | start_idx :: rest =>
      let '(successful_batches, failed_batches, db, events) := acc in
      '(ok, failed, db', events') <-
        store_batch data_copy symbol data_source quality_score db start_idx batch_size ;;
      batch_loop data_copy symbol data_source quality_score batch_size rest
        (successful_batches + ok, failed_batches + failed, db', events ++ events')
  end.

(** What a call of [store_ohlcv_data] leaves behind. *)
Record StoreResult : Type := {
  returned : outcome bool;
  manager_after : Manager;
  database_after : Database;
  effects : list Event;
  successful_batches : Z;
  failed_batches : Z
}.

(** The part of [store_ohlcv_data] after validation: batches, cache
    invalidation and the returned flag. *)
Definition store_batches (m : Manager) (db : Database) (data_copy : DataFrame)
    (symbol data_source : string) (quality_score : Q) (events : list Event)
  : StoreResult :=
  let batch_size := config_batch_size config in
  let total_rows := df_len data_copy in
  match (starts <- range0 total_rows batch_size ;;
         batch_loop data_copy symbol data_source quality_score batch_size starts
           (0, 0, db, events)) with
  | Raised e =>
      {| returned := Raised e; manager_after := m; database_after := db;
         effects := events; successful_batches := 0; failed_batches := 0 |}
  | Returned (successful, failed, db', events') =>
      if 0 <? successful then
        {| returned := Returned true;
           manager_after := _invalidate_cache m symbol;
           database_after := db';
           effects := events' ++ [EvInvalidateCache symbol] ++
                      (if 0 <? failed then [EvPartialSuccess successful failed] else []);
           successful_batches := successful; failed_batches := failed |}
      else
        {| returned := Returned false; manager_after := m; database_after := db';
           effects := events' ++ [EvAllBatchesFailed];
           successful_batches := successful; failed_batches := failed |}
  end.

(** [DataManager.store_ohlcv_data] *)
Definition store_ohlcv_data (m : Manager) (db : Database) (data : DataFrame)
    (symbol data_source : string) (skip_validation : bool) : StoreResult :=
  let stop := fun r events =>
    {| returned := r; manager_after := m; database_after := db;
       effects := events; successful_batches := 0; failed_batches := 0 |} in
  if df_empty data then stop (Returned true) []
  else
    let data_copy := data_copy_of data symbol in
    match read_columns data_copy ["timestamp"] with
    | Raised e => stop (Raised e) []
    | Returned _ =>
        if negb skip_validation then
          match validate_data_quality data_copy (Some symbol) false with
          | (Raised e, events) => stop (Raised e) events
          | (Returned report, events) =>
              match unpack3 report with
              | Raised e => stop (Raised e) events
              | Returned (is_valid, issues, quality_score) =>
                  if negb is_valid
                  then stop (Returned false)
                         (events ++ [EvValidationFailedWarning symbol issues])
                  else store_batches m db data_copy symbol data_source
                         quality_score events
              end
          end
        else store_batches m db data_copy symbol data_source 1%Q []
    end.

End Storage.

Section Reads.

(** The contents of the storage backend. *)
Variable Storage : Type.

(** The query of [get_latest_bars] and the frame the method builds from its
    rows, sorted by timestamp and re-indexed; [None] when the query returns
    no row. *)
Variable latest_frame : Storage -> string -> Z -> option DataFrame.

(** [str(n)] for an integer. *)
Definition str_of_int (n : Z) : string := NilZero.string_of_int (Z.to_int n).

(** [f"latest_{symbol}_{count}"] *)
Definition latest_cache_key (symbol : string) (count : Z) : string :=
  String.append "latest_"
    (String.append symbol (String.append "_" (str_of_int count))).

(** [DataManager.get_latest_bars]; [now] is the clock reading of the cache
    lookup, [now1] and [now2] those of the cache store. *)
Definition get_latest_bars (m : Manager) (db : Storage) (symbol : string)
    (count : Z) (now now1 now2 : Datetime) : outcome DataFrame * Manager :=
  let cache_key := latest_cache_key symbol count in
  match _get_from_cache m cache_key now with
  | (Some cached, m') => (Returned cached, m')
  | (None, m') =>
      match latest_frame db symbol count with
      | None => (Returned {| df_columns := []; df_rows := [] |}, m')
      | Some df =>
          match _store_in_cache m' cache_key df now1 now2 with
          | Returned m'' => (Returned df, m'')
          | Raised e => (Raised e, m')
          end
      end
  end.

End Reads.

End DataManager.

(* ------------------------------------------------------------------ *)
(** ** [NiftyConstituentsManager] *)

Module NiftyConstituentsManager.

(** The value stored under a symbol. *)
Record Constituent : Type := {
  name : string;
  sector : string
}.

(** [NIFTY50_CONSTITUENTS] *)
Definition NIFTY50_CONSTITUENTS : dict Constituent := [
  ("ADANIENT", {| name := "Adani Enterprises Ltd."; sector := "Diversified" |});
  ("ADANIPORTS", {| name := "Adani Ports and Special Economic Zone Ltd.";
                    sector := "Infrastructure" |});
  ("APOLLOHOSP", {| name := "Apollo Hospitals Enterprise Ltd."; sector := "Healthcare" |});
  ("ASIANPAINT", {| name := "Asian Paints Ltd."; sector := "Consumer Goods" |});
  ("AXISBANK", {| name := "Axis Bank Ltd."; sector := "Banking" |});
  ("BAJAJ-AUTO", {| name := "Bajaj Auto Ltd."; sector := "Automobile" |});
  ("BAJFINANCE", {| name := "Bajaj Finance Ltd."; sector := "Financial Services" |});
  ("BAJAJFINSV", {| name := "Bajaj Finserv Ltd."; sector := "Financial Services" |});
  ("BPCL", {| name := "Bharat Petroleum Corporation Ltd."; sector := "Oil & Gas" |});
  ("BHARTIARTL", {| name := "Bharti Airtel Ltd."; sector := "Telecom" |});
  ("BRITANNIA", {| name := "Britannia Industries Ltd."; sector := "FMCG" |});
  ("CIPLA", {| name := "Cipla Ltd."; sector := "Pharma" |});
  ("COALINDIA", {| name := "Coal India Ltd."; sector := "Mining" |});
  ("DIVISLAB", {| name := "Divi's Laboratories Ltd."; sector := "Pharma" |});
  ("DRREDDY", {| name := "Dr. Reddy's Laboratories Ltd."; sector := "Pharma" |});
  ("EICHERMOT", {| name := "Eicher Motors Ltd."; sector := "Automobile" |});
  ("GRASIM", {| name := "Grasim Industries Ltd."; sector := "Cement" |});
  ("HCLTECH", {| name := "HCL Technologies Ltd."; sector := "IT" |});
  ("HDFCBANK", {| name := "HDFC Bank Ltd."; sector := "Banking" |});
  ("HDFCLIFE", {| name := "HDFC Life Insurance Company Ltd."; sector := "Insurance" |});
  ("HEROMOTOCO", {| name := "Hero MotoCorp Ltd."; sector := "Automobile" |});
  ("HINDALCO", {| name := "Hindalco Industries Ltd."; sector := "Metals" |});
  ("HINDUNILVR", {| name := "Hindustan Unilever Ltd."; sector := "FMCG" |});
  ("ICICIBANK", {| name := "ICICI Bank Ltd."; sector := "Banking" |});
  ("ITC", {| name := "ITC Ltd."; sector := "FMCG" |});
  ("INDUSINDBK", {| name := "IndusInd Bank Ltd."; sector := "Banking" |});
  ("INFY", {| name := "Infosys Ltd."; sector := "IT" |});
  ("JSWSTEEL", {| name := "JSW Steel Ltd."; sector := "Metals" |});
  ("KOTAKBANK", {| name := "Kotak Mahindra Bank Ltd."; sector := "Banking" |});
  ("LT", {| name := "Larsen & Toubro Ltd."; sector := "Infrastructure" |});
  ("M&M", {| name := "Mahindra & Mahindra Ltd."; sector := "Automobile" |});
  ("MARUTI", {| name := "Maruti Suzuki India Ltd."; sector := "Automobile" |});
  ("NTPC", {| name := "NTPC Ltd."; sector := "Power" |});
  ("NESTLEIND", {| name := "Nestle India Ltd."; sector := "FMCG" |});
  ("ONGC", {| name := "Oil and Natural Gas Corporation Ltd."; sector := "Oil & Gas" |});
  ("POWERGRID", {| name := "Power Grid Corporation of India Ltd."; sector := "Power" |});
  ("RELIANCE", {| name := "Reliance Industries Ltd."; sector := "Oil & Gas" |});
  ("SBILIFE", {| name := "SBI Life Insurance Company Ltd."; sector := "Insurance" |});
  ("SHRIRAMFIN", {| name := "Shriram Finance Ltd."; sector := "Financial Services" |});
  ("SBIN", {| name := "State Bank of India"; sector := "Banking" |});
  ("SUNPHARMA", {| name := "Sun Pharmaceutical Industries Ltd."; sector := "Pharma" |});
  ("TCS", {| name := "Tata Consultancy Services Ltd."; sector := "IT" |});
  ("TATACONSUM", {| name := "Tata Consumer Products Ltd."; sector := "FMCG" |});
  ("TATAMOTORS", {| name := "Tata Motors Ltd."; sector := "Automobile" |});
  ("TATASTEEL", {| name := "Tata Steel Ltd."; sector := "Metals" |});
  ("TECHM", {| name := "Tech Mahindra Ltd."; sector := "IT" |});
  ("TITAN", {| name := "Titan Company Ltd."; sector := "Consumer Goods" |});
  ("ULTRACEMCO", {| name := "UltraTech Cement Ltd."; sector := "Cement" |});
  ("UPL", {| name := "UPL Ltd."; sector := "Chemicals" |});
  ("WIPRO", {| name := "Wipro Ltd."; sector := "IT" |})
].

(** [get_symbols_list]: [list(table.keys())] *)
Definition get_symbols_list (table : dict Constituent) : list string :=
  dict_keys table.

(** The loop of [get_sectors]:
    [sectors.setdefault(sector, []).append(symbol)] for every item. *)
Fixpoint get_sectors_loop (items : list (string * Constituent))
    (sectors : dict (list string)) : dict (list string) :=
  match items with
  | [] => sectors
  | (symbol, info) :: rest =>
      get_sectors_loop rest
        (dict_set (sector info)
           (match dict_get (sector info) sectors with
            | Some symbols => symbols
            | None => []
            end ++ [symbol])
           sectors)
  end.

(** [get_sectors] *)
Definition get_sectors (table : dict Constituent) : dict (list string) :=
  get_sectors_loop table [].

(** [self.constituents[symbol]['sector']] when [symbol in self.constituents],
    as [store_ohlcv_data] looks it up. *)
Definition sector_of (table : dict Constituent) (symbol : string) : option string :=
  match dict_get symbol table with
  | Some info => Some (sector info)
  | None => None
  end.

End NiftyConstituentsManager.

(* ------------------------------------------------------------------ *)
(** ** [ZerodhaService] *)

Module ZerodhaService.

(** A [datetime], in microseconds. *)
Definition Datetime : Type := Z.

(** [timedelta(days=d)] *)
Definition timedelta_days (d : Z) : Z := d * (86400 * 1000000).

(** Rows under the index [pd.DataFrame(all_rows)] gives them: [i], [i + 1],
    and so on. *)
Fixpoint with_range_index (i : Z) (rows : list Row) : list (Z * Row) :=
  match rows with
  | [] => []
  | r :: rest => (i, r) :: with_range_index (i + 1) rest
  end.

(** [df.drop_duplicates(subset=['timestamp'])]: of the rows with the same
    timestamp the first one stays. *)
Fixpoint drop_duplicates (seen : list (option Timestamp)) (rows : list (Z * Row))
  : list (Z * Row) :=
  match rows with
  | [] => []
  | lr :: rest =>
      if existsb (opt_ts_eqb (r_timestamp (snd lr))) seen
      then drop_duplicates seen rest
      else lr :: drop_duplicates (r_timestamp (snd lr) :: seen) rest
  end.

Section Fetch.

(** [self.kite.historical_data(instrument_token, from_date, to_date,
    interval)]: the candles it returns, the [date] of a candle being the
    timestamp of the row. *)
Variable historical_data : Z -> Datetime -> Datetime -> string -> list Row.

(** The loop [while cur < end_date] of [fetch_historical_data]: the rows
    collected in [all_rows] and the ranges requested, in order.  Every turn
    moves [cur] forward by more than a day, so [fuel] turns are enough when
    [fuel] days exceed the distance from [cur] to [end_date]. *)
Fixpoint fetch_loop (fuel : nat) (token : Z) (interval : string)
    (end_date cur : Datetime) (all_rows : list Row)
    (requests : list (Datetime * Datetime))
  : list Row * list (Datetime * Datetime) :=
  match fuel with
  | O => (all_rows, requests)
  | S fuel' =>
      if cur <? end_date then
        let nxt := Z.min (cur + timedelta_days 50) end_date in
        let rows := historical_data token cur nxt interval in
        fetch_loop fuel' token interval end_date (nxt + timedelta_days 1)
          (all_rows ++ rows) (requests ++ [(cur, nxt)])
      else (all_rows, requests)
  end.

(** Turns that are enough for the range from [start_date] to [end_date]. *)
Definition loop_fuel (start_date end_date : Datetime) : nat :=
  Z.to_nat ((end_date - start_date) / timedelta_days 1 + 1).

(** [ZerodhaService.fetch_historical_data], given the token that
    [get_instrument_token] found ([None] when it found none): the frame it
    returns and the ranges it requested. *)
Definition fetch_historical_data (token : option Z) (start_date end_date : Datetime)
    (interval : string) : DataFrame * list (Datetime * Datetime) :=
  match token with
  | None => ({| df_columns := []; df_rows := [] |}, [])
  | Some t =>
      if t =? 0 then ({| df_columns := []; df_rows := [] |}, [])
      else
        let '(all_rows, requests) :=
          fetch_loop (loop_fuel start_date end_date) t interval end_date start_date
            [] [] in
        match all_rows with
        | [] => ({| df_columns := []; df_rows := [] |}, requests)
        | _ =>
            (sort_values_timestamp
               {| df_columns := ["timestamp"; "open"; "high"; "low"; "close"; "volume"];
                  df_rows := drop_duplicates [] (with_range_index 0 all_rows) |},
             requests)
        end
  end.

End Fetch.

End ZerodhaService.

(* ------------------------------------------------------------------ *)
(** ** Sample inputs and the vocabulary of the statements *)

Import DataManager.

(** A holiday provider that lists no holiday. *)
Definition no_india : list Z -> HolidayCalendar := fun _ => no_holidays.

(** Monday 2024-01-01 and the Saturday of that week, as day numbers. *)
Definition monday : Date := 19723.

Definition saturday : Date := 19728.

(** A well-formed bar at [h:m] on day [d]. *)
Definition bar (d : Date) (h m : Z) : Row :=
  {| r_timestamp := Some (mk_timestamp d (mk_time h m 0));
     r_open := 100; r_high := 101; r_low := 99; r_close := 100; r_volume := 10 |}.

(** Rows under the default index [0, 1, 2, ...]. *)
Fixpoint range_index (i : Z) (rs : list Row) : list (Z * Row) :=
  match rs with
  | [] => []
  | r :: rest => (i, r) :: range_index (i + 1) rest
  end.

(** A frame with the six required columns. *)
Definition frame (rs : list Row) : DataFrame :=
  {| df_columns := DataValidator.required_columns; df_rows := range_index 0 rs |}.

(** [pd.DataFrame()] *)
Definition frame_without_columns : DataFrame :=
  {| df_columns := []; df_rows := [] |}.

(** A configuration with validation switched off. *)
Definition validation_off : Config :=
  {| data_validation_enabled := Some false; batch_size := Some 5000 |}.

(** The records the logging flag controls: the validator's warning and the
    manager's quality-log row. *)
Definition is_quality_record (e : Event) : bool :=
  match e with
  | EvValidatorLog _ _ _ => true
  | EvQualityLog _ _ _ _ => true
  | _ => false
  end.

(** The issue of the structure check, if it raises one. *)
Definition structural_issues (data : DataFrame) : list Issue :=
  match filter (fun col => negb (has_column data col)) DataValidator.required_columns with
  | [] => []
  | missing_columns => [MissingColumns missing_columns]
  end.

(** A backend that commits every batch. *)
Definition always_commits : unit -> list DataManager.StoredRow -> unit * bool :=
  fun db _ => (db, true).

(** No symbol has a sector. *)
Definition no_constituents : string -> option string := fun _ => None.

(** The keys after [d[k] = v]. *)
Fixpoint keys_set (k : string) (ks : list string) : list string :=
  match ks with
  | [] => [k]
  | k' :: rest => if String.eqb k k' then k :: rest else k' :: keys_set k rest
  end.

(** The keys after [d.pop(k, None)]. *)
Definition keys_pop (k : string) (ks : list string) : list string :=
  filter (fun k' => negb (String.eqb k k')) ks.

(** One entry, stored at second 0. *)
Definition one_entry : Manager :=
  {| _cache := [("latest_RELIANCE_100", (0, frame [bar monday 10 0]))];
     _cache_timestamps := [("latest_RELIANCE_100", 0)];
     hits := 0; misses := 0 |}.

(** What every operation maintains: the two dictionaries hold the same keys
    in the same order, without repetition, and at most 500 of them. *)
Definition cache_invariant (m : Manager) : Prop :=
  dict_keys (_cache m) = dict_keys (_cache_timestamps m)
  /\ NoDup (dict_keys (_cache m))
  /\ len (_cache m) <= 500.

(** The key of the [i]-th put. *)
Definition key_of (i : nat) : string :=
  String.append "latest_SYM_" (NilEmpty.string_of_uint (Nat.to_uint i)).

(** [n] puts under distinct keys, the put of key [i] at time [i]. *)
Definition fill_ops (n : nat) : list CacheOp :=
  map (fun i => OpStore (key_of i) frame_without_columns (Z.of_nat i) (Z.of_nat i))
      (seq 0 n).

(** The cache after 500 such puts. *)
Definition full_manager : Manager :=
  match run_ops initial_manager (fill_ops 500) with
  | Returned m => m
  | Raised _ => initial_manager
  end.



(** Bars at 10:00, 10:01 and 10:06: the hole comes before the last bar. *)
Definition hole_before_last_bar : DataFrame :=
  frame [bar monday 10 0; bar monday 10 1; bar monday 10 6].

(** Bars at 10:00, 10:01, 10:02, 10:07 and 10:08: the hole is inside. *)
Definition hole_inside : DataFrame :=
  frame [bar monday 10 0; bar monday 10 1; bar monday 10 2;
         bar monday 10 7; bar monday 10 8].

(** The effects a trace is searched for. *)
Definition is_invalidate (e : Event) : bool :=
  match e with EvInvalidateCache _ => true | _ => false end.

Definition is_execute (e : Event) : bool :=
  match e with EvExecute _ _ => true | _ => false end.

(** The seconds slept, in order. *)
Fixpoint sleeps (events : list Event) : list Z :=
  match events with
  | [] => []
  | EvSleep s :: rest => s :: sleeps rest
  | _ :: rest => sleeps rest
  end.

(** The four ways the retry loop of one batch can go. *)
Inductive batch_trace (n start_idx end_idx : Z) : Z -> Z -> list Event -> Prop :=
| first_attempt_commits :
    batch_trace n start_idx end_idx 1 0
      [EvExecute n true; EvBatchStored start_idx (end_idx - 1)]
| second_attempt_commits :
    batch_trace n start_idx end_idx 1 0
      [EvExecute n false; EvBatchRetry start_idx (end_idx - 1) 1; EvSleep 1;
       EvExecute n true; EvBatchStored start_idx (end_idx - 1)]
| third_attempt_commits :
    batch_trace n start_idx end_idx 1 0
      [EvExecute n false; EvBatchRetry start_idx (end_idx - 1) 1; EvSleep 1;
       EvExecute n false; EvBatchRetry start_idx (end_idx - 1) 2; EvSleep 2;
       EvExecute n true; EvBatchStored start_idx (end_idx - 1)]
| all_attempts_fail :
    batch_trace n start_idx end_idx 0 1
      [EvExecute n false; EvBatchRetry start_idx (end_idx - 1) 1; EvSleep 1;
       EvExecute n false; EvBatchRetry start_idx (end_idx - 1) 2; EvSleep 2;
       EvExecute n false; EvBatchFailed start_idx (end_idx - 1)].

(** A backend on which the first three attempts fail and every later one
    commits; its state is the number of attempts so far. *)
Definition fails_three_times : nat -> list StoredRow -> nat * bool :=
  fun attempts _ => (S attempts, (3 <=? attempts)%nat).

(** Batches of one row. *)
Definition batches_of_one : Config :=
  {| data_validation_enabled := Some true; batch_size := Some 1 |}.

(** Two bars, one minute apart. *)
Definition two_bars : DataFrame := frame [bar monday 10 0; bar monday 10 1].

(** Two bars in batches of one, the first batch failing three times. *)
Definition partial_store : StoreResult nat :=
  store_ohlcv_data no_india default_validation_rules batches_of_one no_constituents
    nat fails_three_times initial_manager 0%nat two_bars "RELIANCE" "zerodha_kite" true.

(** The same call on a backend that commits at once. *)
Definition full_store : StoreResult unit :=
  store_ohlcv_data no_india default_validation_rules batches_of_one no_constituents
    unit always_commits initial_manager tt two_bars "RELIANCE" "zerodha_kite" true.

(** How many of the operations are lookups. *)
Definition count_gets (ops : list CacheOp) : Z :=
  count (fun op => match op with OpGet _ _ => true | _ => false end) ops.

(** The rows of the batch that starts at [start_idx]:
    [data_copy.iloc[start_idx:end_idx]] with
    [end_idx = min(start_idx + batch_size, total_rows)]. *)
Definition batch_rows (data_copy : DataFrame) (batch_size start_idx : Z)
  : list (Z * Row) :=
  slice (df_rows data_copy) start_idx
        (Z.min (start_idx + batch_size) (df_len data_copy)).

(** A backend on which every attempt fails. *)
Definition never_commits : unit -> list StoredRow -> unit * bool :=
  fun db _ => (db, false).



(** A bar whose high is at least its open, close and low and whose low is at
    most its open, close and high. *)
Definition ohlc_consistent (r : Row) : Prop :=
  (r_open r <= r_high r /\ r_close r <= r_high r /\ r_low r <= r_high r
   /\ r_low r <= r_open r /\ r_low r <= r_close r)%Q.

(** Every element after the head is larger than the head. *)
Fixpoint increasing (xs : list Z) : Prop :=
  match xs with
  | [] => True
  | x :: rest => Forall (fun y => x < y) rest /\ increasing rest
  end.

(** A position [iloc] accepts on a sequence of [n] rows. *)
Definition valid_position (n i : Z) : Prop := - n <= i < n.

(** The test of the gap loop: the gap stands for 1 to 1000 missing
    intervals. *)
Definition gap_is_counted (expected_interval gap : Timedelta) : bool :=
  (0 <? DataValidator.gap_missing_intervals expected_interval gap)
  && (DataValidator.gap_missing_intervals expected_interval gap <=? 1000).

(** [sum(g['missing_intervals'] for g in details)] *)
Definition total_missing (details : list GapDetail) : Z :=
  fold_right Z.add 0 (map missing_intervals details).


(** Whether the loop of the holiday and weekend validation records a row. *)
Definition on_non_trading_day (cal : HolidayCalendar) (lr : Z * Row) : bool :=
  match r_timestamp (snd lr) with
  | Some ts => (5 <=? weekday ts) || is_holiday cal (date_of ts)
  | None => false
  end.

(** A storage that holds two bars for every symbol. *)
Definition two_bars_everywhere : unit -> string -> Z -> option DataFrame :=
  fun _ _ _ => Some two_bars.

(** The symbols of the items whose sector is [s], in table order. *)
Definition symbols_of_sector (s : string)
    (items : list (string * NiftyConstituentsManager.Constituent)) : list string :=
  map fst (filter (fun it => String.eqb (NiftyConstituentsManager.sector (snd it)) s) items).

(** [Some l] for a list that is not empty, [None] otherwise. *)
Definition non_empty_list (l : list string) : option (list string) :=
  match l with
  | [] => None
  | _ => Some l
  end.

(** The pairs of distinct symbols of the table of which the first occurs
    inside the second. *)
Definition symbols_inside_other_symbols : list (string * string) :=
  let symbols := NiftyConstituentsManager.get_symbols_list
                   NiftyConstituentsManager.NIFTY50_CONSTITUENTS in
  filter (fun p => negb (String.eqb (fst p) (snd p)) && contains (fst p) (snd p))
         (list_prod symbols symbols).

(** The ranges the loop requests from [cur] on, turn by turn. *)
Inductive windows_from (end_date : Z) : Z -> list (Z * Z) -> Prop :=
| windows_done cur :
    end_date <= cur -> windows_from end_date cur []
| windows_step cur rest :
    cur < end_date ->
    windows_from end_date
      (Z.min (cur + ZerodhaService.timedelta_days 50) end_date
       + ZerodhaService.timedelta_days 1) rest ->
    windows_from end_date cur
      ((cur, Z.min (cur + ZerodhaService.timedelta_days 50) end_date) :: rest).

(** Each range starts one day after the end of the range before it. *)
Fixpoint one_day_apart (windows : list (Z * Z)) : Prop :=
  match windows with
  | [] => True
  | w :: rest =>
      match rest with
      | [] => True
      | w' :: _ => fst w' = snd w + ZerodhaService.timedelta_days 1
      end /\ one_day_apart rest
  end.

(** The timestamp of a labelled row. *)
Definition timestamp_of (lr : Z * Row) : option Timestamp := r_timestamp (snd lr).

(* ================================================================== *)
(** * Properties *)

(** ** The trading calendar *)

Lemma weekday_range (ts : Timestamp) : 0 <= weekday ts <= 6.
Proof.
  unfold weekday.
  pose proof (Z.mod_pos_bound (date_of ts + 3) 7 ltac:(lia)). lia.
Qed.

Example monday_is_a_monday : weekday (mk_timestamp monday (mk_time 10 0 0)) = 0.
Proof. reflexivity. Qed.

Example saturday_is_a_saturday : weekday (mk_timestamp saturday (mk_time 10 0 0)) = 5.
Proof. reflexivity. Qed.

Example year_of_samples :
  map year_of_date [0; -1; 11016; 19722; 19723] = [1970; 1969; 2000; 2023; 2024].
Proof. reflexivity. Qed.

Example time_of_mk_timestamp :
  time_of (mk_timestamp monday (mk_time 15 29 59)) = mk_time 15 29 59
  /\ date_of (mk_timestamp monday (mk_time 15 29 59)) = monday.
Proof. split; reflexivity. Qed.

(** C4. Through [DataManager] the trading window is 09:15:00 to 15:30:00.
    An instant is a trading instant exactly when its weekday is Monday to
    Friday (0 to 4), its date is not in the holiday calendar, and its time of
    day lies in the window, both ends included.  A Saturday or Sunday instant
    is never one, whatever its time of day. *)
Theorem is_trading_time_iff :
  (rules_trading_start default_validation_rules = mk_time 9 15 0
   /\ rules_trading_end default_validation_rules = mk_time 15 30 0)
  /\ (forall (ts : Timestamp) (trading_start trading_end : Time)
             (ind_holidays : HolidayCalendar),
        _is_trading_time (Some ts) trading_start trading_end ind_holidays = true
        <-> (0 <= weekday ts <= 4
             /\ ind_holidays (date_of ts) = None
             /\ trading_start <= time_of ts <= trading_end))
  /\ (forall (ts : Timestamp) (trading_start trading_end : Time)
             (ind_holidays : HolidayCalendar),
        weekday ts = 5 \/ weekday ts = 6 ->
        _is_trading_time (Some ts) trading_start trading_end ind_holidays = false).
Proof.
  split; [split; reflexivity|]. split.
  - intros ts s e cal. unfold _is_trading_time, is_holiday.
    pose proof (weekday_range ts) as Hw.
    destruct (5 <=? weekday ts) eqn:Hwd.
    + apply Z.leb_le in Hwd. split; [discriminate | lia].
    + apply Z.leb_gt in Hwd.
      destruct (cal (date_of ts)) as [name|] eqn:Hcal.
      * split; [discriminate | intros (_ & Hn & _); discriminate].
      * rewrite andb_true_iff, !Z.leb_le. split.
        -- intros [H1 H2]. repeat split; try lia.
        -- intros (_ & _ & H1 & H2). split; assumption.
  - intros ts s e cal Hw. unfold _is_trading_time.
    destruct (5 <=? weekday ts) eqn:Hwd; [reflexivity|].
    apply Z.leb_gt in Hwd. lia.
Qed.

Lemma is_trading_time_iff_witness :
  (weekday (mk_timestamp saturday (mk_time 10 0 0)) = 5
   \/ weekday (mk_timestamp saturday (mk_time 10 0 0)) = 6)
  /\ _is_trading_time (Some (mk_timestamp saturday (mk_time 10 0 0)))
       (mk_time 9 15 0) (mk_time 15 30 0) no_holidays = false
  /\ _is_trading_time (Some (mk_timestamp monday (mk_time 15 30 0)))
       (mk_time 9 15 0) (mk_time 15 30 0) no_holidays = true.
Proof.
  split; [left; reflexivity|]. split.
  - apply (proj2 (proj2 is_trading_time_iff)). left. reflexivity.
  - apply (proj1 (proj2 is_trading_time_iff)). vm_compute.
    repeat split; discriminate.
Defined.

(** ** The validator switched off, and its logging flag *)

(** C10. With [data_validation_enabled] set to false in the configuration,
    [validate_data_quality] returns valid, no issues, score 1.0 and empty
    details for every batch, and performs no effect. *)
Theorem validation_disabled_accepts_everything :
  forall (India : list Z -> HolidayCalendar) (rules : ValidationRules)
         (config : Config) (data : DataFrame) (symbol : option string)
         (skip_logging : bool),
    data_validation_enabled config = Some false ->
    DataValidator.validate_data_quality India rules config data symbol skip_logging
    = (Tuple4 true [] 1%Q EmptyDict, []).
Proof.
  intros India rules config data symbol skip Hoff.
  unfold DataValidator.validate_data_quality, config_validation_enabled.
  rewrite Hoff. reflexivity.
Qed.

Lemma validation_disabled_accepts_everything_witness :
  data_validation_enabled validation_off = Some false
  /\ DataValidator.validate_data_quality no_india default_validation_rules
       validation_off frame_without_columns (Some "RELIANCE") false
     = (Tuple4 true [] 1%Q EmptyDict, [])
  /\ DataValidator.validate_data_quality no_india default_validation_rules
       validation_off {| df_columns := ["open"]; df_rows := [(0, bar saturday 3 0)] |}
       None true
     = (Tuple4 true [] 1%Q EmptyDict, []).
Proof.
  split; [reflexivity|].
  split; apply validation_disabled_accepts_everything; reflexivity.
Defined.

(** C9. For every batch and symbol, validation with [skip_logging] set and
    validation with it cleared return the same result (verdict, issues,
    score, details), in the validator and through the manager; the effects
    of the two runs differ only by the quality records, which the run with
    the flag set does not emit. *)
Theorem skip_logging_changes_only_the_log :
  forall (India : list Z -> HolidayCalendar) (rules : ValidationRules)
         (config : Config) (data : DataFrame) (symbol : option string),
    let v := DataValidator.validate_data_quality India rules config data symbol in
    let m := DataManager.validate_data_quality India rules config data symbol in
    fst (v true) = fst (v false)
    /\ fst (m true) = fst (m false)
    /\ snd (v true) = filter (fun e => negb (is_quality_record e)) (snd (v false))
    /\ snd (m true) = filter (fun e => negb (is_quality_record e)) (snd (m false)).
Proof.
  intros India rules config data symbol v m. subst v m.
  unfold DataManager.validate_data_quality, DataValidator.validate_data_quality.
  destruct (negb (config_validation_enabled config)); [repeat split; reflexivity|].
  destruct (df_empty data); [repeat split; reflexivity|].
  destruct (DataValidator.run_checks India rules data _) as [st|e];
    [|destruct (DataValidator.symbol_truthy symbol); repeat split; reflexivity].
  destruct (issues st) as [|i is_];
    destruct (DataValidator.symbol_truthy symbol) as [s|];
    cbn; repeat split; reflexivity.
Qed.

(** ** Empty batches *)

Lemma structure_check_issues (data : DataFrame) :
  issues (DataValidator.structure_check data initial_vstate) = structural_issues data.
Proof.
  unfold DataValidator.structure_check, structural_issues.
  destruct (filter _ DataValidator.required_columns); reflexivity.
Qed.

Lemma filter_none {A : Type} (p : A -> bool) (xs : list A) :
  (forall x, In x xs -> p x = false) -> filter p xs = [].
Proof.
  induction xs as [|x xs IH]; intros H; [reflexivity|].
  cbn. rewrite (H x (or_introl eq_refl)). apply IH.
  intros y Hy. apply H. right. exact Hy.
Qed.

Lemma no_rows_is_empty (data : DataFrame) : df_rows data = [] -> df_empty data = true.
Proof. intros H. unfold df_empty. rewrite H. reflexivity. Qed.

(** C2, as the code has it.  With validation enabled, a batch with zero bars
    is rejected right after the structure check: verdict false, score 0, and
    the issue list is the issue of the structure check, if any, followed by
    "Empty dataset" -- exactly that one issue when the six required columns
    are present.  No later check runs (the validation rules play no part)
    and nothing is logged. *)
Theorem empty_batch_short_circuits :
  forall (India : list Z -> HolidayCalendar) (rules : ValidationRules)
         (config : Config) (data : DataFrame) (symbol : option string)
         (skip_logging : bool),
    config_validation_enabled config = true ->
    df_rows data = [] ->
    let run := fun r =>
      DataValidator.validate_data_quality India r config data symbol skip_logging in
    report_is_valid (fst (run rules)) = false
    /\ report_score (fst (run rules)) = 0%Q
    /\ report_issues (fst (run rules)) = structural_issues data ++ [EmptyDataset]
    /\ ((forall col, In col DataValidator.required_columns -> has_column data col = true) ->
        report_issues (fst (run rules)) = [EmptyDataset])
    /\ snd (run rules) = []
    /\ (forall rules', run rules' = run rules).
Proof.
  intros India rules config data symbol skip Hon Hrows run. subst run. cbv beta.
  unfold DataValidator.validate_data_quality.
  rewrite Hon, (no_rows_is_empty data Hrows). cbn [negb fst snd].
  cbn [report_is_valid report_score report_issues add_issue issues].
  rewrite structure_check_issues.
  repeat split.
  intros Hcols. unfold structural_issues.
  rewrite filter_none; [reflexivity|].
  intros col Hcol. rewrite (Hcols col Hcol). reflexivity.
Qed.

Lemma empty_batch_short_circuits_witness :
  config_validation_enabled default_config = true
  /\ df_rows (frame []) = []
  /\ report_is_valid
       (fst (DataValidator.validate_data_quality no_india default_validation_rules
               default_config (frame []) (Some "RELIANCE") false)) = false.
Proof.
  split; [reflexivity|]. split; [reflexivity|].
  exact (proj1 (empty_batch_short_circuits no_india default_validation_rules
                  default_config (frame []) (Some "RELIANCE") false
                  eq_refl eq_refl)).
Defined.

(** C2 as stated fails on the batch [pd.DataFrame()]: the validator reports
    two issues and returns three components, so the manager's four-name
    unpacking raises; and with validation switched off the same batch is
    declared valid. *)
Lemma empty_batch_counterexample :
  DataValidator.validate_data_quality no_india default_validation_rules
    default_config frame_without_columns (Some "RELIANCE") false
  = (Tuple3 false [MissingColumns DataValidator.required_columns; EmptyDataset] 0%Q, [])
  /\ fst (DataManager.validate_data_quality no_india default_validation_rules
            default_config frame_without_columns (Some "RELIANCE") false)
     = Raised (ValueError "not enough values to unpack (expected 4, got 3)")
  /\ report_is_valid
       (fst (DataValidator.validate_data_quality no_india default_validation_rules
               validation_off frame_without_columns (Some "RELIANCE") false))
     = true.
Proof. repeat split. Qed.

(** ** Storing with validation *)

Lemma data_copy_not_empty (constituents : string -> option string)
    (data : DataFrame) (symbol : string) :
  df_empty data = false ->
  df_empty (DataManager.data_copy_of constituents data symbol) = false.
Proof.
  unfold df_empty, DataManager.data_copy_of. cbn.
  destruct (df_rows data) as [|r rs]; [discriminate|].
  destruct (df_columns data); [discriminate|]. reflexivity.
Qed.

(** On a batch that is not empty the validator returns four components. *)
Lemma validator_returns_four_on_rows
    (India : list Z -> HolidayCalendar) (rules : ValidationRules) (config : Config)
    (data : DataFrame) (symbol : option string) (skip_logging : bool) :
  df_empty data = false ->
  report_arity
    (fst (DataValidator.validate_data_quality India rules config data symbol skip_logging))
  = 4%nat.
Proof.
  intros Hne. unfold DataValidator.validate_data_quality. rewrite Hne.
  destruct (negb (config_validation_enabled config)); [reflexivity|].
  destruct (DataValidator.run_checks India rules data _); reflexivity.
Qed.

(** Whatever the batch, the rules, the configuration and the backend: a
    call of [store_ohlcv_data] with validation on a batch that has rows and
    a timestamp column ends in the [ValueError] of the three-name
    unpacking, before any batch is written. *)
Lemma store_with_validation_always_raises
    (India : list Z -> HolidayCalendar) (rules : ValidationRules) (config : Config)
    (constituents : string -> option string)
    (Database : Type) (execute : Database -> list DataManager.StoredRow -> Database * bool)
    (m : DataManager.Manager) (db : Database) (data : DataFrame)
    (symbol data_source : string) :
  df_empty data = false ->
  has_column data "timestamp" = true ->
  let r := DataManager.store_ohlcv_data India rules config constituents Database
             execute m db data symbol data_source false in
  DataManager.returned Database r = Raised (ValueError "too many values to unpack (expected 3)")
  /\ DataManager.database_after Database r = db
  /\ DataManager.manager_after Database r = m.
Proof.
  intros Hne Hts r. subst r. unfold DataManager.store_ohlcv_data. rewrite Hne.
  assert (Hcol : read_columns (DataManager.data_copy_of constituents data symbol)
                   ["timestamp"] = Returned tt).
  { unfold read_columns, has_column, DataManager.data_copy_of, mem_string in *.
    cbn [df_columns]. rewrite existsb_app, Hts. reflexivity. }
  rewrite Hcol. cbn [negb].
  pose proof (validator_returns_four_on_rows India rules config
                (DataManager.data_copy_of constituents data symbol) (Some symbol) false
                (data_copy_not_empty constituents data symbol Hne)) as Harity.
  unfold DataManager.validate_data_quality.
  destruct (DataValidator.validate_data_quality India rules config _ (Some symbol) false)
    as [report events].
  destruct report as [v i s|v i s d]; [discriminate Harity|].
  cbn. repeat split.
Qed.

(** C1 fails on the code: storing one well-formed bar with validation (the
    default, [skip_validation=False]) does not return a boolean, it raises
    [ValueError]. *)
Theorem store_with_validation_raises :
  DataManager.returned unit
    (DataManager.store_ohlcv_data no_india default_validation_rules default_config
       no_constituents unit always_commits DataManager.initial_manager tt
       (frame [bar monday 10 0]) "RELIANCE" "zerodha_kite" false)
  = Raised (ValueError "too many values to unpack (expected 3)").
Proof. vm_compute. reflexivity. Qed.

(** With validation skipped the same call stores the bar and returns
    [True]. *)
Example store_without_validation_returns :
  DataManager.returned unit
    (DataManager.store_ohlcv_data no_india default_validation_rules default_config
       no_constituents unit always_commits DataManager.initial_manager tt
       (frame [bar monday 10 0]) "RELIANCE" "zerodha_kite" true)
  = Returned true.
Proof. vm_compute. reflexivity. Qed.

(** ** Dictionaries *)

Section DictFacts.

Context {V : Type}.
Implicit Types (d : dict V) (k : string) (v : V).

Lemma dict_get_set_eq k v d : dict_get k (dict_set k v d) = Some v.
Proof.
  induction d as [|[k' v'] d IH]; cbn.
  - rewrite String.eqb_refl. reflexivity.
  - destruct (String.eqb k k') eqn:E; cbn; rewrite ?String.eqb_refl, ?E; auto.
Qed.

Lemma dict_get_set_ne k k' v d : k <> k' -> dict_get k (dict_set k' v d) = dict_get k d.
Proof.
  intros Hne. apply String.eqb_neq in Hne.
  induction d as [|[k0 v0] d IH]; cbn.
  - rewrite Hne. reflexivity.
  - destruct (String.eqb k' k0) eqn:E; cbn.
    + apply String.eqb_eq in E. subst k0. rewrite Hne. reflexivity.
    + rewrite IH. reflexivity.
Qed.

Lemma dict_get_pop_eq k d : dict_get k (dict_pop k d) = None.
Proof.
  unfold dict_pop. induction d as [|[k' v'] d IH]; cbn; [reflexivity|].
  destruct (String.eqb k k') eqn:E; cbn; rewrite ?E; exact IH.
Qed.

Lemma dict_get_pop_ne k k' d : k <> k' -> dict_get k (dict_pop k' d) = dict_get k d.
Proof.
  intros Hne. unfold dict_pop. induction d as [|[k0 v0] d IH]; cbn; [reflexivity|].
  destruct (String.eqb k' k0) eqn:E; cbn.
  - apply String.eqb_eq in E. subst k0.
    apply String.eqb_neq in Hne. rewrite Hne. exact IH.
  - rewrite IH. reflexivity.
Qed.

Lemma dict_get_in k v d : dict_get k d = Some v -> In (k, v) d.
Proof.
  induction d as [|[k' v'] d IH]; cbn; [discriminate|].
  destruct (String.eqb k k') eqn:E.
  - apply String.eqb_eq in E. subst k'. intros [= ->]. left. reflexivity.
  - intros H. right. exact (IH H).
Qed.

Lemma in_dict_get k v d : NoDup (dict_keys d) -> In (k, v) d -> dict_get k d = Some v.
Proof.
  induction d as [|[k' v'] d IH]; cbn; intros Hnd Hin; [contradiction|].
  inversion Hnd as [|? ? Hnotin Hnd']; subst.
  destruct Hin as [[= -> ->]|Hin].
  - rewrite String.eqb_refl. reflexivity.
  - destruct (String.eqb k k') eqn:E.
    + apply String.eqb_eq in E. subst k'. exfalso. apply Hnotin.
      change k with (fst (k, v)). apply in_map. exact Hin.
    + exact (IH Hnd' Hin).
Qed.

Lemma dict_get_none_keys k d : dict_get k d = None <-> ~ In k (dict_keys d).
Proof.
  induction d as [|[k' v'] d IH]; cbn.
  - split; [intros _ []|reflexivity].
  - destruct (String.eqb k k') eqn:E.
    + apply String.eqb_eq in E. subst k'. split; [discriminate|].
      intros H. exfalso. apply H. left. reflexivity.
    + apply String.eqb_neq in E. rewrite IH. split.
      * intros H [Heq|Hin]; [congruence|contradiction].
      * intros H Hin. apply H. right. exact Hin.
Qed.

End DictFacts.

Lemma dict_keys_set {V : Type} (k : string) (v : V) (d : dict V) :
  dict_keys (dict_set k v d) = keys_set k (dict_keys d).
Proof.
  induction d as [|[k' v'] d IH]; cbn; [reflexivity|].
  destruct (String.eqb k k'); cbn; [reflexivity|]. f_equal. exact IH.
Qed.

Lemma dict_keys_pop {V : Type} (k : string) (d : dict V) :
  dict_keys (dict_pop k d) = keys_pop k (dict_keys d).
Proof.
  unfold dict_pop, keys_pop, dict_keys.
  induction d as [|[k' v'] d IH]; cbn; [reflexivity|].
  destruct (String.eqb k k'); cbn; [exact IH|]. f_equal. exact IH.
Qed.

Lemma keys_set_in (k x : string) (ks : list string) :
  In x (keys_set k ks) <-> x = k \/ In x ks.
Proof.
  induction ks as [|k' ks IH]; cbn.
  - split; [intros [H|[]]; left; congruence | intros [H|[]]; left; congruence].
  - destruct (String.eqb k k') eqn:E; cbn.
    + apply String.eqb_eq in E. subst k'. split.
      * intros [H|H]; [left; congruence | right; right; exact H].
      * intros [H|[H|H]]; [left; congruence | left; exact H | right; exact H].
    + rewrite IH. tauto.
Qed.

Lemma keys_set_nodup (k : string) (ks : list string) :
  NoDup ks -> NoDup (keys_set k ks).
Proof.
  induction ks as [|k' ks IH]; cbn; intros Hnd.
  - constructor; [intros []|constructor].
  - inversion Hnd as [|? ? Hnotin Hnd']; subst.
    destruct (String.eqb k k') eqn:E.
    + apply String.eqb_eq in E. subst k'. constructor; assumption.
    + apply String.eqb_neq in E. constructor; [|exact (IH Hnd')].
      rewrite keys_set_in. intros [H|H]; [congruence|contradiction].
Qed.

Lemma keys_set_length (k : string) (ks : list string) :
  List.length (keys_set k ks)
  = if mem_string k ks then List.length ks else S (List.length ks).
Proof.
  unfold mem_string. induction ks as [|k' ks IH]; cbn; [reflexivity|].
  destruct (String.eqb k k'); cbn; [reflexivity|].
  rewrite IH. destruct (existsb (String.eqb k) ks); reflexivity.
Qed.

Lemma keys_pop_nodup (k : string) (ks : list string) : NoDup ks -> NoDup (keys_pop k ks).
Proof. apply NoDup_filter. Qed.

Lemma keys_pop_length_le (k : string) (ks : list string) :
  (List.length (keys_pop k ks) <= List.length ks)%nat.
Proof. apply filter_length_le. Qed.

Lemma keys_pop_length (k : string) (ks : list string) :
  NoDup ks -> In k ks -> S (List.length (keys_pop k ks)) = List.length ks.
Proof.
  unfold keys_pop. induction ks as [|k' ks IH]; cbn; intros Hnd Hin; [contradiction|].
  inversion Hnd as [|? ? Hnotin Hnd']; subst.
  destruct (String.eqb k k') eqn:E; cbn.
  - apply String.eqb_eq in E. subst k'. f_equal.
    clear IH Hin Hnd. induction ks as [|x ks IH]; cbn; [reflexivity|].
    destruct (String.eqb k x) eqn:E; cbn.
    + apply String.eqb_eq in E. subst x. exfalso. apply Hnotin. left. reflexivity.
    + f_equal. apply IH.
      * intros H. apply Hnotin. right. exact H.
      * inversion Hnd'; assumption.
  - apply String.eqb_neq in E. f_equal. apply IH; [exact Hnd'|].
    destruct Hin as [H|H]; [congruence|exact H].
Qed.

Lemma dict_length_keys {V : Type} (d : dict V) : len d = len (dict_keys d).
Proof. unfold len, dict_keys. rewrite length_map. reflexivity. Qed.

(** ** The read-through cache: [get] *)

(** C6. [_get_from_cache] returns a snapshot exactly when the key is present
    and the age of its entry is strictly below the maximum age, which is five
    minutes; it then returns the stored snapshot and only the hit counter
    moves.  On a present but stale entry it returns nothing, removes the
    entry (from both dictionaries, leaving the other keys alone) and counts a
    miss.  On an absent key it returns nothing, leaves the dictionaries alone
    and counts a miss. *)
Theorem get_from_cache_hit_iff_fresh :
  forall (m : Manager) (key : string) (now : Datetime),
    let r := _get_from_cache m key now in
    _max_cache_age = 5 * 60 * 1000000
    /\ (forall data,
          fst r = Some data
          <-> exists cache_time,
                dict_get key (_cache m) = Some (cache_time, data)
                /\ now - cache_time < _max_cache_age)
    /\ (forall data,
          fst r = Some data ->
          _cache (snd r) = _cache m
          /\ _cache_timestamps (snd r) = _cache_timestamps m
          /\ hits (snd r) = hits m + 1
          /\ misses (snd r) = misses m)
    /\ (forall cache_time data,
          dict_get key (_cache m) = Some (cache_time, data) ->
          _max_cache_age <= now - cache_time ->
          fst r = None
          /\ dict_get key (_cache (snd r)) = None
          /\ dict_get key (_cache_timestamps (snd r)) = None
          /\ (forall k, k <> key ->
                dict_get k (_cache (snd r)) = dict_get k (_cache m)
                /\ dict_get k (_cache_timestamps (snd r))
                   = dict_get k (_cache_timestamps m))
          /\ hits (snd r) = hits m
          /\ misses (snd r) = misses m + 1)
    /\ (dict_get key (_cache m) = None ->
          fst r = None
          /\ _cache (snd r) = _cache m
          /\ _cache_timestamps (snd r) = _cache_timestamps m
          /\ hits (snd r) = hits m
          /\ misses (snd r) = misses m + 1).
Proof.
  intros m key now r. subst r. unfold _get_from_cache.
  split; [reflexivity|].
  destruct (dict_get key (_cache m)) as [[t d]|] eqn:Hget.
  - destruct (now - t <? _max_cache_age) eqn:Hage.
    + apply Z.ltb_lt in Hage. cbn [fst snd _cache _cache_timestamps hits misses].
      split; [|split; [|split]].
      * intros data. split.
        -- intros [= <-]. exists t. split; [reflexivity|exact Hage].
        -- intros (t' & [= <- <-] & _). reflexivity.
      * intros data _. repeat split.
      * intros t' d' [= <- <-] Hstale. lia.
      * discriminate.
    + apply Z.ltb_ge in Hage. cbn [fst snd _cache _cache_timestamps hits misses].
      split; [|split; [|split]].
      * intros data. split; [discriminate|].
        intros (t' & [= <- <-] & Hfresh). lia.
      * discriminate.
      * intros t' d' _ _. split; [reflexivity|].
        split; [apply dict_get_pop_eq|]. split; [apply dict_get_pop_eq|].
        split; [|split; reflexivity].
        intros k Hk. split; apply dict_get_pop_ne; exact Hk.
      * discriminate.
  - cbn [fst snd _cache _cache_timestamps hits misses].
    split; [|split; [|split]].
    + intros data. split; [discriminate|]. intros (t' & [=] & _).
    + discriminate.
    + discriminate.
    + intros _. repeat split.
Qed.

Lemma get_from_cache_hit_iff_fresh_witness :
  (dict_get "latest_RELIANCE_100" (_cache one_entry)
   = Some (0, frame [bar monday 10 0])
   /\ _max_cache_age <= 300000000 - 0)
  /\ fst (_get_from_cache one_entry "latest_RELIANCE_100" 300000000) = None
  /\ dict_get "latest_RELIANCE_100"
       (_cache (snd (_get_from_cache one_entry "latest_RELIANCE_100" 300000000)))
     = None
  /\ fst (_get_from_cache one_entry "latest_RELIANCE_100" 299999999)
     = Some (frame [bar monday 10 0])
  /\ hits (snd (_get_from_cache one_entry "latest_RELIANCE_100" 299999999)) = 1.
Proof.
  split; [split; [reflexivity|vm_compute; discriminate]|].
  pose proof (get_from_cache_hit_iff_fresh one_entry "latest_RELIANCE_100" 300000000)
    as (_ & _ & _ & Hstale & _).
  pose proof (get_from_cache_hit_iff_fresh one_entry "latest_RELIANCE_100" 299999999)
    as (_ & Hiff & Hhit & _ & _).
  destruct (Hstale 0 (frame [bar monday 10 0]) eq_refl ltac:(vm_compute; discriminate))
    as (Hnone & Hgone & _).
  assert (Hfresh : fst (_get_from_cache one_entry "latest_RELIANCE_100" 299999999)
                   = Some (frame [bar monday 10 0])).
  { apply Hiff. exists 0. split; [reflexivity|vm_compute; reflexivity]. }
  split; [exact Hnone|]. split; [exact Hgone|]. split; [exact Hfresh|].
  destruct (Hhit _ Hfresh) as (_ & _ & Hh & _). exact Hh.
Defined.

(** ** The read-through cache: [put] and the size bound *)

Lemma invariant_initial : cache_invariant initial_manager.
Proof. repeat split; [constructor | cbn; lia]. Qed.

Lemma invariant_pop (m : Manager) (k : string) :
  cache_invariant m ->
  cache_invariant {| _cache := dict_pop k (_cache m);
                     _cache_timestamps := dict_pop k (_cache_timestamps m);
                     hits := hits m; misses := misses m |}.
Proof.
  intros (Hkeys & Hnd & Hlen). unfold cache_invariant.
  cbn [_cache _cache_timestamps].
  rewrite !dict_keys_pop, <- Hkeys. split; [reflexivity|].
  split; [apply keys_pop_nodup; exact Hnd|].
  rewrite dict_length_keys, dict_keys_pop. rewrite dict_length_keys in Hlen.
  pose proof (keys_pop_length_le k (dict_keys (_cache m))). unfold len in *. lia.
Qed.

Lemma invariant_pop_all (keys : list string) (m : Manager) :
  cache_invariant m -> cache_invariant (pop_all keys m).
Proof.
  unfold pop_all. revert m. induction keys as [|k keys IH]; intros m Hinv; cbn.
  - exact Hinv.
  - apply IH. apply invariant_pop. exact Hinv.
Qed.

Lemma invariant_counters (m : Manager) (h ms : Z) :
  cache_invariant m ->
  cache_invariant {| _cache := _cache m; _cache_timestamps := _cache_timestamps m;
                     hits := h; misses := ms |}.
Proof. intros H. exact H. Qed.

Lemma invariant_get (m : Manager) (key : string) (now : Datetime) :
  cache_invariant m -> cache_invariant (snd (_get_from_cache m key now)).
Proof.
  intros Hinv. unfold _get_from_cache.
  destruct (dict_get key (_cache m)) as [[t d]|]; [|exact Hinv].
  destruct (now - t <? _max_cache_age); [exact Hinv|].
  apply (invariant_pop m key Hinv).
Qed.

Lemma min_key_from_spec (rest : list (string * Datetime)) :
  forall best,
    In (min_key_from best rest) (best :: rest)
    /\ forall kv, In kv (best :: rest) -> snd (min_key_from best rest) <= snd kv.
Proof.
  induction rest as [|kv rest IH]; intros best; cbn [min_key_from].
  - split; [left; reflexivity|]. intros kv [<-|[]]. lia.
  - destruct (snd kv <? snd best) eqn:E.
    + apply Z.ltb_lt in E. destruct (IH kv) as [Hin Hmin]. split.
      * right. exact Hin.
      * intros x [<-|Hx]; [|exact (Hmin x Hx)].
        specialize (Hmin kv (or_introl eq_refl)). lia.
    + apply Z.ltb_ge in E. destruct (IH best) as [Hin Hmin]. split.
      * destruct Hin as [Hin|Hin]; [left; exact Hin | right; right; exact Hin].
      * intros x [<-|[<-|Hx]].
        -- apply Hmin. left. reflexivity.
        -- specialize (Hmin best (or_introl eq_refl)). lia.
        -- apply Hmin. right. exact Hx.
Qed.

(** What [_store_in_cache] does on a manager that satisfies the invariant. *)
Lemma store_in_cache_spec (m : Manager) (key : string) (data : DataFrame)
    (now1 now2 : Datetime) :
  cache_invariant m ->
  exists m',
    _store_in_cache m key data now1 now2 = Returned m'
    /\ cache_invariant m'
    /\ (dict_get key (_cache m) = None ->
        len (_cache m) = 500 ->
        exists victim victim_time,
          dict_get victim (dict_set key now2 (_cache_timestamps m)) = Some victim_time
          /\ (forall k t,
                dict_get k (dict_set key now2 (_cache_timestamps m)) = Some t ->
                victim_time <= t)
          /\ dict_get victim (_cache m') = None
          /\ dict_get victim (_cache_timestamps m') = None
          /\ (forall k, k <> victim ->
                dict_get k (_cache m')
                = dict_get k (dict_set key (now1, data) (_cache m)))
          /\ len (_cache m') = 500).
Proof.
  intros (Hkeys & Hnd & Hlen). unfold _store_in_cache.
  set (cache := dict_set key (now1, data) (_cache m)).
  set (stamps := dict_set key now2 (_cache_timestamps m)).
  assert (Hkeys' : dict_keys cache = dict_keys stamps).
  { unfold cache, stamps. rewrite !dict_keys_set, Hkeys. reflexivity. }
  assert (Hnd' : NoDup (dict_keys cache)).
  { unfold cache. rewrite dict_keys_set. apply keys_set_nodup. exact Hnd. }
  assert (Hlen' : len cache
                  = if mem_string key (dict_keys (_cache m))
                    then len (_cache m) else len (_cache m) + 1).
  { unfold cache. rewrite !dict_length_keys, dict_keys_set. unfold len.
    rewrite keys_set_length. destruct (mem_string key _); lia. }
  destruct (500 <? len cache) eqn:Hfull.
  - apply Z.ltb_lt in Hfull.
    assert (Hgrown : len cache = 501 /\ len (_cache m) = 500).
    { destruct (mem_string key (dict_keys (_cache m))); lia. }
    destruct stamps as [|kv rest] eqn:Hstamps.
    { exfalso. rewrite dict_length_keys, Hkeys' in Hfull. cbn in Hfull. lia. }
    destruct (min_key_from_spec rest kv) as [Hin Hmin].
    set (oldest := min_key_from kv rest) in *.
    assert (Hvictim_key : In (fst oldest) (dict_keys cache)).
    { rewrite Hkeys'. unfold dict_keys. apply in_map. exact Hin. }
    eexists. split; [reflexivity|]. split.
    + unfold cache_invariant. cbn [_cache _cache_timestamps].
      rewrite !dict_keys_pop, <- Hkeys'. split; [reflexivity|].
      split; [apply keys_pop_nodup; exact Hnd'|].
      rewrite dict_length_keys, dict_keys_pop.
      pose proof (keys_pop_length (fst oldest) (dict_keys cache) Hnd' Hvictim_key) as Hpop.
      rewrite dict_length_keys in Hgrown. unfold len in *. lia.
    + intros _ _. exists (fst oldest), (snd oldest).
      cbn [_cache _cache_timestamps].
      assert (Hnd_stamps : NoDup (dict_keys (kv :: rest))).
      { rewrite <- Hkeys'. exact Hnd'. }
      split; [|split; [|split; [|split; [|split]]]].
      * apply in_dict_get; [exact Hnd_stamps|]. destruct oldest; exact Hin.
      * intros k t Hget. apply (Hmin (k, t)). apply dict_get_in. exact Hget.
      * apply dict_get_pop_eq.
      * apply dict_get_pop_eq.
      * intros k Hk. apply dict_get_pop_ne. exact Hk.
      * rewrite dict_length_keys, dict_keys_pop.
        pose proof (keys_pop_length (fst oldest) (dict_keys cache) Hnd' Hvictim_key)
          as Hpop.
        rewrite dict_length_keys in Hgrown. unfold len in *. lia.
  - apply Z.ltb_ge in Hfull. eexists. split; [reflexivity|]. split.
    + unfold cache_invariant. cbn [_cache _cache_timestamps].
      split; [exact Hkeys'|]. split; [exact Hnd'|exact Hfull].
    + intros Habsent Hsize. exfalso.
      apply dict_get_none_keys in Habsent.
      assert (Hmem : mem_string key (dict_keys (_cache m)) = false).
      { unfold mem_string. apply not_true_is_false. intros H.
        apply existsb_exists in H. destruct H as (x & Hx & Heq).
        apply String.eqb_eq in Heq. subst x. contradiction. }
      rewrite Hmem in Hlen'. lia.
Qed.

Lemma invariant_apply_op (m : Manager) (op : CacheOp) :
  cache_invariant m -> exists m', apply_op m op = Returned m' /\ cache_invariant m'.
Proof.
  intros Hinv. destruct op as [key now|key data now1 now2|symbol|now|]; cbn.
  - eexists. split; [reflexivity|]. apply invariant_get. exact Hinv.
  - destruct (store_in_cache_spec m key data now1 now2 Hinv) as (m' & Hm' & Hinv' & _).
    exists m'. split; assumption.
  - eexists. split; [reflexivity|]. apply invariant_pop_all. exact Hinv.
  - eexists. split; [reflexivity|]. apply invariant_pop_all. exact Hinv.
  - eexists. split; [reflexivity|]. apply invariant_initial.
Qed.

Lemma invariant_run_ops (ops : list CacheOp) :
  forall m, cache_invariant m ->
            exists m', run_ops m ops = Returned m' /\ cache_invariant m'.
Proof.
  induction ops as [|op ops IH]; intros m Hinv; cbn.
  - exists m. split; [reflexivity|exact Hinv].
  - destruct (invariant_apply_op m op Hinv) as (m1 & Hm1 & Hinv1).
    rewrite Hm1. cbn. apply IH. exact Hinv1.
Qed.

(** C7. Starting from the empty cache, every sequence of cache operations
    runs without fault and leaves at most 500 entries.  In any state so
    reached a put completes with at most 500 entries; and when the cache
    holds 500 entries and the key is new (the 501st distinct key), the put
    removes exactly one entry, [victim], whose insertion time is the oldest
    of all, leaves every other entry as it was, and is back at 500
    entries. *)
Theorem cache_never_exceeds_500 :
  (forall ops, exists m, run_ops initial_manager ops = Returned m)
  /\ forall ops m,
       run_ops initial_manager ops = Returned m ->
       len (_cache m) <= 500
       /\ forall key data now1 now2,
            exists m',
              _store_in_cache m key data now1 now2 = Returned m'
              /\ len (_cache m') <= 500
              /\ (dict_get key (_cache m) = None ->
                  len (_cache m) = 500 ->
                  exists victim victim_time,
                    dict_get victim (dict_set key now2 (_cache_timestamps m))
                    = Some victim_time
                    /\ (forall k t,
                          dict_get k (dict_set key now2 (_cache_timestamps m)) = Some t ->
                          victim_time <= t)
                    /\ dict_get victim (_cache m') = None
                    /\ dict_get victim (_cache_timestamps m') = None
                    /\ (forall k, k <> victim ->
                          dict_get k (_cache m')
                          = dict_get k (dict_set key (now1, data) (_cache m)))
                    /\ len (_cache m') = 500).
Proof.
  split.
  - intros ops.
    destruct (invariant_run_ops ops initial_manager invariant_initial) as (m & Hm & _).
    exists m. exact Hm.
  - intros ops m Hrun.
    destruct (invariant_run_ops ops initial_manager invariant_initial)
      as (m0 & Hm0 & Hinv).
    rewrite Hrun in Hm0. injection Hm0 as <-.
    split; [exact (proj2 (proj2 Hinv))|].
    intros key data now1 now2.
    destruct (store_in_cache_spec m key data now1 now2 Hinv) as (m' & Hm' & Hinv' & Hev).
    exists m'. split; [exact Hm'|]. split; [exact (proj2 (proj2 Hinv'))|exact Hev].
Qed.

Lemma cache_never_exceeds_500_witness :
  run_ops initial_manager (fill_ops 500) = Returned full_manager
  /\ dict_get (key_of 500) (_cache full_manager) = None
  /\ len (_cache full_manager) = 500
  /\ exists m',
       _store_in_cache full_manager (key_of 500) frame_without_columns 500 500
       = Returned m'
       /\ len (_cache m') = 500.
Proof.
  assert (Hrun : run_ops initial_manager (fill_ops 500) = Returned full_manager)
    by (vm_compute; reflexivity).
  assert (Hnew : dict_get (key_of 500) (_cache full_manager) = None)
    by (vm_compute; reflexivity).
  assert (Hsize : len (_cache full_manager) = 500) by (vm_compute; reflexivity).
  split; [exact Hrun|]. split; [exact Hnew|]. split; [exact Hsize|].
  destruct (proj2 (proj2 cache_never_exceeds_500 (fill_ops 500) full_manager Hrun)
              (key_of 500) frame_without_columns 500 500)
    as (m' & Hm' & _ & Hevict).
  destruct (Hevict Hnew Hsize) as (victim & t & _ & _ & _ & _ & _ & Hlen).
  exists m'. split; [exact Hm'|exact Hlen].
Defined.

(** On that cache the 501st key evicts the entry of the first put. *)
Example eviction_removes_the_first_put :
  match _store_in_cache full_manager (key_of 500) frame_without_columns 500 500 with
  | Returned m' =>
      dict_get (key_of 0) (_cache m') = None
      /\ dict_keys (_cache m') = map key_of (seq 1 500)
  | Raised _ => False
  end.
Proof. vm_compute. split; reflexivity. Qed.

(** ** Which checks contribute a subscore *)




Section Contributions.

Import DataValidator.

Variable India : list Z -> HolidayCalendar.
Variable rules : ValidationRules.













End Contributions.




(** ** Gap detection on one-minute bars with a five-minute hole *)

(** C5 fails on the code.  On trading bars at 10:00, 10:01 and 10:06 the
    expected interval is one minute and the tolerance 1.1, but the gap check
    looks up the row after the gap by index label plus one, which is past
    the end: it raises [IndexError], and validation returns "Validation
    failed" with empty details, reporting no gap at all. *)
Theorem gap_before_last_bar_is_not_reported :
  DataValidator.expected_interval_of no_india default_validation_rules
    (sort_values_timestamp hole_before_last_bar) = (Some (timedelta_minutes 1), 3)
  /\ DataValidator.gap_tolerance (timedelta_minutes 1) = (11 # 10)%Q
  /\ DataValidator.gap_detection no_india default_validation_rules
       (sort_values_timestamp hole_before_last_bar) initial_vstate
     = Raised IndexError
  /\ DataValidator.validate_data_quality no_india default_validation_rules
       default_config hole_before_last_bar (Some "RELIANCE") true
     = (Tuple4 false [ValidationFailed IndexError] 0%Q EmptyDict,
        [EvLoggerError IndexError]).
Proof. repeat split. Qed.

(** With the hole inside the batch the gap check reports one gap with four
    missing intervals; the two timestamps it records are those of the bar
    after the hole and of the bar after that one. *)
Example gap_inside_is_reported :
  exists st',
    DataValidator.gap_detection no_india default_validation_rules
      (sort_values_timestamp hole_inside) initial_vstate = Returned st'
    /\ gap_details (timestamp_details st')
       = [{| gap_start := Some (mk_timestamp monday (mk_time 10 7 0));
             gap_end := Some (mk_timestamp monday (mk_time 10 8 0));
             gap_duration_minutes := 5;
             missing_intervals := 4;
             expected_interval_minutes := 1 |}]
    /\ issues st' = [MissingTimeIntervals 1 (Some 2)].
Proof. eexists. split; [|split]; vm_compute; reflexivity. Qed.

(** ** Batch persistence *)

Section Persistence.

Variable India : list Z -> HolidayCalendar.
Variable rules : ValidationRules.
Variable config : Config.
Variable constituents : string -> option string.
Variable Database : Type.
Variable execute : Database -> list StoredRow -> Database * bool.

Lemma retry_loop_trace (db : Database) (rows : list StoredRow) (start_idx end_idx : Z) :
  let '(ok, failed, _, events) :=
    retry_loop Database execute 3 [0; 1; 2] db rows start_idx end_idx in
  batch_trace (len rows) start_idx end_idx ok failed events.
Proof.
  cbn [retry_loop].
  destruct (execute db rows) as [db1 c1]. destruct c1; [constructor|].
  cbn [Z.ltb Z.sub Z.compare Z.add Z.opp Z.pos_sub Pos.compare Pos.compare_cont
       Z.succ_double Z.pred_double Z.double Pos.pred_double].
  destruct (execute db1 rows) as [db2 c2]. destruct c2; [constructor|].
  destruct (execute db2 rows) as [db3 c3]. destruct c3; constructor.
Qed.

Lemma batch_trace_facts (n s e ok failed : Z) (events : list Event) :
  batch_trace n s e ok failed events ->
  ok + failed = 1 /\ 0 <= ok /\ 0 <= failed
  /\ existsb is_invalidate events = false
  /\ (count is_execute events <= 3)
  /\ (failed = 1 -> count is_execute events = 3)
  /\ (sleeps events = [] \/ sleeps events = [1] \/ sleeps events = [1; 2]).
Proof.
  intros H. destruct H; cbn; repeat split; try lia; auto.
Qed.

Lemma batch_loop_counts (data_copy : DataFrame) (symbol data_source : string)
    (quality_score : Q) (bs : Z) (starts : list Z) :
  forall ok failed db events ok' failed' db' events',
    batch_loop constituents Database execute data_copy symbol data_source
      quality_score bs starts (ok, failed, db, events)
    = Returned (ok', failed', db', events') ->
    ok' + failed' = ok + failed + len starts
    /\ ok <= ok' /\ failed <= failed'
    /\ existsb is_invalidate events' = existsb is_invalidate events
    /\ count is_execute events' <= count is_execute events + 3 * len starts
    /\ (forall s, In s (sleeps events') -> In s (sleeps events) \/ s = 1 \/ s = 2).
Proof.
  induction starts as [|start rest IH]; intros ok failed db events ok' failed' db' events'.
  - cbn. intros [= <- <- <- <-]. repeat split; try lia. intros s Hs. left. exact Hs.
  - cbn [batch_loop]. unfold store_batch at 1.
    destruct (match slice (df_rows data_copy) start _ with
              | [] => Returned tt
              | _ :: _ => read_columns data_copy row_columns
              end); cbn [bind]; [|discriminate].
    match goal with
    | |- context [retry_loop Database execute 3 [0; 1; 2] db ?rows start ?e] =>
        pose proof (retry_loop_trace db rows start e) as Htrace;
        destruct (retry_loop Database execute 3 [0; 1; 2] db rows start e)
          as [[[ok1 failed1] db1] events1]
    end.
    intros Hloop. destruct (IH _ _ _ _ _ _ _ _ Hloop) as (Hsum & Hok & Hfail & Hinv & Hex & Hsl).
    destruct (batch_trace_facts _ _ _ _ _ _ Htrace)
      as (H1 & H2 & H3 & H4 & H5 & _ & H7).
    assert (Hlen : len (start :: rest) = len rest + 1).
    { unfold len. cbn [List.length]. lia. }
    repeat split; try lia.
    + rewrite Hinv, existsb_app, H4, orb_false_r. reflexivity.
    + unfold count in *. rewrite filter_app in Hex. unfold len in *.
      rewrite length_app in Hex. cbn [List.length] in *. lia.
    + intros s Hs. destruct (Hsl s Hs) as [Hin|Hin]; [|right; exact Hin].
      assert (Happ : forall a b, sleeps (a ++ b) = sleeps a ++ sleeps b).
      { clear. induction a as [|x a IHa]; intros b; [reflexivity|].
        destruct x; cbn; rewrite ?IHa; reflexivity. }
      rewrite Happ in Hin. apply in_app_or in Hin. destruct Hin as [Hin|Hin];
        [left; exact Hin|right].
      destruct H7 as [H7|[H7|H7]]; rewrite H7 in Hin; cbn in Hin; intuition.
Qed.

(** C8, as the code has it.  The retry loop of a batch makes at most three
    attempts, sleeping 1 s after the first failure and 2 s after the second,
    and counts the batch as stored or, after the third failure, as failed.
    A call of [store_ohlcv_data] that skips validation, on a batch that is
    not empty, when it returns: has processed every batch (stored plus
    failed is the number of batches); returns [True] exactly when at least
    one batch was stored; has invalidated the cache of the symbol exactly
    then, and once; slept only 1 s or 2 s at a time; and made at most three
    attempts per batch.  What it returns is that one boolean: the two
    counters are local to the call.  On an empty batch the call returns
    [True] at once, without any attempt. *)
Theorem store_outcome :
  (forall db rows start_idx end_idx,
      let '(ok, failed, _, events) :=
        retry_loop Database execute 3 [0; 1; 2] db rows start_idx end_idx in
      batch_trace (len rows) start_idx end_idx ok failed events)
  /\ (forall m db data symbol data_source flag,
        let r := store_ohlcv_data India rules config constituents Database execute
                   m db data symbol data_source true in
        df_empty data = false ->
        returned Database r = Returned flag ->
        exists starts,
          range0 (df_len data) (config_batch_size config) = Returned starts
          /\ successful_batches Database r + failed_batches Database r = len starts
          /\ 0 <= successful_batches Database r
          /\ 0 <= failed_batches Database r
          /\ (flag = true <-> 0 < successful_batches Database r)
          /\ count is_invalidate (effects Database r)
             = (if 0 <? successful_batches Database r then 1 else 0)
          /\ manager_after Database r
             = (if 0 <? successful_batches Database r
                then _invalidate_cache m symbol else m)
          /\ count is_execute (effects Database r) <= 3 * len starts
          /\ (forall s, In s (sleeps (effects Database r)) -> s = 1 \/ s = 2))
  /\ (forall m db data symbol data_source skip_validation,
        df_empty data = true ->
        let r := store_ohlcv_data India rules config constituents Database execute
                   m db data symbol data_source skip_validation in
        returned Database r = Returned true
        /\ effects Database r = []
        /\ successful_batches Database r = 0
        /\ manager_after Database r = m
        /\ database_after Database r = db).
Proof.
  split; [exact retry_loop_trace|]. split.
  - intros m db data symbol data_source flag r Hne Hret. subst r.
    unfold store_ohlcv_data in *. rewrite Hne in *.
    destruct (read_columns (data_copy_of constituents data symbol) ["timestamp"]);
      [|discriminate Hret].
    cbn [negb] in *. unfold store_batches in *.
    change (df_len (data_copy_of constituents data symbol)) with (df_len data) in *.
    destruct (range0 (df_len data) (config_batch_size config)) as [starts|e];
      cbn [bind] in *; [|discriminate Hret].
    destruct (batch_loop _ _ _ _ _ _ _ _ starts _) as [[[[ok failed] db'] events']|e]
      eqn:Hloop; [|discriminate Hret].
    destruct (batch_loop_counts _ _ _ _ _ _ _ _ _ _ _ _ _ _ Hloop)
      as (Hsum & Hok & Hfail & Hinv & Hex & Hsl).
    exists starts. split; [reflexivity|].
    assert (Hcount : count is_invalidate events' = 0).
    { cbn in Hinv. unfold count, len.
      rewrite filter_none; [reflexivity|].
      intros x Hx. destruct (is_invalidate x) eqn:E; [|reflexivity].
      assert (existsb is_invalidate events' = true)
        by (apply existsb_exists; exists x; split; assumption).
      congruence. }
    assert (Happ : forall a b, sleeps (a ++ b) = sleeps a ++ sleeps b).
    { clear. induction a as [|x a IHa]; intros b; [reflexivity|].
      destruct x; cbn; rewrite ?IHa; reflexivity. }
    destruct (0 <? ok) eqn:Hpos.
    + apply Z.ltb_lt in Hpos.
      cbn [returned successful_batches failed_batches effects manager_after] in *.
      injection Hret as <-.
      assert (Hpos' : (0 <? ok) = true) by (apply Z.ltb_lt; exact Hpos).
      rewrite Hpos'.
      repeat split; try lia.
      * unfold count in *. rewrite !filter_app. unfold len in *.
        rewrite !length_app.
        destruct (0 <? failed); cbn [filter is_invalidate List.length app] in *; lia.
      * unfold count in *. rewrite !filter_app. unfold len in *.
        rewrite !length_app. cbn [filter is_execute List.length app] in *.
        destruct (0 <? failed); cbn [filter is_execute List.length] in *; lia.
      * intros s Hs. rewrite !Happ in Hs.
        apply in_app_or in Hs. destruct Hs as [Hs|Hs].
        -- destruct (Hsl s Hs) as [[]|H]; exact H.
        -- destruct (0 <? failed); cbn in Hs; contradiction.
    + apply Z.ltb_ge in Hpos.
      cbn [returned successful_batches failed_batches effects manager_after] in *.
      injection Hret as <-.
      assert (Hpos' : (0 <? ok) = false) by (apply Z.ltb_ge; exact Hpos).
      rewrite Hpos'.
      repeat split; try lia; try discriminate.
      * unfold count in *. rewrite !filter_app. unfold len in *.
        rewrite !length_app. cbn [filter is_invalidate List.length] in *. lia.
      * unfold count in *. rewrite !filter_app. unfold len in *.
        rewrite !length_app. cbn [filter is_execute List.length] in *. lia.
      * intros s Hs. rewrite !Happ in Hs.
        apply in_app_or in Hs. destruct Hs as [Hs|Hs].
        -- destruct (Hsl s Hs) as [[]|H]; exact H.
        -- cbn in Hs. contradiction.
  - intros m db data symbol data_source skip Hempty r. subst r.
    unfold store_ohlcv_data. rewrite Hempty. repeat split.
Qed.

End Persistence.

Lemma store_outcome_witness :
  df_empty two_bars = false
  /\ returned nat partial_store = Returned true
  /\ successful_batches nat partial_store + failed_batches nat partial_store = 2
  /\ count is_invalidate (effects nat partial_store) = 1.
Proof.
  split; [reflexivity|]. split; [reflexivity|].
  destruct (proj1 (proj2 (store_outcome no_india default_validation_rules
                            batches_of_one no_constituents nat fails_three_times))
              initial_manager 0%nat two_bars "RELIANCE" "zerodha_kite" true
              eq_refl eq_refl)
    as (starts & Hstarts & Hsum & _ & _ & _ & Hinv & _).
  injection Hstarts as <-. split; [exact Hsum|exact Hinv].
Defined.

Example partial_store_trace :
  effects nat partial_store
  = [EvExecute 1 false; EvBatchRetry 0 0 1; EvSleep 1;
     EvExecute 1 false; EvBatchRetry 0 0 2; EvSleep 2;
     EvExecute 1 false; EvBatchFailed 0 0;
     EvExecute 1 true; EvBatchStored 1 1;
     EvInvalidateCache "RELIANCE"; EvPartialSuccess 1 1].
Proof. vm_compute. reflexivity. Qed.

(** C8 as stated fails in two places.  A call on an empty batch returns
    [True] although no batch was stored.  And the value returned does not
    carry the counts: a call with two batches stored and a call with one
    stored and one failed return the same value. *)
Lemma store_outcome_counterexample :
  (returned unit
     (store_ohlcv_data no_india default_validation_rules default_config
        no_constituents unit always_commits initial_manager tt
        frame_without_columns "RELIANCE" "zerodha_kite" true) = Returned true
   /\ successful_batches unit
        (store_ohlcv_data no_india default_validation_rules default_config
           no_constituents unit always_commits initial_manager tt
           frame_without_columns "RELIANCE" "zerodha_kite" true) = 0)
  /\ returned unit full_store = returned nat partial_store
  /\ (successful_batches unit full_store, failed_batches unit full_store) = (2, 0)
  /\ (successful_batches nat partial_store, failed_batches nat partial_store) = (1, 1).
Proof. repeat split. Qed.

(** ** Substrings *)

Lemma prefix_iff (needle hay : string) :
  String.prefix needle hay = true <-> exists post, hay = String.append needle post.
Proof.
  revert hay. induction needle as [|c needle IH]; intros hay.
  - split; [intros _; exists hay; reflexivity|intros _; destruct hay; reflexivity].
  - destruct hay as [|c' hay]; cbn.
    + split; [discriminate|intros [post H]; discriminate].
    + destruct (Ascii.ascii_dec c c') as [->|Hne].
      * rewrite IH. split; intros [post H]; exists post; [rewrite H; reflexivity|].
        injection H as H. exact H.
      * split; [discriminate|intros [post H]; injection H as H1 H2; congruence].
Qed.

(** [contains] against cutting the text in three. *)
Lemma contains_substring (needle hay : string) :
  contains needle hay = true
  <-> exists pre post, hay = String.append pre (String.append needle post).
Proof.
  induction hay as [|c hay IH]; cbn [contains].
  - destruct (String.prefix needle "") eqn:E.
    + split; [intros _|reflexivity].
      apply prefix_iff in E. destruct E as [post H]. exists "", post. exact H.
    + split; [discriminate|]. intros (pre & post & H).
      destruct pre; cbn in H.
      * assert (String.prefix needle "" = true) by (apply prefix_iff; exists post; exact H).
        congruence.
      * discriminate.
  - destruct (String.prefix needle (String c hay)) eqn:E.
    + split; [intros _|reflexivity].
      apply prefix_iff in E. destruct E as [post H]. exists "", post. exact H.
    + rewrite IH. split.
      * intros (pre & post & H). exists (String c pre), post. cbn. rewrite H. reflexivity.
      * intros (pre & post & H). destruct pre as [|c' pre]; cbn in H.
        -- assert (String.prefix needle (String c hay) = true)
             by (apply prefix_iff; exists post; exact H).
           congruence.
        -- injection H as _ H. exists pre, post. exact H.
Qed.

(** [contains] is the substring test of Python's [in]: it holds exactly when
    the text can be cut into a part before the needle, the needle, and a
    part after it. *)
Theorem contains_iff_substring (needle hay : string) :
  contains needle hay = true
  <-> exists pre post, hay = String.append pre (String.append needle post).
Proof.
  exact (contains_substring needle hay).
Qed.

Lemma contains_iff_substring_witness :
  contains "TATA" "latest_TATAMOTORS_100" = true.
Proof.
  apply contains_iff_substring. exists "latest_", "MOTORS_100". reflexivity.
Defined.

(** ** The read-through cache: invalidation, clean-up, counters *)

Lemma pop_all_fields (keys : list string) :
  forall m,
    _cache (pop_all keys m) = fold_left (fun c k => dict_pop k c) keys (_cache m)
    /\ _cache_timestamps (pop_all keys m)
       = fold_left (fun c k => dict_pop k c) keys (_cache_timestamps m)
    /\ hits (pop_all keys m) = hits m
    /\ misses (pop_all keys m) = misses m.
Proof.
  unfold pop_all. induction keys as [|k keys IH]; intros m; cbn [fold_left].
  - repeat split.
  - destruct (IH {| _cache := dict_pop k (_cache m);
                    _cache_timestamps := dict_pop k (_cache_timestamps m);
                    hits := hits m; misses := misses m |}) as (H1 & H2 & H3 & H4).
    rewrite H1, H2, H3, H4. repeat split.
Qed.

Lemma dict_get_pop_many {V : Type} (keys : list string) :
  forall (d : dict V) (k : string),
    dict_get k (fold_left (fun c k' => dict_pop k' c) keys d)
    = if mem_string k keys then None else dict_get k d.
Proof.
  unfold mem_string. induction keys as [|k' keys IH]; intros d k; cbn [fold_left existsb].
  - reflexivity.
  - rewrite IH. destruct (String.eqb k k') eqn:E; cbn [orb].
    + apply String.eqb_eq in E. subst k'.
      destruct (existsb (String.eqb k) keys); [reflexivity|apply dict_get_pop_eq].
    + apply String.eqb_neq in E.
      destruct (existsb (String.eqb k) keys); [reflexivity|].
      apply dict_get_pop_ne. exact E.
Qed.

Lemma mem_string_in (k : string) (ks : list string) :
  mem_string k ks = true <-> In k ks.
Proof.
  unfold mem_string. rewrite existsb_exists. split.
  - intros (x & Hx & Heq). apply String.eqb_eq in Heq. subst x. exact Hx.
  - intros H. exists k. split; [exact H|apply String.eqb_refl].
Qed.

(** What [_invalidate_cache] leaves in the two dictionaries. *)
Lemma invalidate_cache_spec :
  forall (m : Manager) (symbol : string),
    (forall k,
        dict_get k (_cache (_invalidate_cache m symbol))
        = if contains symbol k then None else dict_get k (_cache m))
    /\ hits (_invalidate_cache m symbol) = hits m
    /\ misses (_invalidate_cache m symbol) = misses m
    /\ (dict_keys (_cache m) = dict_keys (_cache_timestamps m) ->
        forall k,
          dict_get k (_cache_timestamps (_invalidate_cache m symbol))
          = if contains symbol k then None else dict_get k (_cache_timestamps m)).
Proof.
  intros m symbol. unfold _invalidate_cache.
  destruct (pop_all_fields (filter (contains symbol) (dict_keys (_cache m))) m)
    as (Hc & Hs & Hh & Hm).
  rewrite Hc, Hs, Hh, Hm.
  assert (Hmem : forall (ks : list string) k,
             mem_string k (filter (contains symbol) ks)
             = contains symbol k && mem_string k ks).
  { intros ks k. apply eq_true_iff_eq.
    rewrite andb_true_iff, !mem_string_in, filter_In. tauto. }
  split; [|split; [reflexivity|split; [reflexivity|]]].
  - intros k. rewrite dict_get_pop_many, Hmem.
    destruct (contains symbol k); cbn [andb]; [|reflexivity].
    destruct (mem_string k (dict_keys (_cache m))) eqn:E; [reflexivity|].
    apply dict_get_none_keys. intros Hin. apply mem_string_in in Hin. congruence.
  - intros Hkeys k. rewrite dict_get_pop_many, Hmem, Hkeys.
    destruct (contains symbol k); cbn [andb]; [|reflexivity].
    destruct (mem_string k (dict_keys (_cache_timestamps m))) eqn:E; [reflexivity|].
    apply dict_get_none_keys. intros Hin. apply mem_string_in in Hin. congruence.
Qed.

(** [_invalidate_cache] drops every cached entry whose key contains the
    symbol as a substring and no other entry, and leaves the counters alone;
    when the two dictionaries hold the same keys the same is true of the
    insertion times. *)
Theorem invalidate_removes_exactly_matching_keys :
  forall (m : Manager) (symbol : string),
    (forall k,
        dict_get k (_cache (_invalidate_cache m symbol))
        = if contains symbol k then None else dict_get k (_cache m))
    /\ hits (_invalidate_cache m symbol) = hits m
    /\ misses (_invalidate_cache m symbol) = misses m
    /\ (dict_keys (_cache m) = dict_keys (_cache_timestamps m) ->
        forall k,
          dict_get k (_cache_timestamps (_invalidate_cache m symbol))
          = if contains symbol k then None else dict_get k (_cache_timestamps m)).
Proof.
  exact (invalidate_cache_spec).
Qed.

Lemma invalidate_removes_exactly_matching_keys_witness :
  dict_keys (_cache one_entry) = dict_keys (_cache_timestamps one_entry)
  /\ dict_get "latest_RELIANCE_100"
       (_cache_timestamps (_invalidate_cache one_entry "RELIANCE")) = None.
Proof.
  split; [reflexivity|].
  exact (proj2 (proj2 (proj2 (invalidate_removes_exactly_matching_keys
                                one_entry "RELIANCE")))
           eq_refl "latest_RELIANCE_100").
Defined.

(** One pass of the clean-up thread, on a cache whose keys are unique,
    removes exactly the entries older than the maximum age.  An entry whose
    age equals the maximum age survives the pass, although [get] already
    treats it as stale and deletes it when asked for it. *)
Theorem cleanup_removes_exactly_expired :
  forall (m : Manager) (now : Datetime),
    NoDup (dict_keys (_cache m)) ->
    (forall k,
        dict_get k (_cache (cleanup_cache m now))
        = match dict_get k (_cache m) with
          | Some (t, data) => if _max_cache_age <? now - t then None else Some (t, data)
          | None => None
          end)
    /\ (forall k t data,
          dict_get k (_cache m) = Some (t, data) ->
          now - t = _max_cache_age ->
          dict_get k (_cache (cleanup_cache m now)) = Some (t, data)
          /\ fst (_get_from_cache (cleanup_cache m now) k now) = None)
    /\ hits (cleanup_cache m now) = hits m
    /\ misses (cleanup_cache m now) = misses m.
Proof.
  intros m now Hnd. unfold cleanup_cache.
  set (expired := map fst (filter (fun kv => _max_cache_age <? now - fst (snd kv))
                             (_cache m))).
  destruct (pop_all_fields expired m) as (Hc & _ & Hh & Hm). rewrite Hh, Hm.
  assert (Hget : forall k,
             dict_get k (_cache (pop_all expired m))
             = match dict_get k (_cache m) with
               | Some (t, data) =>
                   if _max_cache_age <? now - t then None else Some (t, data)
               | None => None
               end).
  { intros k. rewrite Hc, dict_get_pop_many.
    destruct (dict_get k (_cache m)) as [[t data]|] eqn:Hk.
    - destruct (_max_cache_age <? now - t) eqn:Hage.
      + replace (mem_string k expired) with true; [reflexivity|].
        symmetry. apply mem_string_in. unfold expired.
        change k with (fst (k, (t, data))). apply in_map. apply filter_In.
        split; [apply dict_get_in; exact Hk|exact Hage].
      + replace (mem_string k expired) with false; [reflexivity|].
        symmetry. apply not_true_is_false. intros Hin.
        apply mem_string_in in Hin. unfold expired in Hin.
        apply in_map_iff in Hin. destruct Hin as ([k' [t' d']] & Hfst & Hin).
        cbn in Hfst. subst k'. apply filter_In in Hin. destruct Hin as [Hin Hold].
        cbn [fst snd] in Hold. rewrite (in_dict_get _ _ _ Hnd Hin) in Hk.
        injection Hk as Ht Hd. rewrite Ht in Hold. congruence.
    - destruct (mem_string k expired); reflexivity. }
  split; [exact Hget|]. split; [|split; reflexivity].
  intros k t data Hk Hage.
  assert (Hkeep : dict_get k (_cache (pop_all expired m)) = Some (t, data)).
  { rewrite Hget, Hk.
    replace (_max_cache_age <? now - t) with false; [reflexivity|].
    symmetry. apply Z.ltb_ge. lia. }
  split; [exact Hkeep|].
  unfold _get_from_cache. rewrite Hkeep.
  replace (now - t <? _max_cache_age) with false; [reflexivity|].
  symmetry. apply Z.ltb_ge. lia.
Qed.

Lemma cleanup_removes_exactly_expired_witness :
  NoDup (dict_keys (_cache one_entry))
  /\ dict_get "latest_RELIANCE_100" (_cache (cleanup_cache one_entry 300000001)) = None
  /\ fst (_get_from_cache (cleanup_cache one_entry 300000000)
            "latest_RELIANCE_100" 300000000) = None.
Proof.
  assert (Hnd : NoDup (dict_keys (_cache one_entry))).
  { cbn. constructor; [intros []|constructor]. }
  split; [exact Hnd|].
  destruct (cleanup_removes_exactly_expired one_entry 300000001 Hnd) as (Hget & _).
  destruct (cleanup_removes_exactly_expired one_entry 300000000 Hnd) as (_ & Hedge & _).
  split.
  - rewrite Hget. reflexivity.
  - exact (proj2 (Hedge "latest_RELIANCE_100" 0 (frame [bar monday 10 0])
                    eq_refl eq_refl)).
Defined.

Lemma apply_op_counters (m m' : Manager) (op : CacheOp) :
  apply_op m op = Returned m' ->
  hits m' + misses m' = hits m + misses m + count_gets [op]
  /\ hits m <= hits m' /\ misses m <= misses m'.
Proof.
  destruct op as [key now|key data now1 now2|symbol|now|]; cbn [apply_op].
  - intros [= <-]. unfold _get_from_cache.
    destruct (dict_get key (_cache m)) as [[t d]|];
      [destruct (now - t <? _max_cache_age)|]; cbn; lia.
  - unfold _store_in_cache.
    destruct (500 <? len _); [destruct (dict_set key now2 _)|];
      try discriminate; intros [= <-]; cbn; lia.
  - intros [= <-]. unfold _invalidate_cache.
    destruct (pop_all_fields (filter (contains symbol) (dict_keys (_cache m))) m)
      as (_ & _ & Hh & Hm).
    rewrite Hh, Hm. cbn. lia.
  - intros [= <-]. unfold cleanup_cache.
    match goal with
    | |- context [pop_all ?ks m] =>
        destruct (pop_all_fields ks m) as (_ & _ & Hh & Hm)
    end.
    rewrite Hh, Hm. cbn. lia.
  - intros [= <-]. cbn. lia.
Qed.

(** Whatever operations run on the cache, in whatever order: every lookup
    is counted exactly once, as a hit or as a miss, and nothing else moves
    the two counters; they never decrease. *)
Theorem every_lookup_is_counted_once :
  forall (ops : list CacheOp) (m m' : Manager),
    run_ops m ops = Returned m' ->
    hits m' + misses m' = hits m + misses m + count_gets ops
    /\ hits m <= hits m' /\ misses m <= misses m'.
Proof.
  induction ops as [|op ops IH]; intros m m'; cbn [run_ops].
  - intros [= <-]. cbn. lia.
  - destruct (apply_op m op) as [m1|e] eqn:Hop; cbn [bind]; [|discriminate].
    intros Hrun. destruct (apply_op_counters m m1 op Hop) as (H1 & H2 & H3).
    destruct (IH m1 m' Hrun) as (H4 & H5 & H6).
    unfold count_gets, count, len in *. cbn [filter] in *.
    destruct op; cbn [List.length] in *; lia.
Qed.

Lemma every_lookup_is_counted_once_witness :
  run_ops initial_manager
    [OpGet "latest_INFY_5" 0;
     OpStore "latest_INFY_5" frame_without_columns 1 1;
     OpGet "latest_INFY_5" 2;
     OpInvalidate "INFY";
     OpGet "latest_INFY_5" 3]
  = Returned {| _cache := []; _cache_timestamps := []; hits := 1; misses := 2 |}
  /\ 1 + 2 = 0 + 0 + 3.
Proof.
  assert (H : run_ops initial_manager
                [OpGet "latest_INFY_5" 0;
                 OpStore "latest_INFY_5" frame_without_columns 1 1;
                 OpGet "latest_INFY_5" 2;
                 OpInvalidate "INFY";
                 OpGet "latest_INFY_5" 3]
              = Returned {| _cache := []; _cache_timestamps := [];
                            hits := 1; misses := 2 |}) by reflexivity.
  split; [exact H|].
  exact (proj1 (every_lookup_is_counted_once _ _ _ H)).
Defined.

(** In every state the cache can reach, the two dictionaries hold the same
    keys in the same order and no key twice. *)
Theorem cache_dictionaries_stay_aligned :
  forall (ops : list CacheOp) (m : Manager),
    run_ops initial_manager ops = Returned m ->
    dict_keys (_cache m) = dict_keys (_cache_timestamps m)
    /\ NoDup (dict_keys (_cache m)).
Proof.
  intros ops m Hrun.
  destruct (invariant_run_ops ops initial_manager invariant_initial) as (m0 & Hm0 & Hinv).
  rewrite Hrun in Hm0. injection Hm0 as <-.
  destruct Hinv as (Hk & Hnd & _). split; assumption.
Qed.

Lemma cache_dictionaries_stay_aligned_witness :
  run_ops initial_manager (fill_ops 3)
  = Returned {| _cache := [(key_of 0, (0, frame_without_columns));
                           (key_of 1, (1, frame_without_columns));
                           (key_of 2, (2, frame_without_columns))];
                _cache_timestamps := [(key_of 0, 0); (key_of 1, 1); (key_of 2, 2)];
                hits := 0; misses := 0 |}
  /\ NoDup [key_of 0; key_of 1; key_of 2].
Proof.
  assert (H : run_ops initial_manager (fill_ops 3)
              = Returned {| _cache := [(key_of 0, (0, frame_without_columns));
                                       (key_of 1, (1, frame_without_columns));
                                       (key_of 2, (2, frame_without_columns))];
                            _cache_timestamps :=
                              [(key_of 0, 0); (key_of 1, 1); (key_of 2, 2)];
                            hits := 0; misses := 0 |}) by reflexivity.
  split; [exact H|].
  exact (proj2 (cache_dictionaries_stay_aligned _ _ H)).
Defined.

(** ** The read-through cache: a put followed by a get *)

Lemma min_key_from_first (rest : list (string * Datetime)) :
  forall best,
    exists pre post,
      best :: rest = pre ++ min_key_from best rest :: post
      /\ forall x, In x pre -> snd (min_key_from best rest) < snd x.
Proof.
  induction rest as [|kv rest IH]; intros best; cbn [min_key_from].
  - exists [], []. split; [reflexivity|intros x []].
  - destruct (snd kv <? snd best) eqn:E.
    + apply Z.ltb_lt in E. destruct (IH kv) as (pre & post & Heq & Hpre).
      exists (best :: pre), post. split; [cbn; f_equal; exact Heq|].
      intros x [<-|Hx]; [|exact (Hpre x Hx)].
      pose proof (proj2 (min_key_from_spec rest kv) kv (or_introl eq_refl)). lia.
    + apply Z.ltb_ge in E. destruct (IH best) as (pre & post & Heq & Hpre).
      destruct pre as [|p pre].
      * cbn in Heq. injection Heq as Hb Hr.
        exists [], (kv :: rest). split; [cbn; rewrite <- Hb; reflexivity|intros x []].
      * cbn in Heq. injection Heq as Hb Hr. subst p.
        exists (best :: kv :: pre), post.
        split; [cbn; do 2 f_equal; exact Hr|].
        pose proof (Hpre best (or_introl eq_refl)) as Hbest.
        intros x [<-|[<-|Hx]]; [exact Hbest|lia|].
        apply Hpre. right. exact Hx.
Qed.

Lemma dict_set_absent {V : Type} (k : string) (v : V) (d : dict V) :
  dict_get k d = None -> dict_set k v d = d ++ [(k, v)].
Proof.
  induction d as [|[k' v'] d IH]; cbn; [reflexivity|].
  destruct (String.eqb k k'); [discriminate|]. intros H. rewrite (IH H). reflexivity.
Qed.

(** A put followed by a get, on a reachable cache. *)
Lemma store_then_get :
  forall (ops : list CacheOp) (m : Manager) (key : string) (data : DataFrame)
         (now1 now2 now : Datetime),
    run_ops initial_manager ops = Returned m ->
    (forall k t, dict_get k (_cache_timestamps m) = Some t -> t <= now2) ->
    now - now1 < _max_cache_age ->
    exists m',
      _store_in_cache m key data now1 now2 = Returned m'
      /\ fst (_get_from_cache m' key now) = Some data
      /\ hits (snd (_get_from_cache m' key now)) = hits m + 1
      /\ misses (snd (_get_from_cache m' key now)) = misses m.
Proof.
  intros ops m key data now1 now2 now Hrun Hclock Hage.
  destruct (invariant_run_ops ops initial_manager invariant_initial) as (m0 & Hm0 & Hinv).
  rewrite Hrun in Hm0. injection Hm0 as <-.
  destruct Hinv as (Hkeys & Hnd & Hlen).
  assert (Hhit : forall m',
             dict_get key (_cache m') = Some (now1, data) ->
             hits m' = hits m -> misses m' = misses m ->
             fst (_get_from_cache m' key now) = Some data
             /\ hits (snd (_get_from_cache m' key now)) = hits m + 1
             /\ misses (snd (_get_from_cache m' key now)) = misses m).
  { intros m' Hget Hh Hm. unfold _get_from_cache. rewrite Hget.
    apply Z.ltb_lt in Hage. rewrite Hage. cbn. rewrite Hh, Hm. repeat split. }
  unfold _store_in_cache.
  destruct (500 <? len (dict_set key (now1, data) (_cache m))) eqn:Hfull.
  - apply Z.ltb_lt in Hfull.
    assert (Habsent : dict_get key (_cache m) = None).
    { destruct (dict_get key (_cache m)) as [v|] eqn:E; [exfalso|reflexivity].
      rewrite dict_length_keys, dict_keys_set in Hfull. unfold len in Hfull.
      rewrite keys_set_length in Hfull.
      assert (Hmem : mem_string key (dict_keys (_cache m)) = true).
      { apply mem_string_in. change key with (fst (key, v)). apply in_map.
        apply dict_get_in. exact E. }
      rewrite Hmem in Hfull. rewrite dict_length_keys in Hlen. unfold len in Hlen. lia. }
    assert (Habsent' : dict_get key (_cache_timestamps m) = None).
    { apply dict_get_none_keys. rewrite <- Hkeys. apply dict_get_none_keys. exact Habsent. }
    rewrite (dict_set_absent key now2 _ Habsent').
    destruct (_cache_timestamps m ++ [(key, now2)]) as [|kv rest] eqn:Hstamps.
    { destruct (_cache_timestamps m); discriminate. }
    eexists. split; [reflexivity|]. apply Hhit; [|reflexivity|reflexivity].
    cbn [_cache]. rewrite dict_get_pop_ne; [apply dict_get_set_eq|].
    intros Hvictim.
    destruct (min_key_from_first rest kv) as (pre & post & Heq & Hpre).
    destruct (min_key_from_spec rest kv) as [Hin _].
    set (oldest := min_key_from kv rest) in *.
    rewrite <- Hstamps in Hin, Heq.
    assert (Holdest : oldest = (key, now2)).
    { apply in_app_or in Hin. destruct Hin as [Hin|[Hin|[]]]; [exfalso|symmetry; exact Hin].
      apply dict_get_none_keys in Habsent'. apply Habsent'.
      rewrite Hvictim. apply in_map. exact Hin. }
    rewrite Holdest in Heq, Hpre. cbn [snd] in Hpre.
    assert (Hpost : post = []).
    { destruct post as [|p post]; [reflexivity|exfalso].
      assert (Hin' : In (key, now2) (_cache_timestamps m)).
      { assert (Hlast : exists l x, (key, now2) :: p :: post = l ++ [x]
                                  /\ In (key, now2) (pre ++ l)).
        { destruct (exists_last (l := p :: post) ltac:(discriminate)) as (l & x & Hl).
          exists ((key, now2) :: l), x. rewrite Hl. split; [reflexivity|].
          apply in_or_app. right. left. reflexivity. }
        destruct Hlast as (l & x & Hl & Hinl).
        rewrite Hl, app_assoc in Heq. apply app_inj_tail in Heq.
        destruct Heq as [Heq _]. rewrite Heq. exact Hinl. }
      apply dict_get_none_keys in Habsent'. apply Habsent'.
      change key with (fst (key, now2)). apply in_map. exact Hin'. }
    subst post. apply app_inj_tail in Heq. destruct Heq as [Heq _].
    destruct (_cache_timestamps m) as [|[k0 t0] stamps] eqn:Hs.
    { rewrite dict_length_keys, dict_keys_set, Hkeys in Hfull. cbn in Hfull. lia. }
    assert (Hx : In (k0, t0) pre) by (rewrite <- Heq; left; reflexivity).
    specialize (Hpre _ Hx). cbn [snd] in Hpre.
    assert (Hle : t0 <= now2).
    { apply (Hclock k0). cbn. rewrite String.eqb_refl. reflexivity. }
    lia.
  - eexists. split; [reflexivity|]. apply Hhit; [|reflexivity|reflexivity].
    cbn [_cache]. apply dict_get_set_eq.
Qed.

(** In a state the cache can reach, when the clock is not behind the
    insertion times already recorded, a put followed by a get of the same
    key within the maximum age returns the snapshot just stored and counts
    one hit: the new entry is never the one evicted. *)
Theorem put_then_get_returns_snapshot :
  forall (ops : list CacheOp) (m : Manager) (key : string) (data : DataFrame)
         (now1 now2 now : Datetime),
    run_ops initial_manager ops = Returned m ->
    (forall k t, dict_get k (_cache_timestamps m) = Some t -> t <= now2) ->
    now - now1 < _max_cache_age ->
    exists m',
      _store_in_cache m key data now1 now2 = Returned m'
      /\ fst (_get_from_cache m' key now) = Some data
      /\ hits (snd (_get_from_cache m' key now)) = hits m + 1
      /\ misses (snd (_get_from_cache m' key now)) = misses m.
Proof.
  exact (store_then_get).
Qed.

Lemma put_then_get_returns_snapshot_witness :
  run_ops initial_manager (fill_ops 500) = Returned full_manager
  /\ 600 - 500 < _max_cache_age
  /\ exists m',
       _store_in_cache full_manager (key_of 500) (frame [bar monday 10 0]) 500 500
       = Returned m'
       /\ fst (_get_from_cache m' (key_of 500) 600) = Some (frame [bar monday 10 0]).
Proof.
  assert (Hrun : run_ops initial_manager (fill_ops 500) = Returned full_manager)
    by (vm_compute; reflexivity).
  assert (Hage : 600 - 500 < _max_cache_age) by (vm_compute; reflexivity).
  split; [exact Hrun|]. split; [exact Hage|].
  assert (Hclock : forall k t,
             dict_get k (_cache_timestamps full_manager) = Some t -> t <= 500).
  { assert (Hall : forallb (fun kv => snd kv <=? 500) (_cache_timestamps full_manager)
                   = true) by (vm_compute; reflexivity).
    intros k t Hget. apply dict_get_in in Hget.
    rewrite forallb_forall in Hall. specialize (Hall _ Hget).
    apply Z.leb_le in Hall. exact Hall. }
  destruct (put_then_get_returns_snapshot (fill_ops 500) full_manager (key_of 500)
              (frame [bar monday 10 0]) 500 500 600 Hrun Hclock Hage)
    as (m' & Hstore & Hget & _).
  exists m'. split; assumption.
Defined.

(** ** The quality check of the manager *)

(** [DataManager.validate_data_quality] raises exactly when validation is
    enabled and the batch is empty: the validator then returns three values
    where four are unpacked.  In every other case it returns the validator's
    four values unchanged. *)
Theorem manager_validation_raises_iff_empty :
  forall (India : list Z -> HolidayCalendar) (rules : ValidationRules)
         (config : Config) (data : DataFrame) (symbol : option string)
         (skip_logging : bool),
    let r := DataManager.validate_data_quality India rules config data symbol
               skip_logging in
    ((exists e, fst r = Raised e)
     <-> config_validation_enabled config = true /\ df_empty data = true)
    /\ (forall e, fst r = Raised e ->
                  e = ValueError "not enough values to unpack (expected 4, got 3)")
    /\ (forall report,
          fst r = Returned report ->
          report = fst (DataValidator.validate_data_quality India rules config data
                          symbol skip_logging)).
Proof.
  intros India rules config data symbol skip r. subst r.
  unfold DataManager.validate_data_quality, DataValidator.validate_data_quality.
  destruct (config_validation_enabled config); cbn [negb].
  - destruct (df_empty data).
    + cbn. split; [|split].
      * split; [intros _; split; reflexivity|intros _; eexists; reflexivity].
      * intros e [= <-]. reflexivity.
      * discriminate.
    + destruct (DataValidator.run_checks India rules data _) as [st|e0]; cbn.
      * split; [|split].
        -- split; [intros [e H]; discriminate|intros [_ H]; discriminate].
        -- discriminate.
        -- intros report [= <-]. reflexivity.
      * split; [|split].
        -- split; [intros [e H]; discriminate|intros [_ H]; discriminate].
        -- discriminate.
        -- intros report [= <-]. reflexivity.
  - cbn. split; [|split].
    + split; [intros [e H]; discriminate|intros [H _]; discriminate].
    + discriminate.
    + intros report [= <-]. reflexivity.
Qed.

Lemma manager_validation_raises_iff_empty_witness :
  (config_validation_enabled default_config = true /\ df_empty (frame []) = true)
  /\ exists e,
       fst (DataManager.validate_data_quality no_india default_validation_rules
              default_config (frame []) (Some "RELIANCE") true) = Raised e.
Proof.
  assert (H : config_validation_enabled default_config = true
              /\ df_empty (frame []) = true) by (split; reflexivity).
  split; [exact H|].
  exact (proj2 (proj1 (manager_validation_raises_iff_empty no_india
                         default_validation_rules default_config (frame [])
                         (Some "RELIANCE") true)) H).
Defined.

(** ** Batches *)

Lemma range_from_batches {A : Type} (rows : list A) (bs : Z) :
  0 < bs ->
  forall (fuel : nat) (start : Z),
    0 <= start ->
    (Z.to_nat (len rows - start) <= fuel)%nat ->
    let starts := range_from fuel start (len rows) bs in
    List.concat (map (fun s => slice rows s (Z.min (s + bs) (len rows))) starts)
    = skipn (Z.to_nat start) rows
    /\ Forall (fun s => 0 < len (slice rows s (Z.min (s + bs) (len rows))) <= bs
                        /\ start <= s < len rows) starts
    /\ len starts = (Z.max 0 (len rows - start) + bs - 1) / bs.
Proof.
  intros Hbs. induction fuel as [|fuel IH]; intros start Hstart Hfuel; cbn [range_from].
  - cbn. assert (Hge : len rows <= start) by lia.
    split; [|split].
    + symmetry. apply skipn_all2. unfold len in Hge. lia.
    + constructor.
    + symmetry. apply Z.div_small. lia.
  - destruct (start <? len rows) eqn:Hlt.
    + apply Z.ltb_lt in Hlt.
      destruct (IH (start + bs) ltac:(lia) ltac:(lia)) as (Hcat & Hall & Hlen).
      cbn [map List.concat]. cbv zeta in *.
      set (stop := Z.min (start + bs) (len rows)).
      assert (Hslice : slice rows start stop
                       = firstn (Z.to_nat (stop - start)) (skipn (Z.to_nat start) rows))
        by reflexivity.
      assert (Hlen_slice : len (slice rows start stop) = stop - start).
      { rewrite Hslice. unfold len. rewrite length_firstn, length_skipn.
        unfold len in *. subst stop. lia. }
      split; [|split].
      * rewrite Hcat, Hslice.
        destruct (Z.le_gt_cases (start + bs) (len rows)) as [Hle|Hgt].
        -- replace (Z.to_nat (start + bs))
             with (Z.to_nat (stop - start) + Z.to_nat start)%nat
             by (subst stop; lia).
           rewrite <- skipn_skipn. apply firstn_skipn.
        -- rewrite (skipn_all2 rows (n := Z.to_nat (start + bs)))
             by (unfold len in *; lia).
           rewrite app_nil_r. apply firstn_all2.
           rewrite length_skipn. unfold len in *. subst stop. lia.
      * constructor.
        -- cbv beta. fold stop. rewrite Hlen_slice. subst stop. lia.
        -- eapply Forall_impl; [|exact Hall]. cbv beta. intros s Hs. lia.
      * replace (len (start :: range_from fuel (start + bs) (len rows) bs))
          with (len (range_from fuel (start + bs) (len rows) bs) + 1)
          by (unfold len; cbn [List.length]; lia).
        rewrite Hlen.
        destruct (Z.le_gt_cases (start + bs) (len rows)) as [Hle|Hgt].
        -- rewrite !Z.max_r by lia.
           replace (len rows - start + bs - 1) with (len rows - (start + bs) + bs - 1 + 1 * bs)
             by lia.
           rewrite Z.div_add by lia. reflexivity.
        -- rewrite Z.max_l by lia. rewrite Z.max_r by lia.
           rewrite (Z.div_small (0 + bs - 1)) by lia.
           symmetry. replace (len rows - start + bs - 1)
             with ((len rows - start - 1) + 1 * bs) by lia.
           rewrite Z.div_add by lia. rewrite Z.div_small by lia. reflexivity.
    + apply Z.ltb_ge in Hlt. cbn. split; [|split].
      * symmetry. apply skipn_all2. unfold len in Hlt. lia.
      * constructor.
      * symmetry. apply Z.div_small. lia.
Qed.

(** With a positive batch size the batches of [store_ohlcv_data] cut the
    rows into consecutive pieces: put end to end they give back all the rows
    in order, none is empty or longer than the batch size, and there are
    [ceil(total_rows / batch_size)] of them. *)
Theorem batches_partition_the_rows :
  forall (data_copy : DataFrame) (batch_size : Z),
    0 < batch_size ->
    exists starts,
      range0 (df_len data_copy) batch_size = Returned starts
      /\ List.concat (map (batch_rows data_copy batch_size) starts) = df_rows data_copy
      /\ Forall (fun s => 0 < len (batch_rows data_copy batch_size s) <= batch_size)
                starts
      /\ len starts = (df_len data_copy + batch_size - 1) / batch_size.
Proof.
  intros data_copy bs Hbs. unfold range0.
  replace (bs =? 0) with false by (symmetry; apply Z.eqb_neq; lia).
  replace (bs <? 0) with false by (symmetry; apply Z.ltb_ge; lia).
  eexists. split; [reflexivity|].
  destruct (range_from_batches (df_rows data_copy) bs Hbs
              (Z.to_nat (df_len data_copy)) 0 ltac:(lia)
              ltac:(unfold df_len; lia)) as (Hcat & Hall & Hlen).
  unfold batch_rows, df_len in *. split; [exact Hcat|]. split.
  - eapply Forall_impl; [|exact Hall]. cbv beta. intros s Hs. tauto.
  - rewrite Hlen. f_equal. unfold len. lia.
Qed.

Lemma batches_partition_the_rows_witness :
  0 < 2
  /\ exists starts,
       range0 (df_len hole_inside) 2 = Returned starts
       /\ len starts = 3
       /\ List.concat (map (batch_rows hole_inside 2) starts) = df_rows hole_inside.
Proof.
  split; [lia|].
  destruct (batches_partition_the_rows hole_inside 2 ltac:(lia))
    as (starts & Hstarts & Hcat & _ & Hlen).
  exists starts. split; [exact Hstarts|]. split; [exact Hlen|exact Hcat].
Defined.

Section PersistenceMore.

Variable India : list Z -> HolidayCalendar.
Variable rules : ValidationRules.
Variable config : Config.
Variable constituents : string -> option string.
Variable Database : Type.
Variable execute : Database -> list StoredRow -> Database * bool.

Lemma store_batches_manager (m : Manager) (db : Database) (data_copy : DataFrame)
    (symbol data_source : string) (quality_score : Q) (events : list Event) :
  let r := store_batches config constituents Database execute m db data_copy symbol
             data_source quality_score events in
  (returned Database r = Returned true
   /\ manager_after Database r = _invalidate_cache m symbol)
  \/ (returned Database r <> Returned true /\ manager_after Database r = m).
Proof.
  unfold store_batches.
  destruct (bind (range0 _ _) _) as [[[[ok failed] db'] events']|e].
  - destruct (0 <? ok); cbn; [left; split; reflexivity|right; split; [discriminate|reflexivity]].
  - cbn. right. split; [discriminate|reflexivity].
Qed.

Lemma store_manager_cases (m : Manager) (db : Database) (data : DataFrame)
    (symbol data_source : string) (skip_validation : bool) :
  let r := store_ohlcv_data India rules config constituents Database execute
             m db data symbol data_source skip_validation in
  df_empty data = false ->
  (returned Database r = Returned true
   /\ manager_after Database r = _invalidate_cache m symbol)
  \/ (returned Database r <> Returned true /\ manager_after Database r = m).
Proof.
  intros r Hne. subst r. unfold store_ohlcv_data. rewrite Hne.
  destruct (read_columns _ ["timestamp"]);
    [|right; split; [discriminate|reflexivity]].
  destruct (negb skip_validation); [|apply store_batches_manager].
  destruct (DataManager.validate_data_quality India rules config _ _ _) as [[report|e] events];
    [|right; split; [discriminate|reflexivity]].
  destruct (unpack3 report) as [[[v i] q]|e];
    [|right; split; [discriminate|reflexivity]].
  destruct (negb v); [right; split; [discriminate|reflexivity]|].
  apply store_batches_manager.
Qed.

(** What [store_ohlcv_data] does to the cache. *)
Lemma store_cache_effect :
  forall (m : Manager) (db : Database) (data : DataFrame)
         (symbol data_source : string) (skip_validation : bool),
    let r := store_ohlcv_data India rules config constituents Database execute
               m db data symbol data_source skip_validation in
    df_empty data = false ->
    (returned Database r = Returned true ->
     forall k,
       dict_get k (_cache (manager_after Database r))
       = if contains symbol k then None else dict_get k (_cache m))
    /\ (returned Database r <> Returned true -> manager_after Database r = m)
    /\ hits (manager_after Database r) = hits m
    /\ misses (manager_after Database r) = misses m.
Proof.
  intros m db data symbol data_source skip r Hne.
  destruct (store_manager_cases m db data symbol data_source skip Hne)
    as [[Hret Hm]|[Hret Hm]]; fold r in Hret, Hm.
  - destruct (invalidate_cache_spec m symbol) as (Hget & Hh & Hmi & _).
    rewrite Hm. split; [intros _; exact Hget|]. split; [congruence|].
    split; assumption.
  - rewrite Hm. split; [intros H; contradiction|]. repeat split.
Qed.

(** A call of [store_ohlcv_data] on a batch that is not empty changes the
    cache in one case only: when it returns [True], and then it drops exactly
    the entries whose key contains the symbol.  When it returns [False] or
    raises, the cache is as it was.  The hit and miss counters never move. *)
Theorem store_touches_cache_only_on_success :
  forall (m : Manager) (db : Database) (data : DataFrame)
         (symbol data_source : string) (skip_validation : bool),
    let r := store_ohlcv_data India rules config constituents Database execute
               m db data symbol data_source skip_validation in
    df_empty data = false ->
    (returned Database r = Returned true ->
     forall k,
       dict_get k (_cache (manager_after Database r))
       = if contains symbol k then None else dict_get k (_cache m))
    /\ (returned Database r <> Returned true -> manager_after Database r = m)
    /\ hits (manager_after Database r) = hits m
    /\ misses (manager_after Database r) = misses m.
Proof.
  exact (store_cache_effect).
Qed.

(** What one batch and the whole call do on a backend whose attempts all
    end the same way, [committed]. *)
Lemma retry_loop_uniform (committed : bool) :
  (forall db rows, snd (execute db rows) = committed) ->
  forall db rows start_idx end_idx,
    exists db',
      retry_loop Database execute 3 [0; 1; 2] db rows start_idx end_idx
      = (if committed then 1 else 0, if committed then 0 else 1, db',
         if committed
         then [EvExecute (len rows) true; EvBatchStored start_idx (end_idx - 1)]
         else [EvExecute (len rows) false; EvBatchRetry start_idx (end_idx - 1) 1;
               EvSleep 1;
               EvExecute (len rows) false; EvBatchRetry start_idx (end_idx - 1) 2;
               EvSleep 2;
               EvExecute (len rows) false; EvBatchFailed start_idx (end_idx - 1)]).
Proof.
  intros Hexec db rows s e. cbn [retry_loop].
  pose proof (Hexec db rows) as H1.
  destruct (execute db rows) as [db1 c1]. cbn in H1. subst c1.
  destruct committed; [eexists; reflexivity|].
  cbn [Z.ltb Z.sub Z.compare Z.add Z.opp Z.pos_sub Pos.compare Pos.compare_cont
       Z.succ_double Z.pred_double Z.double Pos.pred_double].
  pose proof (Hexec db1 rows) as H2.
  destruct (execute db1 rows) as [db2 c2]. cbn in H2. subst c2.
  pose proof (Hexec db2 rows) as H3.
  destruct (execute db2 rows) as [db3 c3]. cbn in H3. subst c3.
  eexists. reflexivity.
Qed.

Lemma count_app {A : Type} (p : A -> bool) (a b : list A) :
  count p (a ++ b) = count p a + count p b.
Proof. unfold count, len. rewrite filter_app, length_app. lia. Qed.

Lemma sleeps_app (a b : list Event) : sleeps (a ++ b) = sleeps a ++ sleeps b.
Proof.
  induction a as [|x a IH]; [reflexivity|].
  destruct x; cbn; rewrite ?IH; reflexivity.
Qed.

Lemma batch_loop_uniform (committed : bool) (data_copy : DataFrame)
    (symbol data_source : string) (quality_score : Q) (bs : Z) :
  (forall db rows, snd (execute db rows) = committed) ->
  forall starts ok failed db events ok' failed' db' events',
    batch_loop constituents Database execute data_copy symbol data_source
      quality_score bs starts (ok, failed, db, events)
    = Returned (ok', failed', db', events') ->
    ok' = ok + (if committed then len starts else 0)
    /\ failed' = failed + (if committed then 0 else len starts)
    /\ count is_execute events'
       = count is_execute events + (if committed then 1 else 3) * len starts
    /\ sleeps events'
       = sleeps events
         ++ (if committed then [] else List.concat (map (fun _ => [1; 2]) starts)).
Proof.
  intros Hexec. induction starts as [|start rest IH];
    intros ok failed db events ok' failed' db' events'.
  - cbn. intros [= <- <- <- <-]. destruct committed; rewrite ?app_nil_r; repeat split; lia.
  - cbn [batch_loop]. unfold store_batch at 1.
    destruct (match slice (df_rows data_copy) start _ with
              | [] => Returned tt
              | _ :: _ => read_columns data_copy row_columns
              end); cbn [bind]; [|discriminate].
    match goal with
    | |- context [retry_loop Database execute 3 [0; 1; 2] db ?rows start ?e] =>
        destruct (retry_loop_uniform committed Hexec db rows start e) as [db1 Hretry];
        rewrite Hretry
    end.
    intros Hloop. destruct (IH _ _ _ _ _ _ _ _ Hloop) as (Hok & Hfail & Hex & Hsl).
    assert (Hlen : len (start :: rest) = len rest + 1)
      by (unfold len; cbn [List.length]; lia).
    rewrite Hok, Hfail, Hex, Hsl, Hlen, sleeps_app, count_app.
    destruct committed; cbn [sleeps map List.concat app];
      repeat match goal with
             | |- context [count is_execute (?x :: ?l)] =>
                 let v := eval cbv in (count is_execute (x :: l)) in
                 change (count is_execute (x :: l)) with v
             end;
      rewrite <- ?app_assoc; cbn [app]; repeat split; lia.
Qed.

(** On a backend where every attempt fails, a call of [store_ohlcv_data]
    that skips validation returns [False] after exactly three attempts per
    batch, sleeping 1 s and then 2 s for each batch, counts every batch as
    failed and leaves the cache as it was.  On a backend where every attempt
    commits it makes exactly one attempt per batch, never sleeps, and counts
    every batch as stored. *)
Theorem store_on_uniform_backend :
  forall (committed : bool) (m : Manager) (db : Database) (data : DataFrame)
         (symbol data_source : string) (flag : bool),
    let r := store_ohlcv_data India rules config constituents Database execute
               m db data symbol data_source true in
    (forall db rows, snd (execute db rows) = committed) ->
    df_empty data = false ->
    returned Database r = Returned flag ->
    exists starts,
      range0 (df_len data) (config_batch_size config) = Returned starts
      /\ successful_batches Database r = (if committed then len starts else 0)
      /\ failed_batches Database r = (if committed then 0 else len starts)
      /\ count is_execute (effects Database r)
         = (if committed then 1 else 3) * len starts
      /\ sleeps (effects Database r)
         = (if committed then [] else List.concat (map (fun _ => [1; 2]) starts))
      /\ (committed = false -> flag = false /\ manager_after Database r = m).
Proof.
  intros committed m db data symbol data_source flag r Hexec Hne Hret. subst r.
  unfold store_ohlcv_data in *. rewrite Hne in *.
  destruct (read_columns (data_copy_of constituents data symbol) ["timestamp"]);
    [|discriminate Hret].
  cbn [negb] in *. unfold store_batches in *.
  change (df_len (data_copy_of constituents data symbol)) with (df_len data) in *.
  destruct (range0 (df_len data) (config_batch_size config)) as [starts|e];
    cbn [bind] in *; [|discriminate Hret].
  destruct (batch_loop _ _ _ _ _ _ _ _ starts _) as [[[[ok failed] db'] events']|e]
    eqn:Hloop; [|discriminate Hret].
  destruct (batch_loop_uniform committed _ _ _ _ _ Hexec _ _ _ _ _ _ _ _ _ Hloop)
    as (Hok & Hfail & Hex & Hsl).
  cbn in Hex, Hsl.
  assert (Hstarts : 0 <= len starts) by (unfold len; lia).
  exists starts. split; [reflexivity|].
  destruct (0 <? ok) eqn:Hpos;
    cbn [returned successful_batches failed_batches effects manager_after] in *;
    injection Hret as <-; rewrite sleeps_app, count_app.
  - assert (Htail : sleeps ([EvInvalidateCache symbol]
                            ++ (if 0 <? failed then [EvPartialSuccess ok failed] else []))
                    = []
                    /\ count is_execute
                         ([EvInvalidateCache symbol]
                          ++ (if 0 <? failed then [EvPartialSuccess ok failed] else []))
                       = 0)
      by (destruct (0 <? failed); split; reflexivity).
    destruct Htail as [Ht1 Ht2]. rewrite Ht1, Ht2, app_nil_r.
    split; [lia|]. split; [lia|]. split; [lia|].
    split; [exact Hsl|].
    intros ->. apply Z.ltb_lt in Hpos. lia.
  - change (sleeps [EvAllBatchesFailed]) with (@nil Z).
    change (count is_execute [EvAllBatchesFailed]) with 0.
    rewrite app_nil_r.
    split; [lia|]. split; [lia|]. split; [lia|].
    split; [exact Hsl|].
    intros _. split; reflexivity.
Qed.

End PersistenceMore.

Lemma store_touches_cache_only_on_success_witness :
  df_empty two_bars = false
  /\ returned unit
       (store_ohlcv_data no_india default_validation_rules default_config
          no_constituents unit always_commits one_entry tt two_bars
          "RELIANCE" "zerodha_kite" true) = Returned true
  /\ dict_get "latest_RELIANCE_100"
       (_cache (manager_after unit
                  (store_ohlcv_data no_india default_validation_rules default_config
                     no_constituents unit always_commits one_entry tt two_bars
                     "RELIANCE" "zerodha_kite" true))) = None.
Proof.
  split; [reflexivity|]. split; [reflexivity|].
  exact (proj1 (store_touches_cache_only_on_success no_india default_validation_rules
                  default_config no_constituents unit always_commits one_entry tt
                  two_bars "RELIANCE" "zerodha_kite" true eq_refl)
           eq_refl "latest_RELIANCE_100").
Defined.

Lemma store_on_uniform_backend_witness :
  (forall db rows, snd (never_commits db rows) = false)
  /\ df_empty two_bars = false
  /\ returned unit
       (store_ohlcv_data no_india default_validation_rules batches_of_one
          no_constituents unit never_commits one_entry tt two_bars
          "RELIANCE" "zerodha_kite" true) = Returned false
  /\ sleeps (effects unit
               (store_ohlcv_data no_india default_validation_rules batches_of_one
                  no_constituents unit never_commits one_entry tt two_bars
                  "RELIANCE" "zerodha_kite" true)) = [1; 2; 1; 2].
Proof.
  assert (H : forall db rows, snd (never_commits db rows) = false)
    by (intros; reflexivity).
  split; [exact H|]. split; [reflexivity|]. split; [reflexivity|].
  destruct (store_on_uniform_backend no_india default_validation_rules batches_of_one
              no_constituents unit never_commits false one_entry tt two_bars
              "RELIANCE" "zerodha_kite" false H eq_refl eq_refl)
    as (starts & Hstarts & _ & _ & _ & Hsl & _).
  injection Hstarts as <-. exact Hsl.
Defined.

Section MissingColumns.

Variable India : list Z -> HolidayCalendar.
Variable rules : ValidationRules.
Variable config : Config.
Variable constituents : string -> option string.
Variable Database : Type.
Variable execute : Database -> list StoredRow -> Database * bool.

Lemma data_copy_has_column (data : DataFrame) (symbol col : string) :
  has_column (data_copy_of constituents data symbol) col
  = has_column data col
    || mem_string col (["symbol"; "data_source"]
                       ++ match constituents symbol with
                          | Some _ => ["sector"]
                          | None => []
                          end).
Proof.
  unfold has_column, data_copy_of, mem_string. cbn [df_columns].
  apply existsb_app.
Qed.

(** [store_ohlcv_data] writes nothing when a column it reads is absent from
    a batch that is not empty.  Without a timestamp column it raises
    [KeyError('timestamp')] at once, with or without validation.  With
    validation skipped, a positive batch size and one of the columns open,
    high, low, close, volume absent, it raises [KeyError] for an absent
    column while converting the first batch, before any attempt on the
    backend; the cache is untouched. *)
Theorem store_with_missing_column_writes_nothing :
  forall (m : Manager) (db : Database) (data : DataFrame) (symbol data_source : string),
    df_empty data = false ->
    (has_column data "timestamp" = false ->
     forall skip_validation,
       let r := store_ohlcv_data India rules config constituents Database execute
                  m db data symbol data_source skip_validation in
       returned Database r = Raised (KeyError "timestamp")
       /\ effects Database r = []
       /\ database_after Database r = db
       /\ manager_after Database r = m)
    /\ (has_column data "timestamp" = true ->
        0 < config_batch_size config ->
        forall col,
          In col ["open"; "high"; "low"; "close"; "volume"] ->
          has_column data col = false ->
          let r := store_ohlcv_data India rules config constituents Database execute
                     m db data symbol data_source true in
          exists absent,
            returned Database r = Raised (KeyError absent)
            /\ In absent ["open"; "high"; "low"; "close"; "volume"]
            /\ has_column data absent = false
            /\ effects Database r = []
            /\ database_after Database r = db
            /\ manager_after Database r = m).
Proof.
  intros m db data symbol data_source Hne. split.
  - intros Hts skip r. subst r. unfold store_ohlcv_data. rewrite Hne.
    cbn [read_columns]. rewrite data_copy_has_column, Hts.
    destruct (constituents symbol); cbn; repeat split.
  - intros Hts Hbs col Hcol Habsent r. subst r.
    unfold store_ohlcv_data. rewrite Hne.
    cbn [read_columns]. rewrite data_copy_has_column, Hts. cbn [orb negb].
    unfold store_batches.
    change (df_len (data_copy_of constituents data symbol)) with (df_len data).
    assert (Hrows : exists r rs, df_rows data = r :: rs).
    { unfold df_empty in Hne. destruct (df_rows data) as [|r rs]; [discriminate|].
      exists r, rs. reflexivity. }
    destruct Hrows as (r0 & rs & Hrows).
    assert (Hlen : 0 < df_len data).
    { unfold df_len, len. rewrite Hrows. cbn [List.length]. lia. }
    unfold range0.
    replace (config_batch_size config =? 0) with false
      by (symmetry; apply Z.eqb_neq; lia).
    replace (config_batch_size config <? 0) with false
      by (symmetry; apply Z.ltb_ge; lia).
    destruct (Z.to_nat (df_len data)) as [|fuel] eqn:Hfuel; [lia|].
    cbn [range_from].
    replace (0 <? df_len data) with true by (symmetry; apply Z.ltb_lt; exact Hlen).
    cbn [bind batch_loop]. unfold store_batch.
    change (df_len (data_copy_of constituents data symbol)) with (df_len data).
    change (df_rows (data_copy_of constituents data symbol)) with (df_rows data).
    assert (Hslice : exists x xs,
               slice (df_rows data) 0 (Z.min (0 + config_batch_size config) (df_len data))
               = x :: xs).
    { unfold slice. rewrite Hrows. cbn [Z.to_nat skipn].
      destruct (Z.to_nat (Z.min (0 + config_batch_size config) (df_len data) - 0))
        as [|n] eqn:Hn; [lia|].
      cbn [firstn]. eexists. eexists. reflexivity. }
    destruct Hslice as (x & xs & Hslice). rewrite Hslice.
    assert (Hread : exists absent,
               read_columns (data_copy_of constituents data symbol) row_columns
               = Raised (KeyError absent)
               /\ In absent ["open"; "high"; "low"; "close"; "volume"]
               /\ has_column data absent = false).
    { unfold row_columns. cbn [read_columns].
      rewrite !data_copy_has_column, Hts. cbn [orb].
      replace (mem_string "symbol" _) with true
        by (destruct (constituents symbol); reflexivity).
      rewrite orb_true_r.
      assert (Hextra : forall c, In c ["open"; "high"; "low"; "close"; "volume"] ->
                 mem_string c (["symbol"; "data_source"]
                               ++ match constituents symbol with
                                  | Some _ => ["sector"]
                                  | None => []
                                  end) = false).
      { intros c Hc. cbn in Hc.
        destruct Hc as [<-|[<-|[<-|[<-|[<-|[]]]]]];
          destruct (constituents symbol); reflexivity. }
      rewrite !Hextra by (cbn; tauto). rewrite !orb_false_r.
      destruct (has_column data "open") eqn:Ho;
        [|exists "open"; cbn; tauto].
      destruct (has_column data "high") eqn:Hh;
        [|exists "high"; cbn; tauto].
      destruct (has_column data "low") eqn:Hl;
        [|exists "low"; cbn; tauto].
      destruct (has_column data "close") eqn:Hc;
        [|exists "close"; cbn; tauto].
      destruct (has_column data "volume") eqn:Hv;
        [|exists "volume"; cbn; tauto].
      exfalso. cbn in Hcol.
      destruct Hcol as [<-|[<-|[<-|[<-|[<-|[]]]]]]; congruence. }
    destruct Hread as (absent & Hread & Hin & Hmiss).
    rewrite Hread. cbn. exists absent. repeat split; assumption.
Qed.

End MissingColumns.

Lemma store_with_missing_column_writes_nothing_witness :
  df_empty {| df_columns := ["timestamp"; "open"; "close"];
              df_rows := [(0, bar monday 10 0)] |} = false
  /\ exists absent,
       returned unit
         (store_ohlcv_data no_india default_validation_rules default_config
            no_constituents unit always_commits one_entry tt
            {| df_columns := ["timestamp"; "open"; "close"];
               df_rows := [(0, bar monday 10 0)] |}
            "RELIANCE" "zerodha_kite" true) = Raised (KeyError absent).
Proof.
  split; [reflexivity|].
  destruct (proj2 (store_with_missing_column_writes_nothing no_india
                     default_validation_rules default_config no_constituents unit
                     always_commits one_entry tt
                     {| df_columns := ["timestamp"; "open"; "close"];
                        df_rows := [(0, bar monday 10 0)] |}
                     "RELIANCE" "zerodha_kite" eq_refl)
              eq_refl eq_refl "volume" ltac:(cbn; tauto) eq_refl)
    as (absent & Hret & _).
  exists absent. exact Hret.
Defined.

(** ** The score lies between 0 and 1 *)



Lemma len_nonneg {A : Type} (xs : list A) : 0 <= len xs.
Proof. unfold len. lia. Qed.

Lemma count_nonneg {A : Type} (p : A -> bool) (xs : list A) : 0 <= count p xs.
Proof. apply len_nonneg. Qed.







Section ScoreBounds.

Import DataValidator.

Variable India : list Z -> HolidayCalendar.
Variable rules : ValidationRules.














Lemma duplicated_count_nonneg (s : list (Z * option Timestamp)) :
  forall seen, 0 <= duplicated_count seen s.
Proof.
  induction s as [|[lbl t] s IH]; intros seen; cbn [duplicated_count]; [lia|].
  specialize (IH (t :: seen)). destruct (existsb _ seen); lia.
Qed.




End ScoreBounds.


(** ** Clean rows, and missing columns *)

Lemma Qlt_bool_false (x y : Q) : Qlt_bool x y = false <-> (y <= x)%Q.
Proof.
  unfold Qlt_bool. rewrite negb_false_iff. apply Qle_bool_iff.
Qed.

Lemma count_none {A : Type} (p : A -> bool) (xs : list A) :
  (forall x, In x xs -> p x = false) -> count p xs = 0.
Proof. intros H. unfold count. rewrite (filter_none p xs H). reflexivity. Qed.

Lemma read_columns_present (data : DataFrame) (cols : list string) :
  (forall c, In c cols -> has_column data c = true) ->
  read_columns data cols = Returned tt.
Proof.
  induction cols as [|c cols IH]; intros H; cbn [read_columns]; [reflexivity|].
  rewrite (H c (or_introl eq_refl)). apply IH. intros c' Hc'. apply H. right. exact Hc'.
Qed.

Lemma read_columns_raised (data : DataFrame) (cols : list string) (e : Exn) :
  read_columns data cols = Raised e ->
  exists c, e = KeyError c /\ In c cols /\ has_column data c = false.
Proof.
  induction cols as [|c cols IH]; cbn [read_columns]; [discriminate|].
  destruct (has_column data c) eqn:E.
  - intros H. destruct (IH H) as (c' & He & Hin & Hc'). exists c'. cbn. tauto.
  - intros [= <-]. exists c. cbn. tauto.
Qed.

Lemma read_columns_absent (data : DataFrame) (cols : list string) (c : string) :
  In c cols -> has_column data c = false ->
  exists c', read_columns data cols = Raised (KeyError c')
             /\ In c' cols /\ has_column data c' = false.
Proof.
  intros Hin Habsent. destruct (read_columns data cols) as [[]|e] eqn:E.
  - exfalso. revert E. clear -Hin Habsent.
    induction cols as [|c0 cols IH]; cbn [read_columns]; [destruct Hin|].
    destruct (has_column data c0) eqn:E0; [|discriminate].
    destruct Hin as [->|Hin]; [congruence|]. apply IH. exact Hin.
  - destruct (read_columns_raised data cols e E) as (c' & -> & H1 & H2).
    exists c'. tauto.
Qed.

Section CleanRows.

Import DataValidator.

Variable India : list Z -> HolidayCalendar.
Variable rules : ValidationRules.

(** On a batch that has the price and volume columns, the three row-wise
    checks give the subscore 1.0 and raise no issue when no row offends:
    the OHLC check when every bar is OHLC-consistent, the price check when
    every price lies in the configured band, the volume check when no volume
    is below the configured minimum. *)
Theorem clean_rows_score_one :
  forall (data : DataFrame) (st : VState),
    (forall c, In c ["open"; "high"; "low"; "close"; "volume"] ->
               has_column data c = true) ->
    (ohlc_logic rules = true ->
     (forall lr, In lr (df_rows data) -> ohlc_consistent (snd lr)) ->
     ohlc_check rules data st = Returned (add_score 1%Q st))
    /\ ((forall lr, In lr (df_rows data) ->
           forall price, In price [r_open; r_high; r_low; r_close] ->
             (price_range_min rules <= price (snd lr) <= price_range_max rules)%Q) ->
        price_check rules data st = Returned (add_score 1%Q st))
    /\ ((forall lr, In lr (df_rows data) -> volume_min rules <= r_volume (snd lr)) ->
        volume_check rules data st = Returned (add_score 1%Q st)).
Proof.
  intros data st Hcols. split; [|split].
  - intros Hon Hrows. unfold ohlc_check. rewrite Hon.
    rewrite read_columns_present by (intros c Hc; apply Hcols; cbn in *; tauto).
    cbn [bind]. rewrite !count_none.
    + reflexivity.
    + intros lr Hlr. destruct (Hrows lr Hlr) as (H1 & H2 & H3 & H4 & H5).
      cbv zeta. rewrite !orb_false_iff. repeat split; apply Qlt_bool_false; assumption.
    + intros lr Hlr. destruct (Hrows lr Hlr) as (H1 & H2 & H3 & H4 & H5).
      cbv zeta. rewrite !orb_false_iff. repeat split; apply Qlt_bool_false; assumption.
  - intros Hrows. unfold price_check, price_cols. cbn [price_loop].
    repeat (unfold price_col_check at 1;
            rewrite read_columns_present
              by (intros c Hc; apply Hcols; cbn in *; intuition (subst; tauto));
            cbn [bind fst snd];
            rewrite count_none
              by (intros lr Hlr; rewrite orb_false_iff;
                  split; apply Qlt_bool_false; apply (Hrows lr Hlr); cbn; tauto);
            cbn [Z.ltb Z.compare bind]).
    reflexivity.
  - intros Hrows. unfold volume_check.
    rewrite read_columns_present by (intros c Hc; apply Hcols; cbn in *; tauto).
    cbn [bind]. rewrite count_none; [reflexivity|].
    intros lr Hlr. apply Z.ltb_ge. exact (Hrows lr Hlr).
Qed.

Lemma ohlc_check_raised (data : DataFrame) (st : VState) (e : Exn) :
  ohlc_check rules data st = Raised e ->
  exists c, e = KeyError c /\ In c ["open"; "high"; "low"; "close"; "volume"]
            /\ has_column data c = false.
Proof.
  unfold ohlc_check. destruct (ohlc_logic rules); [|discriminate].
  destruct (read_columns data _) as [|e0] eqn:E; cbn [bind]; [discriminate|].
  intros [= <-]. destruct (read_columns_raised _ _ _ E) as (c & -> & Hin & Hc).
  exists c. cbn in *. intuition (subst; tauto).
Qed.

Lemma price_loop_raised (data : DataFrame) (cols : list (string * (Row -> Q))) :
  forall acc e,
    price_loop rules data cols acc = Raised e ->
    exists c, e = KeyError c /\ In c (map fst cols) /\ has_column data c = false.
Proof.
  induction cols as [|col cols IH]; intros acc e; cbn [price_loop]; [discriminate|].
  unfold price_col_check at 1.
  destruct (read_columns data _) as [|e0] eqn:E; cbn [bind].
  - destruct (0 <? count _ _); cbn [bind]; intros H;
      destruct (IH _ _ H) as (c & He & Hin & Hc); exists c; cbn; tauto.
  - intros [= <-]. destruct (read_columns_raised _ _ _ E) as (c & -> & Hin & Hc).
    exists c. cbn in *. intuition (subst; tauto).
Qed.

Lemma price_loop_absent (data : DataFrame) (cols : list (string * (Row -> Q))) :
  forall acc c,
    In c (map fst cols) -> has_column data c = false ->
    exists e, price_loop rules data cols acc = Raised e.
Proof.
  induction cols as [|col cols IH]; intros acc c Hin Habsent; cbn [price_loop];
    [destruct Hin|].
  unfold price_col_check at 1. cbn [read_columns].
  destruct (has_column data (fst col)) eqn:E; cbn [bind].
  - destruct Hin as [Heq|Hin]; [cbn in Heq; congruence|].
    destruct (0 <? count _ _); cbn [bind]; eapply IH; eassumption.
  - eexists. reflexivity.
Qed.

(** When validation is enabled and a batch that is not empty lacks one of
    the columns open, high, low, close, volume, the validator does not raise:
    it returns the verdict false with the single issue "Validation failed"
    naming an absent column, the score 0 and empty details, and logs the
    error. *)
Theorem missing_price_column_fails_validation :
  forall (config : Config) (data : DataFrame) (symbol : option string)
         (skip_logging : bool) (col : string),
    config_validation_enabled config = true ->
    df_empty data = false ->
    In col ["open"; "high"; "low"; "close"; "volume"] ->
    has_column data col = false ->
    exists absent,
      In absent ["open"; "high"; "low"; "close"; "volume"]
      /\ has_column data absent = false
      /\ validate_data_quality India rules config data symbol skip_logging
         = (Tuple4 false [ValidationFailed (KeyError absent)] 0%Q EmptyDict,
            [EvLoggerError (KeyError absent)]).
Proof.
  intros config data symbol skip col Hon Hne Hcol Habsent.
  assert (Hraise : exists absent,
             In absent ["open"; "high"; "low"; "close"; "volume"]
             /\ has_column data absent = false
             /\ run_checks India rules data (structure_check data initial_vstate)
                = Raised (KeyError absent)).
  { unfold run_checks.
    destruct (ohlc_check rules data _) as [st1|e] eqn:H1; cbn [bind].
    2:{ destruct (ohlc_check_raised _ _ _ H1) as (c & -> & Hin & Hc). exists c. tauto. }
    destruct (price_check rules data st1) as [st2|e] eqn:H2; cbn [bind].
    2:{ unfold price_check in H2.
        destruct (price_loop rules data price_cols (st1, 1%Q)) as [acc|e0] eqn:E;
          cbn [bind] in H2; [discriminate|].
        injection H2 as <-.
        destruct (price_loop_raised _ _ _ _ E) as (c & -> & Hin & Hc).
        exists c. cbn in Hin. cbn. tauto. }
    assert (Hvol : col = "volume").
    { destruct (string_dec col "volume") as [|Hne']; [assumption|exfalso].
      assert (Hin : In col (map fst price_cols)) by (cbn in *; intuition congruence).
      destruct (price_loop_absent data price_cols (st1, 1%Q) col Hin Habsent) as [e He].
      unfold price_check in H2. rewrite He in H2. discriminate. }
    subst col. unfold volume_check. cbn [read_columns]. rewrite Habsent. cbn [bind].
    exists "volume". cbn. tauto. }
  destruct Hraise as (absent & Hin & Hc & Hrun).
  exists absent. split; [exact Hin|]. split; [exact Hc|].
  unfold validate_data_quality. rewrite Hon, Hne. cbn [negb]. rewrite Hrun. reflexivity.
Qed.

End CleanRows.

Lemma clean_rows_score_one_witness :
  (forall c, In c ["open"; "high"; "low"; "close"; "volume"] ->
             has_column two_bars c = true)
  /\ DataValidator.volume_check default_validation_rules two_bars initial_vstate
     = Returned (add_score 1%Q initial_vstate).
Proof.
  assert (Hcols : forall c, In c ["open"; "high"; "low"; "close"; "volume"] ->
                            has_column two_bars c = true).
  { intros c Hc. cbn in Hc. destruct Hc as [<-|[<-|[<-|[<-|[<-|[]]]]]]; reflexivity. }
  split; [exact Hcols|].
  apply (proj2 (proj2 (clean_rows_score_one default_validation_rules two_bars
                         initial_vstate Hcols))).
  intros lr Hlr. cbn in Hlr. destruct Hlr as [<-|[<-|[]]]; cbn; lia.
Defined.

Lemma missing_price_column_fails_validation_witness :
  config_validation_enabled default_config = true
  /\ df_empty {| df_columns := ["timestamp"; "open"; "close"];
                 df_rows := [(0, bar monday 10 0)] |} = false
  /\ exists absent,
       fst (DataValidator.validate_data_quality no_india default_validation_rules
              default_config
              {| df_columns := ["timestamp"; "open"; "close"];
                 df_rows := [(0, bar monday 10 0)] |} (Some "RELIANCE") true)
       = Tuple4 false [ValidationFailed (KeyError absent)] 0%Q EmptyDict.
Proof.
  split; [reflexivity|]. split; [reflexivity|].
  destruct (missing_price_column_fails_validation no_india default_validation_rules
              default_config
              {| df_columns := ["timestamp"; "open"; "close"];
                 df_rows := [(0, bar monday 10 0)] |} (Some "RELIANCE") true "volume"
              eq_refl eq_refl ltac:(cbn; tauto) eq_refl)
    as (absent & _ & _ & H).
  exists absent. rewrite H. reflexivity.
Defined.

(** ** The expected interval *)

Lemma insert_distinct_in (a x : Z) (xs : list Z) :
  In x (insert_distinct a xs) <-> x = a \/ In x xs.
Proof.
  induction xs as [|y xs IH]; cbn [insert_distinct].
  - cbn. intuition.
  - destruct (a <? y); [cbn; intuition|].
    destruct (a =? y) eqn:E.
    + apply Z.eqb_eq in E. subst y. cbn. intuition.
    + cbn. rewrite IH. intuition.
Qed.

Lemma sorted_distinct_in (x : Z) (xs : list Z) : In x (sorted_distinct xs) <-> In x xs.
Proof.
  unfold sorted_distinct. induction xs as [|y xs IH]; cbn [fold_right]; [tauto|].
  rewrite insert_distinct_in, IH. cbn. intuition.
Qed.

Lemma insert_distinct_increasing (a : Z) (xs : list Z) :
  increasing xs -> increasing (insert_distinct a xs).
Proof.
  induction xs as [|y xs IH]; cbn [insert_distinct increasing].
  - intros _. split; [constructor|exact I].
  - intros [Hall Hinc]. destruct (a <? y) eqn:E1.
    + apply Z.ltb_lt in E1. cbn [increasing]. split; [|split; assumption].
      constructor; [exact E1|]. eapply Forall_impl; [|exact Hall]. cbv beta. lia.
    + destruct (a =? y) eqn:E2; [cbn [increasing]; split; assumption|].
      apply Z.ltb_ge in E1. apply Z.eqb_neq in E2. cbn [increasing].
      split; [|exact (IH Hinc)].
      apply Forall_forall. intros z Hz. apply insert_distinct_in in Hz.
      destruct Hz as [->|Hz]; [lia|].
      rewrite Forall_forall in Hall. exact (Hall z Hz).
Qed.

Lemma sorted_distinct_increasing (xs : list Z) : increasing (sorted_distinct xs).
Proof.
  unfold sorted_distinct. induction xs as [|y xs IH]; cbn [fold_right]; [exact I|].
  apply insert_distinct_increasing. exact IH.
Qed.

Lemma fold_max_ge (vs : list Z) (v : Z) : In v vs -> v <= fold_right Z.max 0 vs.
Proof.
  induction vs as [|w vs IH]; cbn [fold_right]; [intros []|].
  intros [->|H]; [lia|]. specialize (IH H). lia.
Qed.

Lemma fold_max_in (vs : list Z) :
  vs <> [] -> (forall v, In v vs -> 0 <= v) -> In (fold_right Z.max 0 vs) vs.
Proof.
  induction vs as [|w vs IH]; [contradiction|]. intros _ Hpos. cbn [fold_right].
  destruct vs as [|w' vs].
  - cbn. left. specialize (Hpos w (or_introl eq_refl)). lia.
  - assert (Hin : In (fold_right Z.max 0 (w' :: vs)) (w' :: vs)).
    { apply IH; [discriminate|]. intros v Hv. apply Hpos. right. exact Hv. }
    destruct (Z.max_spec w (fold_right Z.max 0 (w' :: vs))) as [[_ ->]|[_ ->]];
      [right; exact Hin|left; reflexivity].
Qed.

(** What [mode] returns: the values that occur in the series and are
    outnumbered by no other value, in ascending order. *)
Lemma mode_spec (xs : list Z) (d : Z) :
  In d (mode xs)
  <-> In d xs /\ forall y, count (Z.eqb y) xs <= count (Z.eqb d) xs.
Proof.
  unfold mode. rewrite sorted_distinct_in, filter_In, Z.eqb_eq.
  set (occ := fun x => count (Z.eqb x) xs).
  set (best := fold_right Z.max 0 (map occ xs)).
  change (count (Z.eqb d) xs) with (occ d).
  assert (Hle : forall y, occ y <= best).
  { intros y. destruct (in_dec Z.eq_dec y xs) as [Hy|Hy].
    - apply fold_max_ge. apply in_map. exact Hy.
    - assert (occ y = 0).
      { unfold occ. apply count_none. intros x Hx. apply Z.eqb_neq. congruence. }
      assert (0 <= best); [|lia].
      unfold best. clear. induction (map occ xs); cbn; lia. }
  split.
  - intros [Hin Hbest]. split; [exact Hin|]. intros y. rewrite Hbest. apply Hle.
  - intros [Hin Hmax]. split; [exact Hin|].
    assert (Hattained : In best (map occ xs)).
    { apply fold_max_in.
      - destruct xs; [destruct Hin|discriminate].
      - intros v Hv. apply in_map_iff in Hv. destruct Hv as (x & <- & _).
        apply count_nonneg. }
    apply in_map_iff in Hattained. destruct Hattained as (x & Hx & _).
    specialize (Hmax x). fold (occ x) in Hmax. specialize (Hle d). lia.
Qed.

(** [_calculate_expected_trading_intervals] returns an interval only when
    the batch has at least two trading bars; it then returns their number,
    and the interval is a difference between two consecutive trading bars
    that no other difference outnumbers, the smallest one when several occur
    equally often.  When it returns no interval the count is 0. *)
Theorem expected_interval_is_the_mode :
  forall (data_sorted : DataFrame) (trading_start trading_end : Time)
         (ind_holidays : HolidayCalendar),
    let trading_data :=
      _get_trading_data_only data_sorted trading_start trading_end ind_holidays in
    let time_diffs := map snd (dropna (diff (timestamps (df_rows trading_data)))) in
    let result :=
      DataValidator._calculate_expected_trading_intervals data_sorted
        trading_start trading_end ind_holidays in
    (forall d n,
        result = (Some d, n) ->
        n = df_len trading_data /\ 2 <= n /\ 2 <= df_len data_sorted
        /\ In d time_diffs
        /\ (forall y, count (Z.eqb y) time_diffs <= count (Z.eqb d) time_diffs)
        /\ (forall y, In y time_diffs ->
                      count (Z.eqb y) time_diffs = count (Z.eqb d) time_diffs ->
                      d <= y))
    /\ (fst result = None -> snd result = 0)
    /\ (df_len trading_data < 2 -> result = (None, 0)).
Proof.
  intros data s e cal trading_data time_diffs result. subst result.
  unfold DataValidator._calculate_expected_trading_intervals.
  fold trading_data. fold time_diffs.
  destruct (df_len data <? 2) eqn:H1.
  { split; [discriminate|]. split; reflexivity. }
  destruct (df_len trading_data <? 2) eqn:H2.
  { split; [discriminate|]. split; reflexivity. }
  apply Z.ltb_ge in H1, H2.
  destruct (len (dropna (diff (timestamps (df_rows trading_data)))) =? 0) eqn:H3.
  { split; [discriminate|]. split; [reflexivity|lia]. }
  destruct (mode time_diffs) as [|d0 ds] eqn:Hmode.
  { split; [discriminate|]. split; [reflexivity|lia]. }
  split; [|split; [discriminate|lia]].
  intros d n [= <- <-].
  assert (Hd : In d0 (mode time_diffs)) by (rewrite Hmode; left; reflexivity).
  apply mode_spec in Hd. destruct Hd as [Hin Hmax].
  repeat split; try assumption.
  intros y Hy Hcount.
  assert (Hy' : In y (mode time_diffs)).
  { apply mode_spec. split; [exact Hy|]. intros z. rewrite Hcount. apply Hmax. }
  pose proof (sorted_distinct_increasing
                (filter (fun x => count (Z.eqb x) time_diffs
                                  =? fold_right Z.max 0
                                       (map (fun x => count (Z.eqb x) time_diffs)
                                            time_diffs)) time_diffs)) as Hinc.
  change (sorted_distinct _) with (mode time_diffs) in Hinc.
  rewrite Hmode in Hinc, Hy'. cbn [increasing] in Hinc. destruct Hinc as [Hall _].
  destruct Hy' as [<-|Hy']; [lia|].
  rewrite Forall_forall in Hall. specialize (Hall y Hy'). lia.
Qed.

Lemma expected_interval_is_the_mode_witness :
  DataValidator._calculate_expected_trading_intervals
    (sort_values_timestamp hole_inside) (mk_time 9 15 0) (mk_time 15 30 0) no_holidays
  = (Some (timedelta_minutes 1), 5)
  /\ In (timedelta_minutes 1)
        (map snd (dropna (diff (timestamps
           (df_rows (_get_trading_data_only (sort_values_timestamp hole_inside)
                       (mk_time 9 15 0) (mk_time 15 30 0) no_holidays)))))).
Proof.
  assert (H : DataValidator._calculate_expected_trading_intervals
                (sort_values_timestamp hole_inside) (mk_time 9 15 0) (mk_time 15 30 0)
                no_holidays
              = (Some (timedelta_minutes 1), 5)) by reflexivity.
  split; [exact H|].
  destruct (proj1 (expected_interval_is_the_mode (sort_values_timestamp hole_inside)
                     (mk_time 9 15 0) (mk_time 15 30 0) no_holidays) _ _ H)
    as (_ & _ & _ & Hin & _).
  exact Hin.
Defined.

(** ** The gap loop *)

Lemma iloc_valid {A : Type} (xs : list A) (i : Z) :
  valid_position (len xs) i -> exists a, iloc xs i = Returned a.
Proof.
  unfold valid_position, iloc. intros Hv.
  set (pos := if 0 <=? i then i else len xs + i).
  assert (Hpos : 0 <= pos < len xs).
  { subst pos. destruct (0 <=? i) eqn:E; [apply Z.leb_le in E|apply Z.leb_gt in E]; lia. }
  replace ((0 <=? pos) && (pos <? len xs)) with true.
  - destruct (nth_error xs (Z.to_nat pos)) as [a|] eqn:E; [exists a; reflexivity|].
    apply nth_error_None in E. unfold len in Hpos. lia.
  - symmetry. apply andb_true_iff. split; [apply Z.leb_le|apply Z.ltb_lt]; lia.
Qed.

Lemma iloc_invalid {A : Type} (xs : list A) (i : Z) :
  ~ valid_position (len xs) i -> iloc xs i = Raised IndexError.
Proof.
  unfold valid_position, iloc. intros Hv.
  set (pos := if 0 <=? i then i else len xs + i).
  replace ((0 <=? pos) && (pos <? len xs)) with false; [reflexivity|].
  symmetry. apply andb_false_iff.
  subst pos. destruct (0 <=? i) eqn:E; [apply Z.leb_le in E|apply Z.leb_gt in E].
  - right. apply Z.ltb_ge. lia.
  - destruct (Z.le_gt_cases 0 (len xs + i)); [right; apply Z.ltb_ge|left; apply Z.leb_gt]; lia.
Qed.

Lemma iloc_raises_index_error {A : Type} (xs : list A) (i : Z) (e : Exn) :
  iloc xs i = Raised e -> e = IndexError /\ ~ valid_position (len xs) i.
Proof.
  intros H. destruct (Z_le_dec (- len xs) i) as [H1|H1];
    [destruct (Z_lt_dec i (len xs)) as [H2|H2]|].
  - destruct (iloc_valid xs i (conj H1 H2)) as [a Ha]. congruence.
  - rewrite iloc_invalid in H by (unfold valid_position; lia).
    injection H as <-. split; [reflexivity|unfold valid_position; lia].
  - rewrite iloc_invalid in H by (unfold valid_position; lia).
    injection H as <-. split; [reflexivity|unfold valid_position; lia].
Qed.

Section GapLoop.

Import DataValidator.

Variable India : list Z -> HolidayCalendar.
Variable rules : ValidationRules.

(** The gap loop fails exactly when a counted gap carries an index label
    that is not a valid position in the trading rows, or whose successor is
    not: the loop reads the rows at the label and at the label plus one.
    When it fails it raises [IndexError]. *)
Theorem gap_loop_returns_iff_labels_are_positions :
  forall (expected_interval : Timedelta) (trading_rows : list (Z * Row))
         (gaps : list (Z * Timedelta)) (acc : Z * Z * list GapDetail),
    0 < expected_interval ->
    ((exists r, gap_loop expected_interval trading_rows gaps acc = Returned r)
     <-> (forall gap_idx gap,
            In (gap_idx, gap) gaps ->
            gap_is_counted expected_interval gap = true ->
            valid_position (len trading_rows) gap_idx
            /\ valid_position (len trading_rows) (gap_idx + 1)))
    /\ (forall e,
          gap_loop expected_interval trading_rows gaps acc = Raised e -> e = IndexError).
Proof.
  intros expected rows gaps acc Hexp. apply Z.ltb_lt in Hexp.
  revert acc. induction gaps as [|[idx gap] gaps IH]; intros [[missing actual] details].
  - cbn [gap_loop]. split; [|discriminate].
    split; [intros _ ? ? []|intros _; eexists; reflexivity].
  - cbn [gap_loop]. rewrite Hexp.
    change ((0 <? gap_missing_intervals expected gap)
            && (gap_missing_intervals expected gap <=? 1000))
      with (gap_is_counted expected gap).
    destruct (gap_is_counted expected gap) eqn:Hc.
    + destruct (iloc rows idx) as [r1|e1] eqn:E1; cbn [bind].
      * destruct (iloc rows (idx + 1)) as [r2|e2] eqn:E2; cbn [bind].
        -- destruct (IH (missing + gap_missing_intervals expected gap, actual + 1,
                         details ++ [{| gap_start := r_timestamp (snd r1);
                                        gap_end := r_timestamp (snd r2);
                                        gap_duration_minutes := Z.quot gap NS_PER_MINUTE;
                                        missing_intervals :=
                                          gap_missing_intervals expected gap;
                                        expected_interval_minutes :=
                                          Z.quot expected NS_PER_MINUTE |}]))
             as [Hiff Hraise].
           split; [|exact Hraise]. rewrite Hiff. split.
           ++ intros H i g [[= <- <-]|Hin] Hg; [|exact (H i g Hin Hg)].
              split.
              ** destruct (Z_le_dec (- len rows) idx);
                   [destruct (Z_lt_dec idx (len rows))|]; try (split; assumption);
                   rewrite iloc_invalid in E1 by (unfold valid_position; lia);
                   discriminate.
              ** destruct (Z_le_dec (- len rows) (idx + 1));
                   [destruct (Z_lt_dec (idx + 1) (len rows))|]; try (split; assumption);
                   rewrite iloc_invalid in E2 by (unfold valid_position; lia);
                   discriminate.
           ++ intros H i g Hin Hg. apply (H i g); [right; exact Hin|exact Hg].
        -- destruct (iloc_raises_index_error _ _ _ E2) as [-> Hbad]. split.
           ++ split; [intros [r Hr]; discriminate|].
              intros H. exfalso. apply Hbad.
              exact (proj2 (H idx gap (or_introl eq_refl) Hc)).
           ++ intros e [= <-]. reflexivity.
      * destruct (iloc_raises_index_error _ _ _ E1) as [-> Hbad]. split.
        -- split; [intros [r Hr]; discriminate|].
           intros H. exfalso. apply Hbad.
           exact (proj1 (H idx gap (or_introl eq_refl) Hc)).
        -- intros e [= <-]. reflexivity.
    + destruct (IH (missing, actual, details)) as [Hiff Hraise].
      split; [|exact Hraise]. rewrite Hiff. split.
      * intros H i g [[= <- <-]|Hin] Hg; [congruence|exact (H i g Hin Hg)].
      * intros H i g Hin Hg. apply (H i g); [right; exact Hin|exact Hg].
Qed.

Lemma gap_loop_records (expected : Timedelta) (rows : list (Z * Row))
    (gaps : list (Z * Timedelta)) :
  forall missing actual details missing' actual' details',
    gap_loop expected rows gaps (missing, actual, details)
    = Returned (missing', actual', details') ->
    exists new,
      details' = details ++ new
      /\ actual' = actual + len new
      /\ missing' = missing + total_missing new
      /\ Forall (fun g => 1 <= missing_intervals g <= 1000
                          /\ expected_interval_minutes g = Z.quot expected NS_PER_MINUTE)
                new.
Proof.
  induction gaps as [|[idx gap] gaps IH];
    intros missing actual details missing' actual' details'; cbn [gap_loop].
  - intros [= <- <- <-]. exists []. rewrite app_nil_r. cbn. repeat split; try lia.
    constructor.
  - destruct (0 <? expected); [|apply IH].
    destruct ((0 <? gap_missing_intervals expected gap)
              && (gap_missing_intervals expected gap <=? 1000)) eqn:Hc; [|apply IH].
    destruct (iloc rows idx) as [r1|]; cbn [bind]; [|discriminate].
    destruct (iloc rows (idx + 1)) as [r2|]; cbn [bind]; [|discriminate].
    intros H. destruct (IH _ _ _ _ _ _ H) as (new & Hd & Ha & Hm & Hall).
    apply andb_true_iff in Hc. destruct Hc as [Hc1 Hc2].
    apply Z.ltb_lt in Hc1. apply Z.leb_le in Hc2.
    eexists (_ :: new). split; [rewrite Hd, <- app_assoc; reflexivity|].
    split; [unfold len in *; cbn [List.length]; lia|].
    split; [unfold total_missing in *; cbn [map fold_right missing_intervals]; lia|].
    constructor; [cbn; split; [lia|reflexivity]|exact Hall].
Qed.

(** When the gap check returns, the gap records it appended are consistent
    with the issue it raised: each record stands for 1 to 1000 missing
    intervals; the number of gaps in the issue is the number of records; and
    the number of missing data points in the issue, when given, is at least
    1, at most 10000 and at most the total of the records.  The other lists
    of the details are untouched. *)
Theorem gap_records_match_the_issue :
  forall (data_sorted : DataFrame) (st st' : VState),
    gap_detection India rules data_sorted st = Returned st' ->
    exists new,
      gap_details (timestamp_details st') = gap_details (timestamp_details st) ++ new
      /\ Forall (fun g => 1 <= missing_intervals g <= 1000) new
      /\ ((issues st' = issues st /\ new = [])
          \/ exists points,
               issues st' = issues st ++ [MissingTimeIntervals (len new) points]
               /\ forall p, points = Some p ->
                            1 <= p <= 10000 /\ p <= total_missing new)
      /\ non_trading_timestamps (timestamp_details st')
         = non_trading_timestamps (timestamp_details st)
      /\ missing_consecutive_minutes (timestamp_details st')
         = missing_consecutive_minutes (timestamp_details st).
Proof.
  intros data_sorted st st'. unfold gap_detection.
  destruct (expected_interval_of India rules data_sorted) as [expected n].
  assert (Hnone : forall s, exists new : list GapDetail,
             gap_details (timestamp_details (add_score s st))
             = gap_details (timestamp_details st) ++ new
             /\ Forall (fun g => 1 <= missing_intervals g <= 1000) new
             /\ ((issues (add_score s st) = issues st /\ new = [])
                 \/ exists points,
                      issues (add_score s st)
                      = issues st ++ [MissingTimeIntervals (len new) points]
                      /\ forall p, points = Some p ->
                                   1 <= p <= 10000 /\ p <= total_missing new)
             /\ non_trading_timestamps (timestamp_details (add_score s st))
                = non_trading_timestamps (timestamp_details st)
             /\ missing_consecutive_minutes (timestamp_details (add_score s st))
                = missing_consecutive_minutes (timestamp_details st)).
  { intros s. exists []. cbn. rewrite app_nil_r. repeat split; auto. }
  destruct (timedelta_truthy expected && (1 <? n)); [|intros [= <-]; apply Hnone].
  destruct (0 <? len _); [|intros [= <-]; apply Hnone].
  destruct (0 <? len _); [|intros [= <-]; apply Hnone].
  destruct (gap_loop _ _ _ _) as [[[missing actual] details]|e] eqn:Hloop; cbn [bind];
    [|discriminate].
  destruct (gap_loop_records _ _ _ _ _ _ _ _ _ Hloop) as (new & Hd & Ha & Hm & Hall).
  assert (Hall' : Forall (fun g => 1 <= missing_intervals g <= 1000) new).
  { eapply Forall_impl; [|exact Hall]. cbv beta. tauto. }
  destruct (0 <? Z.min missing (Z.min (n / 2) 10000)) eqn:Hpos; intros [= <-];
    exists new; cbn; (split; [exact Hd|]); (split; [exact Hall'|]);
    (split; [|split; reflexivity]); right; eexists; (split; [rewrite Ha; reflexivity|]).
  - intros p [= <-]. apply Z.ltb_lt in Hpos. lia.
  - intros p [=].
Qed.

End GapLoop.

Lemma gap_loop_returns_iff_labels_are_positions_witness :
  0 < timedelta_minutes 1
  /\ ~ exists r,
         DataValidator.gap_loop (timedelta_minutes 1)
           (df_rows hole_before_last_bar) [(2, timedelta_minutes 5)] (0, 0, [])
         = Returned r.
Proof.
  split; [reflexivity|].
  intros Hret.
  destruct (proj1 (proj1 (gap_loop_returns_iff_labels_are_positions
                            (timedelta_minutes 1) (df_rows hole_before_last_bar)
                            [(2, timedelta_minutes 5)] (0, 0, []) eq_refl))
              Hret 2 (timedelta_minutes 5) (or_introl eq_refl) eq_refl)
    as [_ [_ Hbad]].
  vm_compute in Hbad. discriminate Hbad.
Defined.

Lemma gap_records_match_the_issue_witness :
  exists st',
    DataValidator.gap_detection no_india default_validation_rules
      (sort_values_timestamp hole_inside) initial_vstate = Returned st'
    /\ exists new,
         gap_details (timestamp_details st') = [] ++ new
         /\ Forall (fun g => 1 <= missing_intervals g <= 1000) new.
Proof.
  destruct (DataValidator.gap_detection no_india default_validation_rules
              (sort_values_timestamp hole_inside) initial_vstate) as [st'|e] eqn:E;
    [|vm_compute in E; discriminate E].
  exists st'. split; [reflexivity|].
  destruct (gap_records_match_the_issue no_india default_validation_rules _ _ _ E)
    as (new & Hd & Hall & _).
  exists new. split; [exact Hd|exact Hall].
Defined.

(** ** Missing minutes, duplicates, non-trading days *)



Lemma opt_ts_eqb_eq (a b : option Timestamp) : opt_ts_eqb a b = true <-> a = b.
Proof.
  destruct a as [x|], b as [y|]; cbn; try (split; [discriminate|congruence]).
  - rewrite Z.eqb_eq. split; congruence.
  - tauto.
Qed.

Lemma duplicated_count_zero (s : list (Z * option Timestamp)) :
  forall seen,
    duplicated_count seen s = 0
    <-> NoDup (map snd s) /\ forall t, In t (map snd s) -> ~ In t seen.
Proof.
  induction s as [|[lbl t] s IH]; intros seen; cbn [duplicated_count map snd].
  - split; [intros _; split; [constructor|intros ? []]|reflexivity].
  - pose proof (duplicated_count_nonneg s (t :: seen)) as Hnn.
    destruct (existsb (opt_ts_eqb t) seen) eqn:E.
    + split; [lia|]. intros [_ H]. exfalso.
      apply existsb_exists in E. destruct E as (x & Hx & Heq).
      apply opt_ts_eqb_eq in Heq. subst x. exact (H t (or_introl eq_refl) Hx).
    + assert (Hnot : ~ In t seen).
      { intros Hin. assert (existsb (opt_ts_eqb t) seen = true); [|congruence].
        apply existsb_exists. exists t. split; [exact Hin|apply opt_ts_eqb_eq; reflexivity]. }
      rewrite Z.add_0_l, IH. split.
      * intros [Hnd H]. split.
        -- constructor; [|exact Hnd]. intros Hin. apply (H t Hin). left. reflexivity.
        -- intros x [<-|Hx]; [exact Hnot|]. intros Hs. apply (H x Hx). right. exact Hs.
      * intros [Hnd H]. inversion Hnd as [|? ? Hnotin Hnd']; subst. split; [exact Hnd'|].
        intros x Hx [<-|Hs]; [contradiction|]. apply (H x (or_intror Hx) Hs).
Qed.

(** The duplicate check raises no issue exactly when the timestamps of the
    batch are pairwise distinct, a missing timestamp counting as equal to
    another missing timestamp; it then adds the subscore 1.0. *)
Theorem duplicates_check_passes_iff_distinct :
  forall (rules : ValidationRules) (data : DataFrame) (st : VState),
    duplicate_check rules = true ->
    has_column data "timestamp" = true ->
    (issues (DataValidator.duplicates_check rules data st) = issues st
     <-> NoDup (map (fun lr => r_timestamp (snd lr)) (df_rows data)))
    /\ (NoDup (map (fun lr => r_timestamp (snd lr)) (df_rows data)) ->
        DataValidator.duplicates_check rules data st = add_score 1%Q st).
Proof.
  intros rules data st Hon Hcol. unfold DataValidator.duplicates_check.
  rewrite Hon, Hcol.
  assert (Hmap : map snd (timestamps (df_rows data))
                 = map (fun lr => r_timestamp (snd lr)) (df_rows data)).
  { unfold timestamps. rewrite map_map. reflexivity. }
  pose proof (duplicated_count_zero (timestamps (df_rows data)) []) as Hzero.
  rewrite Hmap in Hzero.
  pose proof (duplicated_count_nonneg (timestamps (df_rows data)) []) as Hnn.
  unfold report_count.
  destruct (0 <? duplicated_count [] (timestamps (df_rows data))) eqn:E.
  - apply Z.ltb_lt in E. split.
    + split.
      * cbn. intros H. exfalso.
        assert (Hlen : List.length (issues st ++ [DuplicateTimestamps
                         (duplicated_count [] (timestamps (df_rows data)))])
                       = List.length (issues st)) by (rewrite H; reflexivity).
        rewrite length_app in Hlen. cbn in Hlen. lia.
      * intros Hnd. exfalso.
        assert (duplicated_count [] (timestamps (df_rows data)) = 0); [|lia].
        apply Hzero. split; [exact Hnd|intros ? _ []].
    + intros Hnd. exfalso.
      assert (duplicated_count [] (timestamps (df_rows data)) = 0); [|lia].
      apply Hzero. split; [exact Hnd|intros ? _ []].
  - apply Z.ltb_ge in E. split; [|reflexivity].
    split; [|reflexivity]. intros _. apply Hzero. lia.
Qed.

Lemma duplicates_check_passes_iff_distinct_witness :
  duplicate_check default_validation_rules = true
  /\ has_column two_bars "timestamp" = true
  /\ DataValidator.duplicates_check default_validation_rules two_bars initial_vstate
     = add_score 1%Q initial_vstate.
Proof.
  split; [reflexivity|]. split; [reflexivity|].
  apply (proj2 (duplicates_check_passes_iff_distinct default_validation_rules two_bars
                  initial_vstate eq_refl eq_refl)).
  cbn. constructor; [|constructor; [intros []|constructor]].
  intros [H|[]]. discriminate H.
Defined.

(** The loop of the holiday and weekend validation records exactly the rows
    dated on a Saturday, a Sunday or a holiday, in order, and counts them;
    the two lists it fills stay of equal length.  No recorded instant is a
    trading instant, whatever the trading window. *)
Theorem non_trading_loop_records_exactly_non_trading_days :
  forall (cal : HolidayCalendar) (rows : list (Z * Row)) (n : Z)
         (stamps : list NonTradingTimestamp) (ohlcv : list NonTradingOhlcv),
    exists new new_ohlcv,
      DataValidator.non_trading_loop cal rows (n, stamps, ohlcv)
      = (n + len new, stamps ++ new, ohlcv ++ new_ohlcv)
      /\ map (fun e => Some (nt_timestamp e)) new
         = map (fun lr => r_timestamp (snd lr)) (filter (on_non_trading_day cal) rows)
      /\ map nto_timestamp new_ohlcv = map nt_timestamp new
      /\ Forall (fun e =>
                   (nt_reason e = Weekend <-> 5 <= weekday (nt_timestamp e))
                   /\ forall trading_start trading_end,
                        _is_trading_time (Some (nt_timestamp e)) trading_start
                          trading_end cal = false) new.
Proof.
  intros cal rows. induction rows as [|[lbl row] rows IH]; intros n stamps ohlcv;
    cbn [DataValidator.non_trading_loop].
  - exists [], []. rewrite !app_nil_r. cbn [map filter].
    split; [apply f_equal2; [apply f_equal2|]; try reflexivity; cbn; lia|].
    repeat split. constructor.
  - cbn [filter]. unfold on_non_trading_day at 1. cbn [snd].
    destruct (r_timestamp row) as [ts|] eqn:Hts; [|apply IH].
    destruct (5 <=? weekday ts) eqn:Hwd; cbn [orb].
    + match goal with
      | |- context [DataValidator.non_trading_loop cal rows (?a, ?b, ?c)] =>
          destruct (IH a b c) as (new & new_ohlcv & Hloop & Hmap & Hmap2 & Hall)
      end.
      eexists (_ :: new), (_ :: new_ohlcv). rewrite Hloop. split.
      * rewrite <- !app_assoc. cbn [app].
        apply f_equal2; [apply f_equal2|]; try reflexivity.
        unfold len. cbn [List.length]. lia.
      * split; [cbn [map nt_timestamp snd]; rewrite Hmap, ?Hts; reflexivity|].
        split; [cbn [map nt_timestamp nto_timestamp]; rewrite Hmap2; reflexivity|].
        constructor; [|exact Hall]. cbn [nt_reason nt_timestamp]. split.
        -- split; [intros _; apply Z.leb_le; exact Hwd|reflexivity].
        -- intros s e. unfold _is_trading_time. rewrite Hwd. reflexivity.
    + unfold is_holiday. destruct (cal (date_of ts)) as [name|] eqn:Hcal; [|apply IH].
      match goal with
      | |- context [DataValidator.non_trading_loop cal rows (?a, ?b, ?c)] =>
          destruct (IH a b c) as (new & new_ohlcv & Hloop & Hmap & Hmap2 & Hall)
      end.
      eexists (_ :: new), (_ :: new_ohlcv). rewrite Hloop. split.
      * rewrite <- !app_assoc. cbn [app].
        apply f_equal2; [apply f_equal2|]; try reflexivity.
        unfold len. cbn [List.length]. lia.
      * split; [cbn [map nt_timestamp snd]; rewrite Hmap, ?Hts; reflexivity|].
        split; [cbn [map nt_timestamp nto_timestamp]; rewrite Hmap2; reflexivity|].
        constructor; [|exact Hall]. cbn [nt_reason nt_timestamp]. split.
        -- apply Z.leb_gt in Hwd. split; [discriminate|lia].
        -- intros s e. unfold _is_trading_time, is_holiday. rewrite Hwd, Hcal. reflexivity.
Qed.

(** ** Reading the latest bars through the cache *)

Lemma latest_cache_key_contains_symbol (symbol : string) (count : Z) :
  contains symbol (latest_cache_key symbol count) = true.
Proof.
  apply contains_substring.
  exists "latest_", (String.append "_" (str_of_int count)). reflexivity.
Qed.

Section ReadThrough.

Variable Storage : Type.
Variable latest_frame : Storage -> string -> Z -> option DataFrame.

(** [get_latest_bars] reads through the cache.  On a fresh cached entry it
    returns the entry whatever the storage holds.  Otherwise it asks the
    storage: when the storage has no row it returns the empty frame and
    caches nothing under the key; when it has rows it returns their frame
    and, in a state the cache can reach with a clock that is not behind the
    recorded insertion times, a second call within the maximum age returns
    that same frame whatever the storage holds by then. *)
Theorem get_latest_bars_reads_through :
  forall (m : Manager) (db : Storage) (symbol : string) (count : Z)
         (now now1 now2 : Datetime),
    let key := latest_cache_key symbol count in
    let r := get_latest_bars Storage latest_frame m db symbol count now now1 now2 in
    (forall cached,
        fst (_get_from_cache m key now) = Some cached ->
        forall db',
          fst (get_latest_bars Storage latest_frame m db' symbol count now now1 now2)
          = Returned cached)
    /\ (fst (_get_from_cache m key now) = None ->
        latest_frame db symbol count = None ->
        fst r = Returned {| df_columns := []; df_rows := [] |}
        /\ dict_get key (_cache (snd r)) = None)
    /\ (forall ops df,
          run_ops initial_manager ops = Returned m ->
          (forall k t, dict_get k (_cache_timestamps m) = Some t -> t <= now2) ->
          fst (_get_from_cache m key now) = None ->
          latest_frame db symbol count = Some df ->
          fst r = Returned df
          /\ forall db' now' now1' now2',
               now' - now1 < _max_cache_age ->
               fst (get_latest_bars Storage latest_frame (snd r) db' symbol count
                      now' now1' now2')
               = Returned df).
Proof.
  intros m db symbol count now now1 now2 key r. subst r.
  unfold get_latest_bars. cbv zeta. fold key. split; [|split].
  - intros cached Hhit db'.
    destruct (_get_from_cache m key now) as [[c|] m'] eqn:E; cbn in Hhit; [|discriminate].
    injection Hhit as ->. reflexivity.
  - intros Hmiss Hnone. revert Hmiss. unfold _get_from_cache.
    destruct (dict_get key (_cache m)) as [[t d]|] eqn:Hget.
    + destruct (now - t <? _max_cache_age); cbn [fst snd]; [discriminate|].
      intros _. rewrite Hnone. cbn [fst snd _cache].
      split; [reflexivity|apply dict_get_pop_eq].
    + cbn [fst snd]. intros _. rewrite Hnone. cbn [fst snd _cache].
      split; [reflexivity|exact Hget].
  - intros ops df Hrun Hclock Hmiss Hsome.
    destruct (_get_from_cache m key now) as [[c|] m'] eqn:E; cbn in Hmiss;
      [discriminate|].
    rewrite Hsome.
    assert (Hrun' : run_ops initial_manager (ops ++ [OpGet key now]) = Returned m').
    { clear -Hrun E. revert Hrun. generalize initial_manager.
      induction ops as [|op ops IH]; intros m0; cbn [run_ops app].
      - intros [= ->]. cbn [run_ops apply_op bind]. rewrite E. reflexivity.
      - destruct (apply_op m0 op); cbn [bind]; [apply IH|discriminate]. }
    assert (Hclock' : forall k t, dict_get k (_cache_timestamps m') = Some t -> t <= now2).
    { intros k t Hk. apply (Hclock k).
      unfold _get_from_cache in E.
      destruct (dict_get key (_cache m)) as [[t0 d0]|];
        [destruct (now - t0 <? _max_cache_age)|]; try discriminate E;
        apply (f_equal snd) in E; cbn [snd] in E; subst m';
        cbn [_cache_timestamps] in Hk; try exact Hk.
      destruct (string_dec k key) as [->|Hne].
      - rewrite dict_get_pop_eq in Hk. discriminate.
      - rewrite dict_get_pop_ne in Hk by exact Hne. exact Hk. }
    assert (Hput : forall now',
               now' - now1 < _max_cache_age ->
               exists m'',
                 _store_in_cache m' key df now1 now2 = Returned m''
                 /\ fst (_get_from_cache m'' key now') = Some df).
    { intros now' Hage.
      destruct (store_then_get _ m' key df now1 now2 now' Hrun' Hclock' Hage)
        as (m'' & H1 & H2 & _).
      exists m''. split; assumption. }
    destruct (store_then_get _ m' key df now1 now2 (now1 + 0) Hrun' Hclock'
                ltac:(unfold _max_cache_age; lia)) as (m'' & Hstore & _).
    rewrite Hstore. cbn [fst snd]. split; [reflexivity|].
    intros db' now' now1' now2' Hage.
    destruct (Hput now' Hage) as (m2 & Hstore2 & Hget2).
    rewrite Hstore in Hstore2. injection Hstore2 as <-.
    destruct (_get_from_cache m'' key now') as [[c|] m3]; cbn in Hget2; [|discriminate].
    injection Hget2 as ->. reflexivity.
Qed.

Lemma run_ops_app (a b : list CacheOp) :
  forall m, run_ops m (a ++ b) = bind (run_ops m a) (fun m' => run_ops m' b).
Proof.
  induction a as [|op a IH]; intros m; cbn [run_ops app bind]; [reflexivity|].
  destruct (apply_op m op); cbn [bind]; [apply IH|reflexivity].
Qed.

Lemma store_in_cache_counters (m m' : Manager) (key : string) (data : DataFrame)
    (now1 now2 : Datetime) :
  _store_in_cache m key data now1 now2 = Returned m' ->
  hits m' = hits m /\ misses m' = misses m.
Proof.
  unfold _store_in_cache.
  destruct (500 <? len _); [destruct (dict_set key now2 _)|];
    try discriminate; intros [= <-]; split; reflexivity.
Qed.

(** After a call of [store_ohlcv_data] for a symbol that returned [True] on a
    batch that is not empty, in a state the cache can reach,
    [get_latest_bars] for that symbol, whatever the count, does not answer
    from the cache: it counts a miss and returns what the storage holds, the
    empty frame when the storage has no row. *)
Theorem latest_bars_are_fresh_after_store :
  forall (India : list Z -> HolidayCalendar) (rules : ValidationRules)
         (config : Config) (constituents : string -> option string)
         (Database : Type) (execute : Database -> list StoredRow -> Database * bool)
         (ops : list CacheOp) (m : Manager) (db : Database) (data : DataFrame)
         (symbol data_source : string) (skip_validation : bool)
         (storage : Storage) (count : Z) (now now1 now2 : Datetime),
    let stored := store_ohlcv_data India rules config constituents Database execute
                    m db data symbol data_source skip_validation in
    let r := get_latest_bars Storage latest_frame (manager_after Database stored)
               storage symbol count now now1 now2 in
    run_ops initial_manager ops = Returned m ->
    df_empty data = false ->
    returned Database stored = Returned true ->
    fst r = Returned match latest_frame storage symbol count with
                     | Some df => df
                     | None => {| df_columns := []; df_rows := [] |}
                     end
    /\ misses (snd r) = misses m + 1
    /\ hits (snd r) = hits m.
Proof.
  intros India rules config constituents Database execute ops m db data symbol
         data_source skip storage count now now1 now2 stored r Hrun Hne Hret.
  destruct (store_cache_effect India rules config constituents Database
              execute m db data symbol data_source skip Hne) as (Hdrop & _ & Hh & Hm).
  destruct (store_manager_cases India rules config constituents Database execute
              m db data symbol data_source skip Hne) as [[_ HmA]|[Hno _]];
    [|contradiction].
  fold stored in Hdrop, Hh, Hm, HmA.
  specialize (Hdrop Hret (latest_cache_key symbol count)).
  rewrite latest_cache_key_contains_symbol in Hdrop.
  set (mA := manager_after Database stored) in *.
  set (key := latest_cache_key symbol count) in *.
  set (m1 := {| _cache := _cache mA; _cache_timestamps := _cache_timestamps mA;
                hits := hits mA; misses := misses mA + 1 |}).
  assert (Hlookup : _get_from_cache mA key now = (None, m1)).
  { unfold _get_from_cache. rewrite Hdrop. reflexivity. }
  subst r. unfold get_latest_bars. cbv zeta. fold key. rewrite Hlookup.
  destruct (latest_frame storage symbol count) as [df|].
  - assert (Hinv : cache_invariant m1).
    { destruct (invariant_run_ops (ops ++ [OpInvalidate symbol]) initial_manager
                  invariant_initial) as (m0 & Hm0 & Hinv0).
      rewrite run_ops_app, Hrun in Hm0. cbn [bind run_ops apply_op] in Hm0.
      injection Hm0 as <-. rewrite <- HmA in Hinv0. exact Hinv0. }
    destruct (store_in_cache_spec m1 key df now1 now2 Hinv) as (m2 & Hstore & _).
    rewrite Hstore. cbn [fst snd].
    destruct (store_in_cache_counters _ _ _ _ _ _ Hstore) as [H1 H2].
    rewrite H1, H2. unfold m1. cbn [hits misses]. rewrite Hh, Hm. repeat split.
  - unfold m1. cbn [fst snd hits misses]. rewrite Hh, Hm. repeat split.
Qed.

End ReadThrough.

Lemma get_latest_bars_reads_through_witness :
  run_ops initial_manager [] = Returned initial_manager
  /\ fst (_get_from_cache initial_manager (latest_cache_key "INFY" 100) 10) = None
  /\ two_bars_everywhere tt "INFY" 100 = Some two_bars
  /\ fst (get_latest_bars unit two_bars_everywhere initial_manager tt "INFY" 100 10 11 12)
     = Returned two_bars.
Proof.
  split; [reflexivity|]. split; [reflexivity|]. split; [reflexivity|].
  refine (proj1 (proj2 (proj2 (get_latest_bars_reads_through unit two_bars_everywhere
                                 initial_manager tt "INFY" 100 10 11 12))
                   [] two_bars eq_refl _ eq_refl eq_refl)).
  intros k t H. discriminate H.
Defined.

Lemma latest_bars_are_fresh_after_store_witness :
  run_ops initial_manager
    [OpStore "latest_RELIANCE_100" (frame [bar monday 10 0]) 0 0] = Returned one_entry
  /\ df_empty two_bars = false
  /\ returned unit
       (store_ohlcv_data no_india default_validation_rules default_config
          no_constituents unit always_commits one_entry tt two_bars
          "RELIANCE" "zerodha_kite" true) = Returned true
  /\ misses (snd (get_latest_bars unit two_bars_everywhere
                    (manager_after unit
                       (store_ohlcv_data no_india default_validation_rules
                          default_config no_constituents unit always_commits one_entry
                          tt two_bars "RELIANCE" "zerodha_kite" true))
                    tt "RELIANCE" 100 1 2 3))
     = misses one_entry + 1.
Proof.
  assert (Hrun : run_ops initial_manager
                   [OpStore "latest_RELIANCE_100" (frame [bar monday 10 0]) 0 0]
                 = Returned one_entry) by reflexivity.
  split; [exact Hrun|]. split; [reflexivity|]. split; [reflexivity|].
  exact (proj1 (proj2 (latest_bars_are_fresh_after_store unit two_bars_everywhere
                  no_india default_validation_rules default_config no_constituents unit
                  always_commits _ one_entry tt two_bars "RELIANCE" "zerodha_kite" true
                  tt 100 1 2 3 Hrun eq_refl eq_refl))).
Defined.

(** ** The constituents table *)

Lemma get_sectors_loop_spec
    (items : list (string * NiftyConstituentsManager.Constituent)) :
  forall (sectors : dict (list string)) (s : string),
    (forall s', dict_get s' sectors <> Some []) ->
    dict_get s (NiftyConstituentsManager.get_sectors_loop items sectors)
    = non_empty_list (match dict_get s sectors with
                      | Some l => l
                      | None => []
                      end ++ symbols_of_sector s items).
Proof.
  induction items as [|[symbol info] items IH]; intros sectors s Hne;
    cbn [NiftyConstituentsManager.get_sectors_loop].
  - unfold symbols_of_sector. cbn. rewrite app_nil_r.
    destruct (dict_get s sectors) as [[|x l]|] eqn:E; try reflexivity.
    exfalso. exact (Hne s E).
  - rewrite IH.
    + unfold symbols_of_sector. cbn [filter snd].
      destruct (String.eqb (NiftyConstituentsManager.sector info) s) eqn:E.
      * apply String.eqb_eq in E. subst s. rewrite dict_get_set_eq.
        cbn [map fst]. rewrite <- app_assoc. reflexivity.
      * apply String.eqb_neq in E. rewrite dict_get_set_ne by congruence. reflexivity.
    + intros s'. destruct (string_dec s' (NiftyConstituentsManager.sector info)) as [->|Hd].
      * rewrite dict_get_set_eq. destruct (dict_get _ sectors); cbn; [|discriminate].
        intros [= H]. destruct l; discriminate H.
      * rewrite dict_get_set_ne by exact Hd. apply Hne.
Qed.

(** [get_sectors] groups the table by sector: under each sector it lists
    exactly the symbols of that sector, in table order, and it has no entry
    for a sector that no symbol belongs to.  So a symbol stands under the
    sector the table gives it and under no other. *)
Theorem get_sectors_groups_by_sector :
  forall (table : dict NiftyConstituentsManager.Constituent) (s : string),
    dict_get s (NiftyConstituentsManager.get_sectors table)
    = non_empty_list (symbols_of_sector s table)
    /\ forall symbols symbol,
         dict_get s (NiftyConstituentsManager.get_sectors table) = Some symbols ->
         (In symbol symbols
          <-> exists info, In (symbol, info) table
                           /\ NiftyConstituentsManager.sector info = s).
Proof.
  intros table s.
  assert (H : dict_get s (NiftyConstituentsManager.get_sectors table)
              = non_empty_list (symbols_of_sector s table)).
  { unfold NiftyConstituentsManager.get_sectors.
    rewrite get_sectors_loop_spec by (intros s'; discriminate). reflexivity. }
  split; [exact H|].
  intros symbols symbol Hget. rewrite H in Hget.
  assert (Hs : symbols = symbols_of_sector s table).
  { destruct (symbols_of_sector s table); cbn in Hget; [discriminate|].
    injection Hget as <-. reflexivity. }
  subst symbols. unfold symbols_of_sector. rewrite in_map_iff. split.
  - intros ([sym info] & Hfst & Hin). cbn in Hfst. subst sym.
    apply filter_In in Hin. destruct Hin as [Hin Heq]. cbn in Heq.
    apply String.eqb_eq in Heq. exists info. split; assumption.
  - intros (info & Hin & Heq). exists (symbol, info). split; [reflexivity|].
    apply filter_In. split; [exact Hin|]. cbn. apply String.eqb_eq. exact Heq.
Qed.

Lemma get_sectors_groups_by_sector_witness :
  dict_get "Banking"
    (NiftyConstituentsManager.get_sectors NiftyConstituentsManager.NIFTY50_CONSTITUENTS)
  = Some ["AXISBANK"; "HDFCBANK"; "ICICIBANK"; "INDUSINDBK"; "KOTAKBANK"; "SBIN"]
  /\ In "SBIN" ["AXISBANK"; "HDFCBANK"; "ICICIBANK"; "INDUSINDBK"; "KOTAKBANK"; "SBIN"].
Proof.
  assert (H : dict_get "Banking"
                (NiftyConstituentsManager.get_sectors
                   NiftyConstituentsManager.NIFTY50_CONSTITUENTS)
              = Some ["AXISBANK"; "HDFCBANK"; "ICICIBANK"; "INDUSINDBK"; "KOTAKBANK";
                      "SBIN"])
    by (vm_compute; reflexivity).
  split; [exact H|].
  apply (proj2 (get_sectors_groups_by_sector _ "Banking") _ "SBIN" H).
  exists {| NiftyConstituentsManager.name := "State Bank of India";
            NiftyConstituentsManager.sector := "Banking" |}.
  split; [do 39 right; left; reflexivity|reflexivity].
Defined.

(** ** Invalidation across symbols of the table *)

(** In the table of fifty symbols the only symbol that occurs inside other
    ones is LT, inside HCLTECH and inside ULTRACEMCO.  So cache invalidation
    for LT, as a successful store for LT triggers it, also drops every cached
    latest-bars entry of HCLTECH and of ULTRACEMCO, whatever the count and
    whatever the state of the cache. *)
Theorem invalidating_LT_drops_other_symbols :
  symbols_inside_other_symbols = [("LT", "HCLTECH"); ("LT", "ULTRACEMCO")]
  /\ forall (m : Manager) (count : Z),
       dict_get (latest_cache_key "HCLTECH" count)
                (_cache (_invalidate_cache m "LT")) = None
       /\ dict_get (latest_cache_key "ULTRACEMCO" count)
                   (_cache (_invalidate_cache m "LT")) = None.
Proof.
  split; [vm_compute; reflexivity|].
  intros m count. rewrite !(proj1 (invalidate_cache_spec m "LT")).
  replace (contains "LT" (latest_cache_key "HCLTECH" count)) with true.
  - replace (contains "LT" (latest_cache_key "ULTRACEMCO" count)) with true;
      [split; reflexivity|].
    symmetry. apply contains_substring.
    exists "latest_U", (String.append "RACEMCO" (String.append "_" (str_of_int count))).
    reflexivity.
  - symmetry. apply contains_substring.
    exists "latest_HC", (String.append "ECH" (String.append "_" (str_of_int count))).
    reflexivity.
Qed.

(** ** The ranges [fetch_historical_data] requests *)

Section FetchWindows.

Import ZerodhaService.

Variable historical_data : Z -> Datetime -> Datetime -> string -> list Row.

Lemma day_positive : 0 < timedelta_days 1.
Proof. reflexivity. Qed.

Lemma fetch_loop_windows (token : Z) (interval : string) (end_date : Datetime) :
  forall (fuel : nat) (cur : Datetime) (all_rows : list Row)
         (requests : list (Datetime * Datetime)),
    end_date - cur < Z.of_nat fuel * timedelta_days 1 \/ end_date <= cur ->
    exists new,
      snd (fetch_loop historical_data fuel token interval end_date cur all_rows requests)
      = requests ++ new
      /\ windows_from end_date cur new.
Proof.
  induction fuel as [|fuel IH]; intros cur all_rows requests Hfuel; cbn [fetch_loop].
  - exists []. rewrite app_nil_r. split; [reflexivity|].
    constructor. cbn in Hfuel. lia.
  - destruct (cur <? end_date) eqn:Hlt.
    + apply Z.ltb_lt in Hlt. cbv zeta.
      set (nxt := Z.min (cur + timedelta_days 50) end_date).
      destruct (IH (nxt + timedelta_days 1)
                  (all_rows ++ historical_data token cur nxt interval)
                  (requests ++ [(cur, nxt)])) as (new & Hsnd & Hw).
      { pose proof day_positive. unfold timedelta_days in *. subst nxt. lia. }
      exists ((cur, nxt) :: new). split.
      * rewrite Hsnd, <- app_assoc. reflexivity.
      * constructor; assumption.
    + apply Z.ltb_ge in Hlt. exists []. rewrite app_nil_r. split; [reflexivity|].
      constructor. exact Hlt.
Qed.

Lemma loop_fuel_enough (start_date end_date : Datetime) :
  end_date - start_date < Z.of_nat (loop_fuel start_date end_date) * timedelta_days 1
  \/ end_date <= start_date.
Proof.
  destruct (Z_le_gt_dec end_date start_date) as [H|H]; [right; exact H|left].
  unfold loop_fuel. pose proof day_positive as Hd.
  rewrite Z2Nat.id by (apply Z.add_nonneg_nonneg; [apply Z.div_pos; lia|lia]).
  pose proof (Z.mod_pos_bound (end_date - start_date) (timedelta_days 1) Hd).
  pose proof (Z.div_mod (end_date - start_date) (timedelta_days 1) ltac:(lia)).
  nia.
Qed.

Lemma windows_from_facts (end_date : Z) :
  forall cur windows,
    windows_from end_date cur windows ->
    Forall (fun w => cur <= fst w /\ fst w < snd w /\ snd w <= end_date
                     /\ snd w - fst w <= timedelta_days 50) windows
    /\ one_day_apart windows
    /\ (cur < end_date ->
        exists to_ rest, windows = (cur, to_) :: rest)
    /\ (forall w, In w windows -> (forall w', In w' windows -> snd w' <= snd w) ->
                  end_date <= snd w + timedelta_days 1)
    /\ (forall w w', In w windows -> In w' windows -> snd w' <= snd w \/ snd w <= snd w').
Proof.
  intros cur windows H. induction H as [cur Hdone|cur rest Hlt Hrest IH].
  - split; [constructor|]. split; [exact I|]. split; [lia|].
    split; [intros w []|intros w w' []].
  - destruct IH as (Hall & Hapart & Hfirst & Hlast & _).
    set (nxt := Z.min (cur + timedelta_days 50) end_date) in *.
    assert (Hnxt : cur < nxt /\ nxt <= end_date /\ nxt - cur <= timedelta_days 50).
    { subst nxt. assert (0 < timedelta_days 50) by reflexivity. lia. }
    pose proof day_positive as Hd.
    assert (Hall' : Forall (fun w => nxt < fst w /\ nxt < snd w) rest).
    { eapply Forall_impl; [|exact Hall]. cbv beta. intros w Hw. lia. }
    split; [|split; [|split; [|split]]].
    + constructor; [cbn [fst snd]; lia|].
      eapply Forall_impl; [|exact Hall]. cbv beta. intros w Hw. lia.
    + cbn [one_day_apart]. split; [|exact Hapart].
      destruct rest as [|w' rest']; [exact I|].
      destruct (Z_lt_dec (nxt + timedelta_days 1) end_date) as [Hc|Hc].
      * destruct (Hfirst Hc) as (to_ & rest'' & Heq). injection Heq as Hw' _. subst w'.
        reflexivity.
      * inversion Hrest; lia.
    + intros _. eexists. eexists. reflexivity.
    + intros w [<-|Hin] Hmax.
      * cbn [snd]. destruct rest as [|w' rest'].
        -- inversion Hrest. lia.
        -- specialize (Hmax w' (or_intror (or_introl eq_refl))). cbn [snd] in Hmax.
           rewrite Forall_forall in Hall'.
           specialize (Hall' w' (or_introl eq_refl)). lia.
      * apply (Hlast w Hin). intros w' Hw'. apply Hmax. right. exact Hw'.
    + intros w w' _ _. lia.
Qed.

Lemma fetch_requests_windows (token : Z) (start_date end_date : Datetime)
    (interval : string) :
  token <> 0 ->
  windows_from end_date start_date
    (snd (fetch_historical_data historical_data (Some token) start_date end_date
            interval)).
Proof.
  intros Htoken. unfold fetch_historical_data.
  replace (token =? 0) with false by (symmetry; apply Z.eqb_neq; exact Htoken).
  destruct (fetch_loop_windows token interval end_date
              (loop_fuel start_date end_date) start_date [] []
              (loop_fuel_enough start_date end_date)) as (new & Hsnd & Hw).
  destruct (fetch_loop historical_data _ token interval end_date start_date [] [])
    as [all_rows reqs].
  cbn [snd app] in Hsnd. subst reqs.
  destruct all_rows; exact Hw.
Qed.

(** The loop of [fetch_historical_data] always comes to its end, and the
    ranges it requests are these: none when the end date is not after the
    start date; otherwise the first starts at the start date, every range
    is at most 50 days long and ends no later than the end date, every
    further range starts exactly one day after the end of the one before,
    and the last one ends at most one day before the end date. *)
Theorem fetch_requests_chain_of_ranges :
  forall (token : Z) (start_date end_date : Datetime) (interval : string),
    token <> 0 ->
    let requests :=
      snd (fetch_historical_data historical_data (Some token) start_date end_date
             interval) in
    windows_from end_date start_date requests
    /\ (end_date <= start_date -> requests = [])
    /\ (start_date < end_date -> exists to_ rest, requests = (start_date, to_) :: rest)
    /\ Forall (fun w => start_date <= fst w /\ fst w < snd w /\ snd w <= end_date
                        /\ snd w - fst w <= timedelta_days 50) requests
    /\ one_day_apart requests
    /\ (forall w, In w requests -> (forall w', In w' requests -> snd w' <= snd w) ->
                  end_date <= snd w + timedelta_days 1).
Proof.
  intros token start_date end_date interval Htoken requests.
  assert (Hreq : windows_from end_date start_date requests)
    by (apply fetch_requests_windows; exact Htoken).
  destruct (windows_from_facts end_date start_date requests Hreq)
    as (Hall & Hapart & Hfirst & Hlast & _).
  split; [exact Hreq|]. split; [|split; [exact Hfirst|]].
  - intros Hle. inversion Hreq; [reflexivity|lia].
  - split; [exact Hall|]. split; [exact Hapart|exact Hlast].
Qed.

(** When more than 50 days are asked for, the day that follows the first 50
    days is in no range the function requests: no instant strictly between
    50 and 51 days after the start date is. *)
Theorem fetch_skips_the_day_after_each_range :
  forall (token : Z) (start_date end_date : Datetime) (interval : string)
         (t : Datetime),
    token <> 0 ->
    start_date + timedelta_days 50 < end_date ->
    start_date + timedelta_days 50 < t < start_date + timedelta_days 51 ->
    forall w,
      In w (snd (fetch_historical_data historical_data (Some token) start_date
                   end_date interval)) ->
      ~ (fst w <= t <= snd w).
Proof.
  intros token start_date end_date interval t Htoken Hlong Ht w Hin.
  pose proof (fetch_requests_windows token start_date end_date interval Htoken)
    as Hreq.
  assert (H50 : timedelta_days 50 = 50 * timedelta_days 1) by reflexivity.
  assert (H51 : timedelta_days 51 = 51 * timedelta_days 1) by reflexivity.
  pose proof day_positive as Hd.
  revert Hin Hlong Ht.
  generalize dependent (snd (fetch_historical_data historical_data (Some token)
                               start_date end_date interval)).
  intros requests Hreq.
  destruct Hreq as [cur Hdone|cur rest Hlt Hrest]; intros Hin Hlong Ht.
  - destruct Hin.
  - destruct Hin as [<-|Hin].
    + cbn [fst snd]. lia.
    + destruct (windows_from_facts end_date _ rest Hrest) as (Hall & _).
      rewrite Forall_forall in Hall. specialize (Hall w Hin).
      destruct w as [a b]. cbn [fst snd] in *. lia.
Qed.

End FetchWindows.

Lemma fetch_requests_chain_of_ranges_witness :
  let requests :=
    snd (ZerodhaService.fetch_historical_data (fun _ _ _ _ => []) (Some 256265) 0
           (ZerodhaService.timedelta_days 120) "minute") in
  requests = [(0, ZerodhaService.timedelta_days 50); (ZerodhaService.timedelta_days 51, ZerodhaService.timedelta_days 101);
              (ZerodhaService.timedelta_days 102, ZerodhaService.timedelta_days 120)]
  /\ one_day_apart requests.
Proof.
  split; [reflexivity|].
  refine (proj1 (proj2 (proj2 (proj2 (proj2
    (fetch_requests_chain_of_ranges (fun _ _ _ _ => []) 256265 0 (ZerodhaService.timedelta_days 120) "minute" _)))))).
  discriminate.
Defined.

Lemma fetch_skips_the_day_after_each_range_witness :
  In (ZerodhaService.timedelta_days 51, ZerodhaService.timedelta_days 101)
     (snd (ZerodhaService.fetch_historical_data (fun _ _ _ _ => []) (Some 256265) 0
             (ZerodhaService.timedelta_days 120) "minute"))
  /\ ~ (ZerodhaService.timedelta_days 51 <= ZerodhaService.timedelta_days 50 + 1
        <= ZerodhaService.timedelta_days 101).
Proof.
  assert (Hin : In (ZerodhaService.timedelta_days 51, ZerodhaService.timedelta_days 101)
                   (snd (ZerodhaService.fetch_historical_data (fun _ _ _ _ => [])
                           (Some 256265) 0 (ZerodhaService.timedelta_days 120)
                           "minute"))).
  { right. left. reflexivity. }
  split; [exact Hin|].
  apply (fetch_skips_the_day_after_each_range (fun _ _ _ _ => []) 256265 0
           (ZerodhaService.timedelta_days 120) "minute"
           (ZerodhaService.timedelta_days 50 + 1)
           ltac:(discriminate) ltac:(reflexivity) ltac:(split; reflexivity)
           (ZerodhaService.timedelta_days 51, ZerodhaService.timedelta_days 101) Hin).
Defined.

(** ** The frame [fetch_historical_data] returns *)

Section FetchFrame.

Import ZerodhaService.

Variable historical_data : Z -> Datetime -> Datetime -> string -> list Row.

Lemma insert_by_timestamp_perm (x : Z * Row) (rows : list (Z * Row)) :
  Permutation (insert_by_timestamp x rows) (x :: rows).
Proof.
  induction rows as [|y rest IH]; cbn [insert_by_timestamp].
  - apply Permutation_refl.
  - destruct (ts_le (r_timestamp (snd x)) (r_timestamp (snd y))).
    + apply Permutation_refl.
    + eapply Permutation_trans; [apply perm_skip; exact IH|apply perm_swap].
Qed.

Lemma sort_values_perm (rows : list (Z * Row)) :
  Permutation (fold_right insert_by_timestamp [] rows) rows.
Proof.
  induction rows as [|x rest IH]; cbn [fold_right].
  - apply Permutation_refl.
  - eapply Permutation_trans; [apply insert_by_timestamp_perm|].
    apply perm_skip. exact IH.
Qed.

Lemma ts_le_total (a b : option Timestamp) : ts_le a b = false -> ts_le b a = true.
Proof.
  destruct a as [x|], b as [y|]; cbn; try congruence.
  intros H. apply Z.leb_gt in H. apply Z.leb_le. lia.
Qed.

Lemma ts_le_trans (a b c : option Timestamp) :
  ts_le a b = true -> ts_le b c = true -> ts_le a c = true.
Proof.
  destruct a as [x|], b as [y|], c as [z|]; cbn; try congruence.
  rewrite !Z.leb_le. lia.
Qed.

Lemma insert_by_timestamp_sorted (x : Z * Row) (rows : list (Z * Row)) :
  StronglySorted (fun a b => ts_le (timestamp_of a) (timestamp_of b) = true) rows ->
  StronglySorted (fun a b => ts_le (timestamp_of a) (timestamp_of b) = true)
    (insert_by_timestamp x rows).
Proof.
  induction rows as [|y rest IH]; intros Hs; cbn [insert_by_timestamp].
  - constructor; constructor.
  - inversion Hs as [|? ? Hrest Hall]; subst.
    destruct (ts_le (r_timestamp (snd x)) (r_timestamp (snd y))) eqn:E.
    + constructor; [exact Hs|]. constructor; [exact E|].
      eapply Forall_impl; [|exact Hall]. cbv beta. intros z Hz.
      exact (ts_le_trans _ _ _ E Hz).
    + constructor; [apply IH; exact Hrest|].
      rewrite Forall_forall. intros z Hz.
      apply (Permutation_in _ (insert_by_timestamp_perm x rest)) in Hz.
      destruct Hz as [<-|Hz].
      * apply ts_le_total. exact E.
      * rewrite Forall_forall in Hall. apply Hall. exact Hz.
Qed.

Lemma sort_values_sorted (rows : list (Z * Row)) :
  StronglySorted (fun a b => ts_le (timestamp_of a) (timestamp_of b) = true)
    (fold_right insert_by_timestamp [] rows).
Proof.
  induction rows as [|x rest IH]; cbn [fold_right].
  - constructor.
  - apply insert_by_timestamp_sorted. exact IH.
Qed.

Lemma existsb_opt_ts (t : option Timestamp) (seen : list (option Timestamp)) :
  existsb (opt_ts_eqb t) seen = true <-> In t seen.
Proof.
  rewrite existsb_exists. split.
  - intros (x & Hx & Heq). apply opt_ts_eqb_eq in Heq. subst x. exact Hx.
  - intros Hin. exists t. split; [exact Hin|apply opt_ts_eqb_eq; reflexivity].
Qed.

Lemma drop_duplicates_in (rows : list (Z * Row)) :
  forall seen t,
    In t (map timestamp_of (drop_duplicates seen rows))
    <-> In t (map timestamp_of rows) /\ ~ In t seen.
Proof.
  induction rows as [|lr rest IH]; intros seen t; cbn [drop_duplicates map].
  - cbn. tauto.
  - destruct (existsb (opt_ts_eqb (r_timestamp (snd lr))) seen) eqn:E.
    + apply existsb_opt_ts in E. rewrite IH. cbn [In]. unfold timestamp_of at 2.
      split; [tauto|]. intros [[<-|H] Hn]; [contradiction|tauto].
    + assert (Hn : ~ In (r_timestamp (snd lr)) seen).
      { intros H. apply existsb_opt_ts in H. congruence. }
      cbn [map In]. rewrite IH. cbn [In]. unfold timestamp_of at 1 3.
      assert (Hdec : r_timestamp (snd lr) = t \/ r_timestamp (snd lr) <> t).
      { destruct (opt_ts_eqb (r_timestamp (snd lr)) t) eqn:Ed.
        - left. apply opt_ts_eqb_eq. exact Ed.
        - right. intros Heq. apply opt_ts_eqb_eq in Heq. congruence. }
      destruct Hdec as [Heq|Hne].
      * subst t. tauto.
      * tauto.
Qed.

Lemma drop_duplicates_nodup (rows : list (Z * Row)) :
  forall seen, NoDup (map timestamp_of (drop_duplicates seen rows)).
Proof.
  induction rows as [|lr rest IH]; intros seen; cbn [drop_duplicates].
  - constructor.
  - destruct (existsb (opt_ts_eqb (r_timestamp (snd lr))) seen); [apply IH|].
    cbn [map]. constructor; [|apply IH].
    rewrite drop_duplicates_in. intros [_ H]. apply H. left. reflexivity.
Qed.

Lemma with_range_index_timestamps (rows : list Row) :
  forall i, map timestamp_of (with_range_index i rows) = map r_timestamp rows.
Proof.
  induction rows as [|r rest IH]; intros i; cbn [with_range_index map].
  - reflexivity.
  - rewrite IH. reflexivity.
Qed.

Lemma fetch_loop_rows (token : Z) (interval : string) (end_date : Datetime) :
  forall (fuel : nat) (cur : Datetime) (all_rows : list Row)
         (requests : list (Datetime * Datetime)),
    exists new,
      fetch_loop historical_data fuel token interval end_date cur all_rows requests
      = (all_rows
         ++ List.concat (map (fun w => historical_data token (fst w) (snd w) interval)
                           new),
         requests ++ new).
Proof.
  induction fuel as [|fuel IH]; intros cur all_rows requests; cbn [fetch_loop].
  - exists []. cbn. rewrite !app_nil_r. reflexivity.
  - destruct (cur <? end_date).
    + cbv zeta.
      destruct (IH (Z.min (cur + timedelta_days 50) end_date + timedelta_days 1)
                  (all_rows ++ historical_data token cur
                                 (Z.min (cur + timedelta_days 50) end_date) interval)
                  (requests ++ [(cur, Z.min (cur + timedelta_days 50) end_date)]))
        as (new & Heq).
      exists ((cur, Z.min (cur + timedelta_days 50) end_date) :: new).
      rewrite Heq. cbn [map List.concat fst snd]. rewrite <- !app_assoc. reflexivity.
    + exists []. cbn. rewrite !app_nil_r. reflexivity.
Qed.

(** The frame [fetch_historical_data] returns holds every timestamp that
    some request returned, and no other; it holds each of them once, in
    ascending order with the missing timestamp last.  So the duplicate check
    of the validator raises no issue on it. *)
Theorem fetched_frame_has_each_timestamp_once :
  forall (token : Z) (start_date end_date : Datetime) (interval : string),
    let result :=
      fetch_historical_data historical_data (Some token) start_date end_date
        interval in
    (forall t,
        In t (map timestamp_of (df_rows (fst result)))
        <-> exists w, In w (snd result)
                      /\ In t (map r_timestamp
                                 (historical_data token (fst w) (snd w) interval)))
    /\ NoDup (map timestamp_of (df_rows (fst result)))
    /\ StronglySorted (fun a b => ts_le (timestamp_of a) (timestamp_of b) = true)
         (df_rows (fst result))
    /\ (forall (rules : ValidationRules) (st : VState),
           issues (DataValidator.duplicates_check rules (fst result) st) = issues st).
Proof.
  intros token start_date end_date interval result.
  assert (Hmain :
    (forall t,
        In t (map timestamp_of (df_rows (fst result)))
        <-> exists w, In w (snd result)
                      /\ In t (map r_timestamp
                                 (historical_data token (fst w) (snd w) interval)))
    /\ NoDup (map timestamp_of (df_rows (fst result)))
    /\ StronglySorted (fun a b => ts_le (timestamp_of a) (timestamp_of b) = true)
         (df_rows (fst result))).
  { subst result. unfold fetch_historical_data.
    destruct (token =? 0).
    { cbn. split; [|split; constructor].
      intros t. split; [intros []|intros (w & [] & _)]. }
    destruct (fetch_loop_rows token interval end_date (loop_fuel start_date end_date)
                start_date [] []) as (new & Heq).
    rewrite Heq. cbn [app].
    assert (Hin : forall t,
               In t (map r_timestamp
                       (List.concat (map (fun w => historical_data token (fst w) (snd w)
                                                interval) new)))
               <-> exists w, In w new
                             /\ In t (map r_timestamp
                                        (historical_data token (fst w) (snd w) interval))).
    { intros t. rewrite in_map_iff. split.
      - intros (r & Hr & Hc). apply in_concat in Hc. destruct Hc as (l & Hl & Hrl).
        apply in_map_iff in Hl. destruct Hl as (w & <- & Hw).
        exists w. split; [exact Hw|]. apply in_map_iff. exists r. tauto.
      - intros (w & Hw & Ht). apply in_map_iff in Ht. destruct Ht as (r & Hr & Hrl).
        exists r. split; [exact Hr|]. apply in_concat.
        exists (historical_data token (fst w) (snd w) interval). split; [|exact Hrl].
        apply in_map_iff. exists w. tauto. }
    destruct (List.concat (map (fun w => historical_data token (fst w) (snd w) interval)
                             new)) as [|r all_rows] eqn:Hrows.
    { cbn [fst snd df_rows map]. split; [|split; constructor].
      intros t. rewrite <- Hin. reflexivity. }
    cbn [fst snd sort_values_timestamp df_rows].
    set (rows := drop_duplicates [] (with_range_index 0 (r :: all_rows))).
    pose proof (sort_values_perm rows) as Hperm.
    split; [|split].
    - intros t. rewrite <- Hin, <- (with_range_index_timestamps (r :: all_rows) 0).
      split.
      + intros H.
        apply (Permutation_in _ (Permutation_map timestamp_of Hperm)) in H.
        subst rows. apply drop_duplicates_in in H. tauto.
      + intros H.
        apply (Permutation_in _ (Permutation_sym (Permutation_map timestamp_of Hperm))).
        subst rows. apply drop_duplicates_in. split; [exact H|intros []].
    - apply (Permutation_NoDup (Permutation_sym (Permutation_map timestamp_of Hperm))).
      subst rows. apply drop_duplicates_nodup.
    - apply sort_values_sorted. }
  destruct Hmain as (Hin & Hnd & Hs).
  split; [exact Hin|]. split; [exact Hnd|]. split; [exact Hs|].
  intros rules st. unfold DataValidator.duplicates_check.
  destruct (duplicate_check rules); [|reflexivity].
  destruct (has_column (fst result) "timestamp"); [|reflexivity].
  assert (Hzero : duplicated_count [] (timestamps (df_rows (fst result))) = 0).
  { apply duplicated_count_zero. split; [|intros ? _ []].
    unfold timestamps. rewrite map_map. exact Hnd. }
  rewrite Hzero. reflexivity.
Qed.

End FetchFrame.
